(** * process_pickles: decoding, aggregation and storage of recorded episodes

    A shallow embedding of [src/data_processing/process_pickles.py].
    - numpy arrays are modelled with their shape kept explicit, so that
      [a.shape[1]] on a one-dimensional array raises as it does in numpy;
    - Python exceptions are values of [exn], fallible code returns [result];
    - the zarr store, the clock and the event log live in a [world] that is
      threaded through the script, and that keeps its effects when an
      exception is raised. *)

From Stdlib Require Import ZArith String List Floats.
From stdpp Require Import base list strings gmap pretty.

(** ** Exceptions and fallible computations *)

Inductive exn :=
| AssertionError (msg : string)
| IndexError (msg : string)
| ValueError (msg : string)
| KeyError (msg : string)
| OSError (msg : string).

Inductive result (A : Type) :=
| Ok (a : A)
| Raise (e : exn).
Arguments Ok {A} a.
Arguments Raise {A} e.

#[global] Instance result_ret : MRet result := fun _ a => Ok a.
#[global] Instance result_bind : MBind result := fun _ _ f m =>
  match m with Ok a => f a | Raise e => Raise e end.
#[global] Instance result_fmap : FMap result := fun _ _ f m =>
  match m with Ok a => Ok (f a) | Raise e => Raise e end.

(** [assert cond, msg] *)
Definition py_assert (cond : bool) (msg : string) : result unit :=
  if cond then Ok tt else Raise (AssertionError msg).

Definition is_ok {A} (r : result A) : bool :=
  match r with Ok _ => true | Raise _ => false end.

(** ** numpy arrays

    The float channels are built from lists of scalars and lists of
    vectors, so they have one or two dimensions.  A [Mat w rows] has shape
    [(length rows, w)]; a [Vec v] has shape [(length v,)]. *)

Section Numpy.
Context {F : Type}.

Inductive ndarray :=
| Vec (v : list F)
| Mat (ncols : nat) (rows : list (list F)).

Definition len (a : ndarray) : nat :=
  match a with Vec v => length v | Mat _ rows => length rows end.

Definition shape (a : ndarray) : list nat :=
  match a with
  | Vec v => [length v]
  | Mat w rows => [length rows; w]
  end.

(** [a.shape[i]] *)
Definition shape_at (a : ndarray) (i : nat) : result nat :=
  match shape a !! i with
  | Some n => Ok n
  | None => Raise (IndexError "tuple index out of range")
  end.

(** Every row of a two-dimensional array has the declared width. *)
Definition well_shaped (a : ndarray) : Prop :=
  match a with
  | Vec _ => True
  | Mat w rows => Forall (fun r => length r = w) rows
  end.

(** [l[:-1]] and [l[1:]] on a Python sequence *)
Definition py_init {A} (l : list A) : list A := take (length l - 1) l.
Definition py_tail {A} (l : list A) : list A := drop 1 l.

(** [a[:-1]] *)
Definition drop_last (a : ndarray) : ndarray :=
  match a with
  | Vec v => Vec (py_init v)
  | Mat w rows => Mat w (py_init rows)
  end.

(** [a[1:]] *)
Definition drop_first (a : ndarray) : ndarray :=
  match a with
  | Vec v => Vec (py_tail v)
  | Mat w rows => Mat w (py_tail rows)
  end.

(** [r[start:stop]] on one row; [stop = None] is an open end. *)
Definition row_slice (start : nat) (stop : option nat) (r : list F) : list F :=
  match stop with
  | Some j => take (j - start) (drop start r)
  | None => drop start r
  end.

(** [a[:, start:stop]] *)
Definition cols (a : ndarray) (start : nat) (stop : option nat) : result ndarray :=
  match a with
  | Vec _ =>
      Raise (IndexError "too many indices for array: array is 1-dimensional, but 2 were indexed")
  | Mat w rows =>
      let hi := match stop with Some j => j `min` w | None => w end in
      Ok (Mat (hi - start `min` w) (map (row_slice start stop) rows))
  end.

(** [np.concatenate([a, b], axis=1)] *)
Definition hstack (a b : ndarray) : result ndarray :=
  match a, b with
  | Mat w1 r1, Mat w2 r2 =>
      if length r1 =? length r2
      then Ok (Mat (w1 + w2) (zip_with app r1 r2))
      else Raise (ValueError "all the input array dimensions except for the concatenation axis must match exactly")
  | _, _ => Raise (ValueError "axis 1 is out of bounds for array of dimension 1")
  end.

(** [np.concatenate([a, b], axis=0)] *)
Definition vstack (a b : ndarray) : result ndarray :=
  match a, b with
  | Vec v1, Vec v2 => Ok (Vec (v1 ++ v2))
  | Mat w1 r1, Mat w2 r2 =>
      if w1 =? w2
      then Ok (Mat w1 (r1 ++ r2))
      else Raise (ValueError "all the input array dimensions except for the concatenation axis must match exactly")
  | _, _ => Raise (ValueError "all the input arrays must have same number of dimensions")
  end.

Fixpoint concat_from (stack : ndarray -> ndarray -> result ndarray)
    (acc : ndarray) (l : list ndarray) : result ndarray :=
  match l with
  | [] => Ok acc
  | a :: l' => acc' ← stack acc a; concat_from stack acc' l'
  end.

(** [np.concatenate(l, axis=...)]: an empty list is refused. *)
Definition np_concatenate (stack : ndarray -> ndarray -> result ndarray)
    (l : list ndarray) : result ndarray :=
  match l with
  | [] => Raise (ValueError "need at least one array to concatenate")
  | a :: l' => concat_from stack a l'
  end.

(** [np.array(l, dtype=...)] on a list of vectors: no vector gives the
    one-dimensional array of shape [(0,)], vectors of one width [w] give
    shape [(n, w)], and ragged input is refused. *)
Definition np_array_rows {R} (cast : R -> F) (l : list (list R)) : result ndarray :=
  match l with
  | [] => Ok (Vec [])
  | r :: _ =>
      if forallb (fun r' => length r' =? length r) l
      then Ok (Mat (length r) (map (map cast) l))
      else Raise (ValueError "setting an array element with a sequence. The requested array has an inhomogeneous shape")
  end.

(** [np.array(l, dtype=...)] on a list of scalars *)
Definition np_array_scalars {R} (cast : R -> F) (l : list R) : ndarray :=
  Vec (map cast l).
End Numpy.
Arguments ndarray F : clear implicits.

(** ** Kinematic transforms *)

Section Kinematics.
Context {F : Type}.

(** The quaternion to 6D rotation map of [src.common.geometry], on one
    quaternion. *)
Variable quat_to_rot_6d : F * F * F * F -> F * F * F * F * F * F.

Definition rot_6d_list (r : F * F * F * F * F * F) : list F :=
  let '(a, b, c, d, e, f) := r in [a; b; c; d; e; f].

Definition rot_6d_row (q : list F) : list F :=
  match q with
  | [x; y; z; w] => rot_6d_list (quat_to_rot_6d (x, y, z, w))
  | _ => []
  end.

(** Modelled from the spec: [np_isaac_quat_to_rot_6d] of
    [src/common/geometry.py] is not among the sources.  The spec gives
    [expandOrientation(quaternion[4]) -> rotation6D[6]] applied to every
    row of a batch independently; the batch must be [(n, 4)]. *)
Definition np_isaac_quat_to_rot_6d (quat : ndarray F) : result (ndarray F) :=
  match quat with
  | Mat 4 rows => Ok (Mat 6 (map rot_6d_row rows))
  | _ => Raise (ValueError "quaternions must have shape (n, 4)")
  end.

Definition action_to_6d_rotation (action : ndarray F) : result (ndarray F) :=
  w ← shape_at action 1;
  _ ← py_assert (w =? 8) "Action must be 8D";
  (* Get each part of the action *)
  delta_pos ← cols action 0 (Some 3);
  delta_quat ← cols action 3 (Some 7);
  delta_gripper ← cols action 7 None;
  (* Convert quaternion to 6D rotation *)
  delta_rot ← np_isaac_quat_to_rot_6d delta_quat;
  (* Concatenate all parts *)
  np_concatenate hstack [delta_pos; delta_rot; delta_gripper].

Definition proprioceptive_to_6d_rotation (robot_state : ndarray F) : result (ndarray F) :=
  w ← shape_at robot_state 1;
  _ ← py_assert (w =? 14) "Robot state must be 14D";
  pos ← cols robot_state 0 (Some 3);
  ori_quat ← cols robot_state 3 (Some 7);
  pos_vel ← cols robot_state 7 (Some 10);
  ori_vel ← cols robot_state 10 (Some 13);
  gripper ← cols robot_state 13 None;
  ori_6d ← np_isaac_quat_to_rot_6d ori_quat;
  np_concatenate hstack [pos; ori_6d; pos_vel; ori_vel; gripper].

Definition extract_ee_pose_6d (robot_state : ndarray F) : result (ndarray F) :=
  w ← shape_at robot_state 1;
  _ ← py_assert (w =? 16) "Robot state must be 16D";
  pos ← cols robot_state 0 (Some 3);
  ori_6d ← cols robot_state 3 (Some 9);
  np_concatenate hstack [pos; ori_6d].

(** What the three transforms do to one row of the right width. *)
Definition action_row_6d (r : list F) : list F :=
  row_slice 0 (Some 3) r ++ rot_6d_row (row_slice 3 (Some 7) r) ++ row_slice 7 None r.

Definition state_row_6d (r : list F) : list F :=
  row_slice 0 (Some 3) r ++ rot_6d_row (row_slice 3 (Some 7) r)
    ++ row_slice 7 (Some 10) r ++ row_slice 10 (Some 13) r ++ row_slice 13 None r.

Definition pose_row_6d (r : list F) : list F :=
  row_slice 0 (Some 3) r ++ row_slice 3 (Some 9) r.
End Kinematics.

(** ** Paths *)

(** A [pathlib.Path], as its [parts]: an absolute path starts with its
    root, the part ["/"] or ["//"]. *)
Record Path := { parts : list string }.

#[global] Instance Path_eq_dec : EqDecision Path.
Proof. solve_decision. Defined.

(** [str(path)]: the root, when there is one, followed by the other
    parts joined with ["/"]; the path without parts is ["."]. *)
Definition path_str (p : Path) : string :=
  match parts p with
  | [] => "."
  | root :: rest =>
      if String.eqb root "/" || String.eqb root "//"
      then root +:+ String.concat "/" rest
      else String.concat "/" (root :: rest)
  end.

(** [t.index(x)]: the first position of [x], [ValueError] when absent. *)
Fixpoint tuple_index (x : string) (t : list string) : result nat :=
  match t with
  | [] => Raise (ValueError "tuple.index(x): x not in tuple")
  | y :: t' => if String.eqb y x then Ok 0 else S <$> tuple_index x t'
  end.

(** ** Images *)

(** One camera frame: a [uint8] array with its shape and row-major bytes. *)
Record image := { img_shape : list nat; img_data : list Z }.

(** A stack of frames: shape [length frames :: frame_shape].  The array
    built from no frame at all has shape [(0,)], that is [frame_shape = []]. *)
Record imgarray := { frame_shape : list nat; frames : list (list Z) }.

Definition img_len (a : imgarray) : nat := length (frames a).
Definition imgarray_shape (a : imgarray) : list nat := img_len a :: frame_shape a.

Definition to_uint8 (z : Z) : Z := (z mod 256)%Z.

Definition shape_eqb (s1 s2 : list nat) : bool := bool_decide (s1 = s2).

(** [repr(shape)] of a tuple of integers *)
Definition tuple_repr (shp : list nat) : string :=
  match shp with
  | [] => "()"
  | [n] => "(" +:+ pretty n +:+ ",)"
  | _ => "(" +:+ String.concat ", " (map pretty shp) +:+ ")"
  end.

Definition shape_mismatch_message (expected got : list nat) : string :=
  "parameter 'value': expected array with shape " +:+ tuple_repr expected
    +:+ ", got " +:+ tuple_repr got.

(** [np.array(l, dtype=np.uint8)] on a list of frames *)
Definition np_array_images (l : list image) : result imgarray :=
  match l with
  | [] => Ok {| frame_shape := []; frames := [] |}
  | i :: _ =>
      if forallb (fun i' => shape_eqb (img_shape i') (img_shape i)) l
      then Ok {| frame_shape := img_shape i;
                 frames := map (fun i' => map to_uint8 (img_data i')) l |}
      else Raise (ValueError "setting an array element with a sequence. The requested array has an inhomogeneous shape")
  end.

(** [a[:-1]] *)
Definition img_drop_last (a : imgarray) : imgarray :=
  {| frame_shape := frame_shape a; frames := py_init (frames a) |}.

(** [np.concatenate([a, b])] on two stacks of frames *)
Definition img_vstack (a b : imgarray) : result imgarray :=
  if shape_eqb (frame_shape a) (frame_shape b)
  then Ok {| frame_shape := frame_shape a; frames := frames a ++ frames b |}
  else Raise (ValueError "all the input array dimensions except for the concatenation axis must match exactly").

Fixpoint img_concat_from (acc : imgarray) (l : list imgarray) : result imgarray :=
  match l with
  | [] => Ok acc
  | a :: l' => acc' ← img_vstack acc a; img_concat_from acc' l'
  end.

Definition img_concatenate (l : list imgarray) : result imgarray :=
  match l with
  | [] => Raise (ValueError "need at least one array to concatenate")
  | a :: l' => img_concat_from a l'
  end.

(** ** The episode decoder *)

Section Decoder.
(** [R]: the numbers stored in a pickle; [F]: [float32] values;
    [RobotState]: the robot-state dictionary of one observation. *)
Context {R F RobotState : Type}.
Variable float32 : R -> F.
Variable quat_to_rot_6d : F * F * F * F -> F * F * F * F * F * F.
(** [furniture_bench.robot.robot_state.filter_and_concat_robot_state] *)
Variable filter_and_concat_robot_state : RobotState -> list R.

Record Observation := {
  obs_color_image1 : image;
  obs_color_image2 : image;
  obs_robot_state : RobotState;
}.

Record Trajectory := {
  observations : list Observation;
  actions : list (list R);
  rewards : list R;
  skills : list R;
  furniture : string;
  success : bool;
}.

(** [src.visualization.render_mp4.unpickle_data]: what each path holds. *)
Variable unpickle_data : Path -> result Trajectory.

Record ProcessedData := {
  robot_state : ndarray F;
  color_image1 : imgarray;
  color_image2 : imgarray;
  action_delta : ndarray F;
  action_pos : ndarray F;
  reward : ndarray F;
  skill : ndarray F;
  episode_length : nat;
  pd_furniture : string;
  pd_success : bool;
  pickle_file : string;
}.

Definition mismatch_message (pickle_path : Path) (n_state n_action : nat) : string :=
  "Mismatch in " +:+ path_str pickle_path +:+ ", lengths differ by "
    +:+ pretty (Z.of_nat n_state - Z.of_nat n_action)%Z.

Definition process_pickle_file (pickle_path : Path) (noop_threshold : float)
    : result ProcessedData :=
  data ← unpickle_data pickle_path;
  let obs := observations data in
  (* Extract the observations and convert to 6D rotation *)
  color_image1 ← img_drop_last <$> np_array_images (map obs_color_image1 obs);
  color_image2 ← img_drop_last <$> np_array_images (map obs_color_image2 obs);
  all_robot_state ←
    np_array_rows float32
      (map (fun o => filter_and_concat_robot_state (obs_robot_state o)) obs);
  all_robot_state ← proprioceptive_to_6d_rotation quat_to_rot_6d all_robot_state;
  let robot_state := drop_last all_robot_state in
  (* Extract the delta actions and convert to 6D rotation *)
  action_delta ← np_array_rows float32 (actions data);
  action_delta ← action_to_6d_rotation quat_to_rot_6d action_delta;
  (* Extract the position control actions *)
  action_pos ← extract_ee_pose_6d (drop_first all_robot_state);
  (* Extract the rewards and skills *)
  let reward := np_array_scalars float32 (rewards data) in
  let skill := np_array_scalars float32 (skills data) in
  (* Sanity check that all arrays are the same length *)
  _ ← py_assert (len robot_state =? len action_delta)
        (mismatch_message pickle_path (len robot_state) (len action_delta));
  (* The pickle file name is the path after `raw` *)
  i ← tuple_index "raw" (parts pickle_path);
  let pickle_file := String.concat "/" (drop (i + 1) (parts pickle_path)) in
  Ok {| robot_state := robot_state;
        color_image1 := color_image1;
        color_image2 := color_image2;
        action_delta := action_delta;
        action_pos := action_pos;
        reward := reward;
        skill := skill;
        episode_length := len action_delta;
        pd_furniture := furniture data;
        pd_success := success data;
        pickle_file := pickle_file |}.
End Decoder.

(** ** The parallel aggregator *)

(** [concurrent.futures.as_completed]: the futures in the order in which
    they finish.  The schedule [sched] picks, at each step, which of the
    pending futures finishes next; once it is exhausted the remaining
    futures finish in submission order.  Every schedule yields a
    permutation of the submitted futures. *)
Fixpoint as_completed {A} (sched : list nat) (pending : list A) : list A :=
  match sched with
  | [] => pending
  | k :: sched' =>
      match pending with
      | [] => []
      | _ :: _ =>
          let i := k mod length pending in
          match pending !! i with
          | Some x => x :: as_completed sched' (delete i pending)
          | None => pending
          end
      end
  end.

(** The boundaries of episodes of the given lengths laid end to end from
    offset [start]: the reference against which [episode_ends] is checked. *)
Fixpoint running_ends (start : nat) (lengths : list nat) : list nat :=
  match lengths with
  | [] => []
  | n :: lengths' => (start + n) :: running_ends (start + n) lengths'
  end.

(** [ThreadPoolExecutor(max_workers=n)]: a pool without workers is
    refused, before any task can be submitted. *)
Definition thread_pool (max_workers : nat) : result unit :=
  if max_workers =? 0
  then Raise (ValueError "max_workers must be greater than 0")
  else Ok tt.

Section Aggregator.
Context {R F RobotState : Type}.
Variable float32 : R -> F.
Variable quat_to_rot_6d : F * F * F * F -> F * F * F * F * F * F.
Variable filter_and_concat_robot_state : RobotState -> list R.
Variable unpickle_data : Path -> result (@Trajectory R RobotState).

Abbreviation process_pickle_file :=
  (process_pickle_file float32 quat_to_rot_6d filter_and_concat_robot_state unpickle_data).

(** [aggregated_data] while the results are collected: one list per key. *)
Record Accumulator := {
  acc_robot_state : list (ndarray F);
  acc_color_image1 : list imgarray;
  acc_color_image2 : list imgarray;
  acc_action_delta : list (ndarray F);
  acc_action_pos : list (ndarray F);
  acc_reward : list (ndarray F);
  acc_skill : list (ndarray F);
  acc_episode_ends : list nat;
  acc_furniture : list string;
  acc_success : list bool;
  acc_pickle_file : list string;
}.

Definition empty_accumulator : Accumulator :=
  {| acc_robot_state := []; acc_color_image1 := []; acc_color_image2 := [];
     acc_action_delta := []; acc_action_pos := []; acc_reward := [];
     acc_skill := []; acc_episode_ends := []; acc_furniture := [];
     acc_success := []; acc_pickle_file := [] |}.

(** [episode_ends[-1] if len(episode_ends) > 0 else 0] *)
Definition last_end (episode_ends : list nat) : nat :=
  match last episode_ends with Some e => e | None => 0 end.

(** The body of the loop over the keys of one result. *)
Definition aggregate_one (agg : Accumulator) (data : ProcessedData) : Accumulator :=
  {| acc_robot_state := acc_robot_state agg ++ [robot_state data];
     acc_color_image1 := acc_color_image1 agg ++ [color_image1 data];
     acc_color_image2 := acc_color_image2 agg ++ [color_image2 data];
     acc_action_delta := acc_action_delta agg ++ [action_delta data];
     acc_action_pos := acc_action_pos agg ++ [action_pos data];
     acc_reward := acc_reward agg ++ [reward data];
     acc_skill := acc_skill agg ++ [skill data];
     acc_episode_ends :=
       acc_episode_ends agg
         ++ [last_end (acc_episode_ends agg) + episode_length data];
     acc_furniture := acc_furniture agg ++ [pd_furniture data];
     acc_success := acc_success agg ++ [pd_success data];
     acc_pickle_file := acc_pickle_file agg ++ [pickle_file data] |}.

(** The loop over the completed futures: [future.result()] re-raises the
    exception of a failed task, which leaves the loop. *)
Fixpoint collect (agg : Accumulator) (completed : list (result (@ProcessedData F)))
    : result Accumulator :=
  match completed with
  | [] => Ok agg
  | future :: rest => data ← future; collect (aggregate_one agg data) rest
  end.

(** [aggregated_data] as returned: the per-timestep keys concatenated. *)
Record AggregatedData := {
  ad_robot_state : ndarray F;
  ad_color_image1 : imgarray;
  ad_color_image2 : imgarray;
  ad_action_delta : ndarray F;
  ad_action_pos : ndarray F;
  ad_reward : ndarray F;
  ad_skill : ndarray F;
  ad_episode_ends : list nat;
  ad_furniture : list string;
  ad_success : list bool;
  ad_pickle_file : list string;
}.

Definition concatenate_all (agg : Accumulator) : result AggregatedData :=
  rs ← np_concatenate vstack (acc_robot_state agg);
  c1 ← img_concatenate (acc_color_image1 agg);
  c2 ← img_concatenate (acc_color_image2 agg);
  ad ← np_concatenate vstack (acc_action_delta agg);
  ap ← np_concatenate vstack (acc_action_pos agg);
  rw ← np_concatenate vstack (acc_reward agg);
  sk ← np_concatenate vstack (acc_skill agg);
  Ok {| ad_robot_state := rs; ad_color_image1 := c1; ad_color_image2 := c2;
        ad_action_delta := ad; ad_action_pos := ap; ad_reward := rw;
        ad_skill := sk;
        ad_episode_ends := acc_episode_ends agg;
        ad_furniture := acc_furniture agg;
        ad_success := acc_success agg;
        ad_pickle_file := acc_pickle_file agg |}.

(** The results, in completion order, of the tasks submitted for
    [pickle_paths]. *)
Definition completed_results (sched : list nat) (pickle_paths : list Path)
    (noop_threshold : float) : list (result ProcessedData) :=
  as_completed sched
    (map (fun path => process_pickle_file path noop_threshold) pickle_paths).

Definition parallel_process_pickle_files (sched : list nat)
    (pickle_paths : list Path) (noop_threshold : float) (num_threads : nat)
    : result AggregatedData :=
  _ ← thread_pool num_threads;
  agg ← collect empty_accumulator (completed_results sched pickle_paths noop_threshold);
  concatenate_all agg.
End Aggregator.

(** ** The zarr store and the script *)

Inductive dtype := Float32 | UInt8 | UInt32 | Str.

Inductive shuffle_mode := NOSHUFFLE | SHUFFLE | BITSHUFFLE.

(** [numcodecs.Blosc] *)
Record Blosc := { cname : string; clevel : nat; shuffle : shuffle_mode }.

(** What the script observably does, in order. *)
Inductive event :=
| EvSubmit (path : Path)          (* a decode task is handed to the pool *)
| EvOpen (path : Path)            (* the store is created *)
| EvSetAttr (key : string)
| EvCreateDataset (name : string)
| EvWrite (name : string).

#[global] Instance event_eq_dec : EqDecision event.
Proof. solve_decision. Defined.

(** [python_in needle s]: the Python test [needle in s] on strings. *)
Definition python_in (needle s : string) : bool :=
  match String.index 0 needle s with Some _ => true | None => false end.

Section Store.
Context {F : Type}.

(** The values held by the keys of [aggregated_data]. *)
Inductive value :=
| VFloat (a : ndarray F)
| VImage (a : imgarray)
| VInts (l : list nat)
| VStrs (l : list string)
| VBools (l : list bool).

Definition value_shape (v : value) : list nat :=
  match v with
  | VFloat a => shape a
  | VImage a => imgarray_shape a
  | VInts l => [length l]
  | VStrs l => [length l]
  | VBools l => [length l]
  end.

Inductive attr := AStr (s : string) | AFloat (x : float) | AInt (n : nat).

Record dataset := {
  ds_shape : list nat;
  ds_dtype : dtype;
  ds_chunks : list nat;
  ds_compressor : option Blosc;    (* [None]: the library's default *)
  ds_data : option value;          (* [None]: nothing written yet *)
}.

Record store := {
  attrs : gmap string attr;
  datasets : gmap string dataset;
}.

Definition empty_store : store := {| attrs := ∅; datasets := ∅ |}.

(** The file system (the stores, by the parts of their path), the clock
    read by [datetime.now()], and the log of events. *)
Record world := {
  fs : gmap (list string) store;
  clock : nat;
  log : list event;
}.

(** A step of the script: it may raise, and the world it leaves behind
    keeps whatever was done before the exception. *)
Definition IO (A : Type) : Type := world -> world * result A.

Definition io_ret {A} (a : A) : IO A := fun w => (w, Ok a).
Definition io_bind {A B} (m : IO A) (k : A -> IO B) : IO B :=
  fun w => match m w with
           | (w', Ok a) => k a w'
           | (w', Raise e) => (w', Raise e)
           end.
Definition io_raise {A} (e : exn) : IO A := fun w => (w, Raise e).
Definition io_lift {A} (r : result A) : IO A := fun w => (w, r).
Definition io_log (ev : event) : IO unit :=
  fun w => ({| fs := fs w; clock := clock w; log := log w ++ [ev] |}, Ok tt).

(** [for x in l: body(x)] *)
Fixpoint io_for {A} (l : list A) (body : A -> IO unit) : IO unit :=
  match l with
  | [] => io_ret tt
  | x :: l' => io_bind (body x) (fun _ => io_for l' body)
  end.

(** [output_path.exists()] *)
Definition path_exists (p : Path) : IO bool :=
  fun w => (w, Ok (bool_decide (is_Some (fs w !! parts p)))).

(** [datetime.now().astimezone().isoformat()] *)
Definition now_isoformat : IO string :=
  fun w => ({| fs := fs w; clock := S (clock w); log := log w |},
            Ok (pretty (clock w))).

Definition update_store (p : Path) (f : store -> store) (w : world) : world :=
  {| fs := alter f (parts p) (fs w); clock := clock w; log := log w |}.

(** [zarr.open(str(path), mode="w")]: create, replacing what is there. *)
Definition zarr_open_w (p : Path) : IO Path :=
  fun w => ({| fs := <[parts p := empty_store]> (fs w);
               clock := clock w;
               log := log w ++ [EvOpen p] |}, Ok p).

(** [z.attrs[key] = v] *)
Definition attrs_set (z : Path) (key : string) (v : attr) : IO unit :=
  fun w =>
    (update_store z (fun s => {| attrs := <[key := v]> (attrs s);
                                 datasets := datasets s |})
       {| fs := fs w; clock := clock w; log := log w ++ [EvSetAttr key] |},
     Ok tt).

(** [z.create_dataset(name, shape=..., dtype=..., chunks=..., compressor=...)].
    The dataset is kept under its name as given.  zarr normalises names,
    keeps arrays and groups apart and checks the chunks against the
    shape; this is not modelled, so the definition stands for plain
    names that do not nest (see [plain_name] and [nested] below), as the
    eleven names of the script are, and for chunks of the dimension of
    the shape. *)
Definition create_dataset (z : Path) (name : string) (shp : list nat)
    (dt : dtype) (chunks : list nat) (compressor : option Blosc) : IO unit :=
  fun w =>
    match fs w !! parts z with
    | None => (w, Raise (OSError "store not found"))
    | Some s =>
        match datasets s !! name with
        | Some _ => (w, Raise (ValueError ("path '" +:+ name +:+ "' contains an array")))
        | None =>
            let d := {| ds_shape := shp; ds_dtype := dt; ds_chunks := chunks;
                        ds_compressor := compressor; ds_data := None |} in
            (update_store z (fun s => {| attrs := attrs s;
                                         datasets := <[name := d]> (datasets s) |})
               {| fs := fs w; clock := clock w;
                  log := log w ++ [EvCreateDataset name] |},
             Ok tt)
        end
    end.

(** The storage under the store.  [write_fault] tells the channels
    whose bulk write fails on the way.  A bulk write goes chunk by chunk,
    so a write that fails can leave part of the data behind:
    [torn_write name old v] is what the dataset [name] holds after the
    write of [v] over [old] has failed.  [astype_other] is numpy's
    conversion for the pairs of dtype and value that the script never
    forms. *)
Variable write_fault : string -> bool.
Variable torn_write : string -> option value -> value -> option value.
Variable astype_other : dtype -> value -> result value.

(** [n] as an unsigned integer of [bits] bits *)
Definition wrap (bits : Z) (n : nat) : nat :=
  Z.to_nat (Z.of_nat n mod 2 ^ bits).

(** [value.astype(dtype)], which zarr applies to what is written.  The
    float channels are [float32] arrays and the frames [uint8] arrays
    already, and strings stay strings.  A list of Python integers is an
    [int64] array (lengths of arrays are below [2^63]), which wraps
    around in [uint32]; booleans become 0 and 1. *)
Definition astype (dt : dtype) (v : value) : result value :=
  match dt, v with
  | Float32, VFloat a => Ok (VFloat a)
  | UInt8, VImage a => Ok (VImage a)
  | UInt32, VInts l => Ok (VInts (map (wrap 32) l))
  | UInt8, VBools l => Ok (VInts (map Nat.b2n l))
  | Str, VStrs l => Ok (VStrs l)
  | _, _ => astype_other dt v
  end.

(** The dataset [d] holding [data]. *)
Definition with_data (d : dataset) (data : option value) : dataset :=
  {| ds_shape := ds_shape d; ds_dtype := ds_dtype d; ds_chunks := ds_chunks d;
     ds_compressor := ds_compressor d; ds_data := data |}.

(** The chunk loop of a bulk write: what gets stored, or the exception
    that stops it. *)
Definition bulk_write (name : string) (d : dataset) (v : value) : result value :=
  if write_fault name then Raise (OSError "write failed")
  else astype (ds_dtype d) v.

(** [z[name][:] = v]: the dataset is looked up, the shape of the value is
    checked against it, then the chunks are written. *)
Definition write_channel (z : Path) (name : string) (v : value) : IO unit :=
  fun w =>
    match fs w !! parts z with
    | None => (w, Raise (OSError "store not found"))
    | Some s =>
        match datasets s !! name with
        | None => (w, Raise (KeyError name))
        | Some d =>
            if negb (shape_eqb (value_shape v) (ds_shape d))
            then (w, Raise (ValueError (shape_mismatch_message (ds_shape d) (value_shape v))))
            else
              match bulk_write name d v with
              | Ok v' =>
                  (update_store z
                     (fun s => {| attrs := attrs s;
                                  datasets := <[name := with_data d (Some v')]> (datasets s) |})
                     {| fs := fs w; clock := clock w; log := log w ++ [EvWrite name] |},
                   Ok tt)
              | Raise e =>
                  (update_store z
                     (fun s => {| attrs := attrs s;
                                  datasets :=
                                    <[name := with_data d (torn_write name (ds_data d) v)]>
                                      (datasets s) |})
                     w,
                   Raise e)
              end
        end
    end.

(** The channels of [names] that get written: all those before the first
    one whose write fails. *)
Fixpoint written (names : list string) : list string :=
  match names with
  | [] => []
  | name :: names' => if write_fault name then [] else name :: written names'
  end.

(** The first channel of [names] whose write fails, if any. *)
Fixpoint first_fault (names : list string) : option string :=
  match names with
  | [] => None
  | name :: names' => if write_fault name then Some name else first_fault names'
  end.

(** The compressor of the image channels. *)
Definition image_compressor : Blosc :=
  {| cname := "zstd"; clevel := 9; shuffle := BITSHUFFLE |}.

(** [(chunksize,) + shape[1:]] *)
Definition chunks_of (chunksize : nat) (shp : list nat) : list nat :=
  chunksize :: drop 1 shp.

(** The dataset that one iteration of the loop of
    [initialize_zarr_store] creates. *)
Definition new_dataset (chunksize : nat) (name : string) (shp : list nat)
    (dt : dtype) : dataset :=
  {| ds_shape := shp; ds_dtype := dt; ds_chunks := chunks_of chunksize shp;
     ds_compressor :=
       if python_in "color_image" name then Some image_compressor else None;
     ds_data := None |}.

Definition initialize_zarr_store (out_path : Path)
    (full_data_shapes : list (string * list nat * dtype)) (chunksize : nat)
    : IO Path :=
  io_bind (zarr_open_w out_path) (fun z =>
  io_bind now_isoformat (fun t =>
  io_bind (attrs_set z "time_created" (AStr t)) (fun _ =>
  io_bind
    (io_for full_data_shapes (fun '(name, shp, dt) =>
       if python_in "color_image" name
       then create_dataset z name shp dt (chunks_of chunksize shp)
              (Some image_compressor)
       else create_dataset z name shp dt (chunks_of chunksize shp) None))
    (fun _ => io_ret z)))).
End Store.
Arguments IO F A : clear implicits.
Arguments world F : clear implicits.
Arguments store F : clear implicits.
Arguments dataset F : clear implicits.
Arguments value F : clear implicits.

Notation "'let!' x ':=' m 'in' k" := (io_bind m (fun x => k))
  (at level 10, x pattern, m at level 100, k at level 200,
   format "'[v' 'let!'  x  ':='  m  'in' '/' k ']'").

Section Main.
Context {R F RobotState : Type}.
Variable float32 : R -> F.
Variable quat_to_rot_6d : F * F * F * F -> F * F * F * F * F * F.
Variable filter_and_concat_robot_state : RobotState -> list R.
Variable unpickle_data : Path -> result (@Trajectory R RobotState).
Variable write_fault : string -> bool.
Variable torn_write : string -> option (value F) -> value F -> option (value F).
Variable astype_other : dtype -> value F -> result (value F).

(** The command line: only [--overwrite] reaches the code below, the
    filters are consumed by the path discovery. *)
Record Args := { overwrite : bool }.

(** The keys of [all_data] with their values, in the order of the
    dictionary. *)
Definition all_data_items (all_data : @AggregatedData F) : list (string * value F) :=
  [ ("robot_state", VFloat (ad_robot_state all_data));
    ("color_image1", VImage (ad_color_image1 all_data));
    ("color_image2", VImage (ad_color_image2 all_data));
    ("action/delta", VFloat (ad_action_delta all_data));
    ("action/pos", VFloat (ad_action_pos all_data));
    ("reward", VFloat (ad_reward all_data));
    ("skill", VFloat (ad_skill all_data));
    ("episode_ends", VInts (ad_episode_ends all_data));
    ("furniture", VStrs (ad_furniture all_data));
    ("success", VBools (ad_success all_data));
    ("pickle_file", VStrs (ad_pickle_file all_data)) ].

Definition full_data_shapes (all_data : @AggregatedData F)
    : list (string * list nat * dtype) :=
  [ (* These are of length: number of timesteps *)
    ("robot_state", shape (ad_robot_state all_data), Float32);
    ("color_image1", imgarray_shape (ad_color_image1 all_data), UInt8);
    ("color_image2", imgarray_shape (ad_color_image2 all_data), UInt8);
    ("action/delta", shape (ad_action_delta all_data), Float32);
    ("action/pos", shape (ad_action_pos all_data), Float32);
    ("skill", shape (ad_skill all_data), Float32);
    ("reward", shape (ad_reward all_data), Float32);
    (* These are of length: number of episodes *)
    ("episode_ends", [length (ad_episode_ends all_data)], UInt32);
    ("furniture", [length (ad_furniture all_data)], Str);
    ("success", [length (ad_success all_data)], UInt8);
    ("pickle_file", [length (ad_pickle_file all_data)], Str) ].

(** The keys of [all_data], and the names in [full_data_shapes]. *)
Definition channel_names : list string :=
  ["robot_state"; "color_image1"; "color_image2"; "action/delta"; "action/pos";
   "reward"; "skill"; "episode_ends"; "furniture"; "success"; "pickle_file"].

Definition declared_names : list string :=
  ["robot_state"; "color_image1"; "color_image2"; "action/delta"; "action/pos";
   "skill"; "reward"; "episode_ends"; "furniture"; "success"; "pickle_file"].

(** The events of a run that goes through to the end. *)
Definition full_trace (pickle_paths : list Path) (output_path : Path) : list event :=
  map EvSubmit pickle_paths
    ++ [EvOpen output_path; EvSetAttr "time_created"]
    ++ map EvCreateDataset declared_names
    ++ map EvWrite channel_names
    ++ [EvSetAttr "time_finished"; EvSetAttr "noop_threshold"; EvSetAttr "chunksize"].

Definition chunksize : nat := 1000.
Definition noop_threshold : float := 0%float.

(** What a channel of [all_data] is once stored: the boundaries go to a
    [uint32] dataset and the success flags to a [uint8] one, the other
    channels have the dtype of their dataset already. *)
Definition as_stored (v : value F) : value F :=
  match v with
  | VInts l => VInts (map (wrap 32) l)
  | VBools l => VInts (map Nat.b2n l)
  | _ => v
  end.

Definition already_exists_message (output_path : Path) : string :=
  "Output path already exists: " +:+ path_str output_path
    +:+ ". Use --overwrite to overwrite.".

(** The decode phase as the script sees it: the pool is set up, one task
    is submitted per path, then the results are collected.  The log of
    the submissions is kept here, after the set-up of the pool as in
    [parallel_process_pickle_files]: nothing is submitted to a pool that
    is refused. *)
Definition run_decode_phase (sched : list nat) (pickle_paths : list Path)
    (n_cpus : nat) : IO F (@AggregatedData F) :=
  let! _ := io_lift (thread_pool n_cpus) in
  let! _ := io_for pickle_paths (fun path => io_log (EvSubmit path)) in
  io_lift
    (parallel_process_pickle_files float32 quat_to_rot_6d
       filter_and_concat_robot_state unpickle_data
       sched pickle_paths noop_threshold n_cpus).

(** The write loop and the final metadata. *)
Definition write_phase (z : Path) (all_data : @AggregatedData F) : IO F unit :=
  let! _ := io_for (all_data_items all_data)
              (fun '(name, v) =>
                 write_channel write_fault torn_write astype_other z name v) in
  (* Update final metadata *)
  let! t := now_isoformat in
  let! _ := attrs_set z "time_finished" (AStr t) in
  let! _ := attrs_set z "noop_threshold" (AFloat noop_threshold) in
  attrs_set z "chunksize" (AInt chunksize).

(** The script, from the point where the paths have been resolved:
    [pickle_paths] is what [get_raw_paths] found, [output_path] what
    [get_processed_path] returned, [n_cpus] is [os.cpu_count()], taken
    to be a number. *)
Definition main (args : Args) (pickle_paths : list Path) (output_path : Path)
    (n_cpus : nat) (sched : list nat) : IO F unit :=
  let! there := path_exists output_path in
  if there && negb (overwrite args)
  then io_raise (ValueError (already_exists_message output_path))
  else
    (* Process all pickle files *)
    let! all_data := run_decode_phase sched pickle_paths n_cpus in
    (* Initialize Zarr store with full dimensions *)
    let! z := initialize_zarr_store output_path (full_data_shapes all_data) chunksize in
    (* Write the data to the Zarr store *)
    write_phase z all_data.
End Main.

(** ** A small recorded dataset

    Concrete episodes on which the model is run: numbers are integers
    (exactly representable, so the [float32] cast is the identity), the
    robot state of an observation is its 14 numbers, frames are 2x2 RGB. *)

Module Sample.
Open Scope Z_scope.

(** First two columns of the rotation matrix of the unit quaternion
    [(x, y, z, w)]. *)
Definition quat_to_rot_6d (q : Z * Z * Z * Z) : Z * Z * Z * Z * Z * Z :=
  let '(x, y, z, w) := q in
  (1 - 2 * (y * y + z * z), 2 * (x * y + z * w), 2 * (x * z - y * w),
   2 * (x * y - z * w), 1 - 2 * (x * x + z * z), 2 * (y * z + x * w)).

Definition float32 (x : Z) : Z := x.
Definition filter_and_concat_robot_state (s : list Z) : list Z := s.

Definition frame (b : Z) : image :=
  {| img_shape := [2; 2; 3]%nat; img_data := replicate 12 b |}.

Definition state (k : Z) : list Z :=
  [k; k + 1; k + 2; 0; 0; 0; 1; 7; 8; 9; 10; 11; 12; 13].

Definition observation (k : Z) : @Observation (list Z) :=
  {| obs_color_image1 := frame k;
     obs_color_image2 := frame (k + 100);
     obs_robot_state := state k |}.

Definition action (k : Z) : list Z := [k; k; k; 0; 0; 1; 0; 5].

(** An episode with [n] actions, [n + 1] observations and [n_rewards]
    rewards. *)
Definition episode (n n_rewards : nat) : @Trajectory Z (list Z) :=
  {| observations := map (fun i => observation (Z.of_nat i)) (seq 0 (S n));
     actions := map (fun i => action (Z.of_nat i)) (seq 0 n);
     rewards := replicate n_rewards 0;
     skills := replicate n 1;
     furniture := "lamp";
     success := true |}.

Definition unpickle_data (p : Path) : result (@Trajectory Z (list Z)) :=
  match last (parts p) with
  | Some "a.pkl" => Ok (episode 2 2)
  | Some "b.pkl" => Ok (episode 3 3)
  | Some "short_reward.pkl" => Ok (episode 2 1)
  | Some "no_action.pkl" => Ok (episode 0 0)
  | _ => Raise (OSError "No such file or directory")
  end.

Definition path_a : Path := {| parts := ["/"; "data"; "raw"; "sim"; "a.pkl"] |}.
Definition path_b : Path := {| parts := ["/"; "data"; "raw"; "sim"; "b.pkl"] |}.
Definition path_short_reward : Path :=
  {| parts := ["/"; "data"; "raw"; "sim"; "short_reward.pkl"] |}.
Definition path_no_action : Path :=
  {| parts := ["/"; "data"; "raw"; "sim"; "no_action.pkl"] |}.
Definition path_outside_raw : Path :=
  {| parts := ["/"; "data"; "sim"; "a.pkl"] |}.
Definition path_missing : Path :=
  {| parts := ["/"; "data"; "raw"; "sim"; "missing.pkl"] |}.
Definition output_path : Path := {| parts := ["/"; "data"; "processed"; "sim.zarr"] |}.

Definition process_pickle_file :=
  process_pickle_file float32 quat_to_rot_6d filter_and_concat_robot_state
    unpickle_data.
Definition parallel_process_pickle_files :=
  parallel_process_pickle_files float32 quat_to_rot_6d
    filter_and_concat_robot_state unpickle_data.

Definition no_fault (name : string) : bool := false.
Definition reward_fault (name : string) : bool := String.eqb name "reward".
Definition skill_fault (name : string) : bool := String.eqb name "skill".

(** A failed write of a vector leaves its first item behind, the rest of
    the dataset still reading as zero; other values leave nothing. *)
Definition torn_write (name : string) (old : option (value Z)) (v : value Z)
    : option (value Z) :=
  match v with
  | VFloat (Vec (x :: l)) => Some (VFloat (Vec (x :: replicate (length l) 0)))
  | _ => old
  end.

Definition astype_other (dt : dtype) (v : value Z) : result (value Z) :=
  Raise (ValueError "could not convert the value to the dtype of the dataset").

Definition main (write_fault : string -> bool) :=
  main float32 quat_to_rot_6d filter_and_concat_robot_state unpickle_data
    write_fault torn_write astype_other.

Definition fresh_world : world Z := {| fs := ∅; clock := 0; log := [] |}.

(** A world in which a store already sits at [output_path]. *)
Definition old_store : store Z :=
  {| attrs := {[ "time_finished" := AStr "old" ]}; datasets := ∅ |}.
Definition used_world : world Z :=
  {| fs := {[ parts output_path := old_store ]}; clock := 0; log := [] |}.
End Sample.

(** ** Reading arrays back *)

(** The rows [a[0], a[1], ...] of a two-dimensional array, and the items of
    a one-dimensional one. *)
Definition mat_rows {F} (a : ndarray F) : list (list F) :=
  match a with Mat _ rows => rows | Vec _ => [] end.

Definition vec_items {F} (a : ndarray F) : list F :=
  match a with Vec v => v | Mat _ _ => [] end.

(** [l[start:stop]] on a Python sequence, for indices within range. *)
Definition py_slice {A} (start stop : nat) (l : list A) : list A :=
  take (stop - start) (drop start l).

(** [future.result()] when the task returned. *)
Definition ok_value {A} (r : result A) : option A :=
  match r with Ok a => Some a | Raise _ => None end.

(** ** The parallel writer *)

Section ParallelWriter.
Context {F : Type}.
Variable write_fault : string -> bool.
Variable torn_write : string -> option (value F) -> value F -> option (value F).
Variable astype_other : dtype -> value F -> result (value F).

(** [write_to_zarr_store(z, key, value)] *)
Definition write_to_zarr_store (z : Path) (key : string) (v : value F) : IO F unit :=
  write_channel write_fault torn_write astype_other z key v.

(** The pool runs every submitted task to its end, and the future of a
    task keeps its outcome, an exception included.  [tasks] are taken in
    the order in which they complete; a task is one bulk write, which
    touches its own channel only. *)
Fixpoint run_futures (tasks : list (IO F unit)) (w : world F)
    : world F * list (result unit) :=
  match tasks with
  | [] => (w, [])
  | task :: tasks' =>
      let '(w1, r) := task w in
      let '(w2, rs) := run_futures tasks' w1 in
      (w2, r :: rs)
  end.

(** [for future in as_completed(futures): future.result()] *)
Fixpoint wait_all (outcomes : list (result unit)) : result unit :=
  match outcomes with
  | [] => Ok tt
  | r :: outcomes' => _ ← r; wait_all outcomes'
  end.

(** [aggregated_data.items()] is the list of keys with their values. *)
Definition parallel_write_to_zarr (sched : list nat) (z : Path)
    (aggregated_data : list (string * value F)) (num_threads : nat) : IO F unit :=
  let! _ := io_lift (thread_pool num_threads) in
  fun w =>
    let tasks :=
      map (fun '(key, v) => write_to_zarr_store z key v)
        (as_completed sched aggregated_data) in
    let '(w', outcomes) := run_futures tasks w in
    (w', wait_all outcomes).

(** What the write of [v] to channel [key] of the store [s] comes to:
    the value stored, or the exception. *)
Definition write_outcome (s : store F) (key : string) (v : value F)
    : result (value F) :=
  match datasets s !! key with
  | None => Raise (KeyError key)
  | Some d =>
      if negb (shape_eqb (value_shape v) (ds_shape d))
      then Raise (ValueError (shape_mismatch_message (ds_shape d) (value_shape v)))
      else bulk_write write_fault astype_other key d v
  end.

(** What the dataset [key] of [s] holds after that write: the value as
    stored, what a torn write leaves, or what it held when the write was
    refused at once. *)
Definition data_after (s : store F) (key : string) (v : value F)
    : option (dataset F) :=
  d ← datasets s !! key;
  Some (if negb (shape_eqb (value_shape v) (ds_shape d)) then d
        else match bulk_write write_fault astype_other key d v with
             | Ok v' => with_data d (Some v')
             | Raise _ => with_data d (torn_write key (ds_data d) v)
             end).
End ParallelWriter.

(** ** Names of datasets

    zarr normalises the name of a dataset to a path of segments and keeps
    arrays and groups apart.  A plain name is made of segments of
    letters, digits and underscores, with one slash (character 47)
    between two segments: such a name is its own normal form. *)

Definition plain_char (c : Ascii.ascii) : bool :=
  let n := Ascii.nat_of_ascii c in
  (48 <=? n) && (n <=? 57) || (65 <=? n) && (n <=? 90)
  || (97 <=? n) && (n <=? 122) || (n =? 95).

(** [plain_from in_segment s]: [s] continues a plain name, [in_segment]
    telling whether a segment has been begun. *)
Fixpoint plain_from (in_segment : bool) (s : string) : bool :=
  match s with
  | EmptyString => in_segment
  | String c s' =>
      if plain_char c then plain_from true s'
      else if Ascii.nat_of_ascii c =? 47 then in_segment && plain_from false s'
      else false
  end.

Definition plain_name (name : string) : bool := plain_from false name.

(** [nested a b]: the dataset [b] would lie under the path of [a]. *)
Definition nested (a b : string) : bool := String.prefix (a +:+ "/") b.

(** ** The channel statistics of [src/dataset/data_stats.py] *)

#[local] Set Warnings "-inexact-float".

Record Stats := { stat_min : list float; stat_max : list float }.

Definition data_stats : list (string * Stats) :=
  [ ("action/delta",
     {| stat_min :=
          [ -0.02500000223517418; -0.02500000223517418; -0.02500000223517418;
            -1.0; -0.2982025146484375; -0.34202003479003906;
            -0.31664201617240906; -1.0; -0.3420201539993286; -1.0 ]%float;
        stat_max :=
          [ 0.02500000223517418; 0.02500000223517418; 0.02500000223517418;
            -0.9396927356719971; 0.3072822391986847; 0.3420182466506958;
            0.29812920093536377; -0.9396927356719971; 0.3420201539993286;
            1.0 ]%float |});
    ("action/pos",
     {| stat_min :=
          [ 0.3679640293121338; -0.12212657183408737; -0.0009467601776123047;
            0.45521771907806396; -0.4923887252807617; -0.8844642639160156;
            -0.2922378182411194; -0.3497352600097656; -0.9999997615814209 ]%float;
        stat_max :=
          [ 0.6660453081130981; 0.38340795040130615; 0.14452612400054932;
            1.0; 0.2928873896598816; 0.6226258873939514;
            0.6271989345550537; 1.0; 1.0 ]%float |});
    ("robot_state",
     {| stat_min :=
          [ 0.3679640293121338; -0.12107741832733154; -0.0009467601776123047;
            0.45521771907806396; -0.4923887252807617; -0.8844642639160156;
            -0.2922378182411194; -0.3497352600097656; -0.9999997615814209;
            -0.576450765132904; -1.0413503646850586; -0.3750579357147217;
            -2.936652898788452; -1.6179684400558472; -1.5501327514648438;
            4.33419736509677e-05 ]%float;
        stat_max :=
          [ 0.6660453081130981; 0.38340795040130615; 0.14452612400054932;
            1.0; 0.2928873896598816; 0.6226258873939514;
            0.6271989345550537; 1.0; 1.0;
            0.25681251287460327; 0.24684518575668335; 0.17753785848617554;
            2.3147857189178467; 2.425474166870117; 1.408281922340393;
            0.06499999761581421 ]%float |}) ].

(** [data_stats[key]] *)
Definition stats_of (key : string) : result Stats :=
  match list_find (fun kv => bool_decide (kv.1 = key)) data_stats with
  | Some (_, (_, st)) => Ok st
  | None => Raise (KeyError key)
  end.

(** ** Malformed recordings

    Episodes built from given state and action rows, to run the decoder on
    input that it refuses. *)

Module Malformed.
Definition episode_of (states actions : list (list Z)) (n_rewards : nat)
    : @Trajectory Z (list Z) :=
  {| observations :=
       map (fun s => {| obs_color_image1 := Sample.frame 0;
                        obs_color_image2 := Sample.frame 1;
                        obs_robot_state := s |}) states;
     actions := actions;
     rewards := replicate n_rewards 0%Z;
     skills := replicate n_rewards 1%Z;
     furniture := "lamp";
     success := false |}.

(** A pickle reader that finds [data] under every path. *)
Definition holding (data : @Trajectory Z (list Z)) (p : Path)
    : result (@Trajectory Z (list Z)) := Ok data.

Definition process_pickle_file (data : @Trajectory Z (list Z)) :=
  process_pickle_file Sample.float32 Sample.quat_to_rot_6d
    Sample.filter_and_concat_robot_state (holding data).

Definition no_observation := episode_of [] [Sample.action 0] 1.
Definition no_action := episode_of [Sample.state 0] [] 0.
Definition narrow_state :=
  episode_of [[1; 2; 3]%Z; [4; 5; 6]%Z] [[0; 0; 0; 0; 0; 0; 1]%Z] 1.
Definition narrow_action :=
  episode_of [Sample.state 0; Sample.state 1] [[0; 0; 0; 0; 0; 0; 1]%Z] 1.
Definition ragged_action :=
  episode_of [Sample.state 0; Sample.state 1; Sample.state 2]
    [Sample.action 0; [1; 2]%Z] 2.
Definition ragged_state :=
  episode_of [Sample.state 0; [1; 2]%Z] [Sample.action 0] 1.
Definition one_action_too_few :=
  episode_of [Sample.state 0; Sample.state 1; Sample.state 2; Sample.state 3]
    [Sample.action 0] 1.
Definition one_action_too_many :=
  episode_of [Sample.state 0; Sample.state 1]
    [Sample.action 0; Sample.action 1; Sample.action 2] 3.

(** A path whose root is two slashes, and a relative path. *)
Definition path_double_root : Path := {| parts := ["//"; "srv"; "raw"; "a.pkl"] |}.
Definition path_relative : Path := {| parts := ["raw"; "a.pkl"] |}.
End Malformed.

(** ** A small store

    A freshly initialised store with four channels, and two values to
    write to it, the second of which has one item too many. *)

Module Stored.
Definition specs : list (string * list nat * dtype) :=
  [ ("reward", [2], Float32); ("skill", [2], Float32);
    ("action/delta", [2; 10], Float32);
    ("color_image1", [2; 2; 2; 3], UInt8) ].

Definition world0 : world Z :=
  (initialize_zarr_store Sample.output_path specs 1000 Sample.fresh_world).1.

Definition store0 : store Z :=
  default empty_store (fs world0 !! parts Sample.output_path).

Definition long_items : list (string * value Z) :=
  [ ("reward", VFloat (Vec [5; 7]%Z)); ("skill", VFloat (Vec [1; 1; 1]%Z)) ].
End Stored.

(** * Properties *)

(** ** Kinematic transforms *)

Section KinematicsFacts.
Context {F : Type}.
Variable quat_to_rot_6d : F * F * F * F -> F * F * F * F * F * F.

Lemma zip_with_app_map {A} (f g : A -> list F) (l : list A) :
  zip_with app (map f l) (map g l) = map (fun x => f x ++ g x) l.
Proof. induction l as [|x l IH]; simpl; [done | by rewrite IH]. Qed.

Lemma hstack_map {A} w1 w2 (f g : A -> list F) (l : list A) :
  hstack (Mat w1 (map f l)) (Mat w2 (map g l))
  = Ok (Mat (w1 + w2) (map (fun x => f x ++ g x) l)).
Proof.
  unfold hstack. rewrite !length_map, Nat.eqb_refl.
  by rewrite zip_with_app_map.
Qed.

#[local] Arguments hstack : simpl never.

Lemma rot_6d_list_length r : length (@rot_6d_list F r) = 6.
Proof. by destruct r as [[[[[a b] c] d] e] f]. Qed.

(** The three transforms, on a batch of the width they expect, act row by
    row. *)
Lemma action_to_6d_rotation_rows rows :
  action_to_6d_rotation quat_to_rot_6d (Mat 8 rows)
  = Ok (Mat 10 (map (action_row_6d quat_to_rot_6d) rows)).
Proof.
  unfold action_to_6d_rotation, action_row_6d. simpl.
  rewrite map_map, hstack_map. simpl.
  rewrite (hstack_map 9 1). simpl. f_equal. f_equal.
  apply map_ext. intros r. by rewrite <- app_assoc.
Qed.

Lemma proprioceptive_to_6d_rotation_rows rows :
  proprioceptive_to_6d_rotation quat_to_rot_6d (Mat 14 rows)
  = Ok (Mat 16 (map (state_row_6d quat_to_rot_6d) rows)).
Proof.
  unfold proprioceptive_to_6d_rotation, state_row_6d. simpl.
  rewrite map_map, hstack_map. simpl.
  rewrite (hstack_map 9 3). simpl.
  rewrite (hstack_map 12 3). simpl.
  rewrite (hstack_map 15 1). simpl. f_equal. f_equal.
  apply map_ext. intros r. by rewrite <- !app_assoc.
Qed.

Lemma extract_ee_pose_6d_rows (rows : list (list F)) :
  extract_ee_pose_6d (Mat 16 rows) = Ok (Mat 9 (map pose_row_6d rows)).
Proof.
  unfold extract_ee_pose_6d, pose_row_6d. simpl.
  by rewrite hstack_map.
Qed.

(** Any other width trips the assertion. *)
Lemma action_to_6d_rotation_width w rows :
  w ≠ 8 ->
  action_to_6d_rotation quat_to_rot_6d (Mat w rows)
  = Raise (AssertionError "Action must be 8D").
Proof.
  intros Hw. unfold action_to_6d_rotation. simpl.
  destruct (Nat.eqb_spec w 8) as [->|_]; [done | reflexivity].
Qed.

Lemma proprioceptive_to_6d_rotation_width w rows :
  w ≠ 14 ->
  proprioceptive_to_6d_rotation quat_to_rot_6d (Mat w rows)
  = Raise (AssertionError "Robot state must be 14D").
Proof.
  intros Hw. unfold proprioceptive_to_6d_rotation. simpl.
  destruct (Nat.eqb_spec w 14) as [->|_]; [done | reflexivity].
Qed.

Lemma extract_ee_pose_6d_width w (rows : list (list F)) :
  w ≠ 16 ->
  extract_ee_pose_6d (Mat w rows)
  = Raise (AssertionError "Robot state must be 16D").
Proof.
  intros Hw. unfold extract_ee_pose_6d. simpl.
  destruct (Nat.eqb_spec w 16) as [->|_]; [done | reflexivity].
Qed.

(** A one-dimensional array has no second axis. *)
Lemma action_to_6d_rotation_vec v :
  action_to_6d_rotation quat_to_rot_6d (Vec v)
  = Raise (IndexError "tuple index out of range").
Proof. reflexivity. Qed.

Lemma proprioceptive_to_6d_rotation_vec v :
  proprioceptive_to_6d_rotation quat_to_rot_6d (Vec v)
  = Raise (IndexError "tuple index out of range").
Proof. reflexivity. Qed.

(** Rows of the expected width, taken apart. *)
Lemma length_8_inv (r : list F) :
  length r = 8 ->
  exists p0 p1 p2 x y z w g, r = [p0; p1; p2; x; y; z; w; g].
Proof.
  intros H. do 9 (destruct r as [|? r]; try discriminate H).
  repeat eexists.
Qed.

Lemma length_14_inv (r : list F) :
  length r = 14 ->
  exists p0 p1 p2 x y z w v0 v1 v2 a0 a1 a2 g,
    r = [p0; p1; p2; x; y; z; w; v0; v1; v2; a0; a1; a2; g].
Proof.
  intros H. do 15 (destruct r as [|? r]; try discriminate H).
  repeat eexists.
Qed.

Lemma action_row_6d_length r :
  length r = 8 -> length (action_row_6d quat_to_rot_6d r) = 10.
Proof.
  intros (p0&p1&p2&x&y&z&w&g&->)%length_8_inv.
  unfold action_row_6d. simpl.
  by destruct (quat_to_rot_6d (x, y, z, w)) as [[[[[a b] c] d] e] f].
Qed.

Lemma state_row_6d_length r :
  length r = 14 -> length (state_row_6d quat_to_rot_6d r) = 16.
Proof.
  intros (p0&p1&p2&x&y&z&w&v0&v1&v2&a0&a1&a2&g&->)%length_14_inv.
  unfold state_row_6d. simpl.
  by destruct (quat_to_rot_6d (x, y, z, w)) as [[[[[a b] c] d] e] f].
Qed.

Lemma pose_row_6d_length (r : list F) :
  length r = 16 -> length (pose_row_6d r) = 9.
Proof.
  intros H. do 17 (destruct r as [|? r]; try discriminate H). reflexivity.
Qed.

(** Pose extraction undoes the tail of the state expansion. *)
Lemma pose_of_state_row r :
  length r = 14 ->
  pose_row_6d (state_row_6d quat_to_rot_6d r)
  = take 3 r ++ rot_6d_row quat_to_rot_6d (take 4 (drop 3 r)).
Proof.
  intros (p0&p1&p2&x&y&z&w&v0&v1&v2&a0&a1&a2&g&->)%length_14_inv.
  unfold pose_row_6d, state_row_6d. simpl.
  by destruct (quat_to_rot_6d (x, y, z, w)) as [[[[[a b] c] d] e] f].
Qed.
End KinematicsFacts.

Section KinematicsInversion.
Context {F : Type}.
Variable quat_to_rot_6d : F * F * F * F -> F * F * F * F * F * F.

(** A transform that returns was given a batch of the width it expects. *)
Lemma proprioceptive_to_6d_rotation_inv a b :
  proprioceptive_to_6d_rotation quat_to_rot_6d a = Ok b ->
  exists rows, a = Mat 14 rows /\ b = Mat 16 (map (state_row_6d quat_to_rot_6d) rows).
Proof.
  destruct a as [v|w rows].
  - by rewrite proprioceptive_to_6d_rotation_vec.
  - destruct (decide (w = 14)) as [->|Hw].
    + rewrite proprioceptive_to_6d_rotation_rows. intros [= <-]. eauto.
    + by rewrite proprioceptive_to_6d_rotation_width.
Qed.

Lemma action_to_6d_rotation_inv a b :
  action_to_6d_rotation quat_to_rot_6d a = Ok b ->
  exists rows, a = Mat 8 rows /\ b = Mat 10 (map (action_row_6d quat_to_rot_6d) rows).
Proof.
  destruct a as [v|w rows].
  - by rewrite action_to_6d_rotation_vec.
  - destruct (decide (w = 8)) as [->|Hw].
    + rewrite action_to_6d_rotation_rows. intros [= <-]. eauto.
    + by rewrite action_to_6d_rotation_width.
Qed.

Lemma extract_ee_pose_6d_inv (a b : ndarray F) :
  extract_ee_pose_6d a = Ok b ->
  exists rows, a = Mat 16 rows /\ b = Mat 9 (map pose_row_6d rows).
Proof.
  destruct a as [v|w rows].
  - discriminate.
  - destruct (decide (w = 16)) as [->|Hw].
    + rewrite extract_ee_pose_6d_rows. intros [= <-]. eauto.
    + by rewrite extract_ee_pose_6d_width.
Qed.
End KinematicsInversion.

(** ** Building arrays *)

Lemma bind_Ok_inv {A B} (m : result A) (f : A -> result B) b :
  m ≫= f = Ok b -> exists a, m = Ok a /\ f a = Ok b.
Proof. destruct m as [a|e]; [eauto | discriminate]. Qed.

Lemma fmap_Ok_inv {A B} (f : A -> B) (m : result A) b :
  f <$> m = Ok b -> exists a, m = Ok a /\ b = f a.
Proof. destruct m as [a|e]; [intros [= <-]; eauto | discriminate]. Qed.

Lemma py_assert_Ok_inv cond msg u : py_assert cond msg = Ok u -> cond = true.
Proof. by destruct cond. Qed.

Lemma py_init_length {A} (l : list A) : length (py_init l) = length l - 1.
Proof. unfold py_init. rewrite length_take. lia. Qed.

Lemma py_tail_length {A} (l : list A) : length (py_tail l) = length l - 1.
Proof. unfold py_tail. rewrite length_drop. lia. Qed.

Lemma forallb_length_eq {A} (l : list (list A)) w :
  forallb (fun r => length r =? w) l = true <-> Forall (fun r => length r = w) l.
Proof.
  induction l as [|r l IH]; simpl.
  - split; [constructor | done].
  - rewrite andb_true_iff, Forall_cons, IH, Nat.eqb_eq. tauto.
Qed.

Section ArrayFacts.
Context {R F : Type}.
Variable cast : R -> F.

Lemma np_array_rows_uniform (l : list (list R)) w :
  l ≠ [] -> Forall (fun r => length r = w) l ->
  np_array_rows cast l = Ok (Mat w (map (map cast) l)).
Proof.
  intros Hne Hall. destruct l as [|r l]; [done|]. unfold np_array_rows.
  pose proof (Forall_inv Hall) as Hr. simpl in Hr. subst w.
  by rewrite (proj2 (forallb_length_eq _ _) Hall).
Qed.

Lemma np_array_rows_inv (l : list (list R)) a :
  np_array_rows cast l = Ok a ->
  (l = [] /\ a = Vec [])
  \/ (exists w, l ≠ [] /\ Forall (fun r => length r = w) l
                /\ a = Mat w (map (map cast) l)).
Proof.
  destruct l as [|r l]; [intros [= <-]; by left|].
  unfold np_array_rows.
  destruct (forallb _ _) eqn:Hall; [|discriminate].
  intros [= <-]. right. exists (length r).
  split; [done|]. split; [|done]. by apply forallb_length_eq.
Qed.
End ArrayFacts.

Lemma shape_eqb_true s1 s2 : shape_eqb s1 s2 = true <-> s1 = s2.
Proof. unfold shape_eqb. by rewrite bool_decide_eq_true. Qed.

Lemma np_array_images_uniform (l : list image) s :
  l ≠ [] -> Forall (fun i => img_shape i = s) l ->
  np_array_images l
  = Ok {| frame_shape := s; frames := map (fun i => map to_uint8 (img_data i)) l |}.
Proof.
  intros Hne Hall. destruct l as [|i l]; [done|]. unfold np_array_images.
  pose proof (Forall_inv Hall) as Hi. simpl in Hi. subst s.
  assert (forallb (fun i' => shape_eqb (img_shape i') (img_shape i)) (i :: l) = true)
    as ->; [|done].
  clear Hne. induction Hall as [|i' l' Hi' _ IH]; simpl; [done|].
  rewrite IH, andb_true_r. by apply shape_eqb_true.
Qed.

Lemma np_array_images_len (l : list image) a :
  np_array_images l = Ok a -> img_len a = length l.
Proof.
  destruct l as [|i l]; [by intros [= <-]|].
  unfold np_array_images. destruct (forallb _ _); [|discriminate].
  intros [= <-]. unfold img_len. simpl. by rewrite length_map.
Qed.

Lemma img_drop_last_len a : img_len (img_drop_last a) = img_len a - 1.
Proof. unfold img_len, img_drop_last. simpl. apply py_init_length. Qed.

(** ** The episode decoder *)

Lemma tuple_index_spec x t i :
  tuple_index x t = Ok i <->
  exists pre post, t = pre ++ x :: post /\ (x ∉ pre) /\ i = length pre.
Proof.
  revert i. induction t as [|y t IH]; intros i; simpl.
  - split; [discriminate|]. intros (pre&post&H&_). by destruct pre.
  - destruct (String.eqb_spec y x) as [->|Hne].
    + split.
      * intros [= <-]. exists [], t. split; [done|]. split; [|done].
        apply not_elem_of_nil.
      * intros (pre&post&H&Hpre&->). destruct pre as [|z pre]; [done|].
        injection H as <- _. exfalso. apply Hpre. left.
    + split.
      * intros (j&Hj&->)%fmap_Ok_inv. apply IH in Hj as (pre&post&->&Hpre&->).
        exists (y :: pre), post. split; [done|]. split; [|done].
        rewrite not_elem_of_cons. split; [congruence | done].
      * intros (pre&post&H&Hpre&->). destruct pre as [|z pre].
        { injection H as -> _. done. }
        injection H as <- ->. apply not_elem_of_cons in Hpre as [_ Hpre].
        assert (tuple_index x (pre ++ x :: post) = Ok (length pre)) as ->; [|done].
        apply IH. eauto.
Qed.

Lemma tuple_index_absent x t :
  x ∉ t -> tuple_index x t = Raise (ValueError "tuple.index(x): x not in tuple").
Proof.
  induction t as [|y t IH]; simpl; [done|].
  intros [Hne Ht]%not_elem_of_cons.
  destruct (String.eqb_spec y x) as [->|_]; [done|].
  by rewrite IH.
Qed.

Lemma tuple_index_present x t :
  x ∈ t -> exists i, tuple_index x t = Ok i.
Proof.
  induction t as [|y t IH]; simpl.
  - by intros ?%elem_of_nil.
  - intros Hin. destruct (String.eqb_spec y x) as [->|Hne]; [eauto|].
    apply elem_of_cons in Hin as [->|Hin]; [done|].
    destruct (IH Hin) as [i ->]. eauto.
Qed.

Section DecoderFacts.
Context {R F RobotState : Type}.
Variable float32 : R -> F.
Variable quat_to_rot_6d : F * F * F * F -> F * F * F * F * F * F.
Variable filter_and_concat_robot_state : RobotState -> list R.
Variable unpickle_data : Path -> result (@Trajectory R RobotState).

Abbreviation decode :=
  (process_pickle_file float32 quat_to_rot_6d filter_and_concat_robot_state unpickle_data).
Abbreviation raw_states data :=
  (map (fun o => filter_and_concat_robot_state (obs_robot_state o)) (observations data)).

(** What a successful decode says about its input and its result. *)
Lemma process_pickle_file_inv path noop d :
  decode path noop = Ok d ->
  exists data im1 im2 i,
    unpickle_data path = Ok data
    /\ np_array_images (map obs_color_image1 (observations data)) = Ok im1
    /\ np_array_images (map obs_color_image2 (observations data)) = Ok im2
    /\ observations data ≠ []
    /\ Forall (fun r => length r = 14) (raw_states data)
    /\ actions data ≠ []
    /\ Forall (fun r => length r = 8) (actions data)
    /\ length (observations data) - 1 = length (actions data)
    /\ tuple_index "raw" (parts path) = Ok i
    /\ robot_state d
       = Mat 16 (py_init (map (state_row_6d quat_to_rot_6d)
                            (map (map float32) (raw_states data))))
    /\ color_image1 d = img_drop_last im1
    /\ color_image2 d = img_drop_last im2
    /\ action_delta d
       = Mat 10 (map (action_row_6d quat_to_rot_6d) (map (map float32) (actions data)))
    /\ action_pos d
       = Mat 9 (map pose_row_6d
                  (py_tail (map (state_row_6d quat_to_rot_6d)
                              (map (map float32) (raw_states data)))))
    /\ reward d = Vec (map float32 (rewards data))
    /\ skill d = Vec (map float32 (skills data))
    /\ episode_length d = length (actions data)
    /\ pd_furniture d = furniture data
    /\ pd_success d = success data
    /\ pickle_file d = String.concat "/" (drop (i + 1) (parts path)).
Proof.
  unfold process_pickle_file. intros H.
  apply bind_Ok_inv in H as (data & Hdata & H).
  apply bind_Ok_inv in H as (c1 & (im1 & Him1 & ->)%fmap_Ok_inv & H).
  apply bind_Ok_inv in H as (c2 & (im2 & Him2 & ->)%fmap_Ok_inv & H).
  apply bind_Ok_inv in H as (st & Hst & H).
  apply bind_Ok_inv in H as (ex & Hex & H).
  apply bind_Ok_inv in H as (ac & Hac & H).
  apply bind_Ok_inv in H as (ad & Had & H).
  apply bind_Ok_inv in H as (ap & Hap & H).
  apply bind_Ok_inv in H as (u & Hlen%py_assert_Ok_inv & H).
  apply bind_Ok_inv in H as (i & Hi & H).
  injection H as <-. simpl.
  apply proprioceptive_to_6d_rotation_inv in Hex as (srows & -> & ->).
  apply action_to_6d_rotation_inv in Had as (arows & -> & ->).
  apply np_array_rows_inv in Hst as [[_ [=]]|(w & Hsne & Hsall & [= <- ->])].
  apply np_array_rows_inv in Hac as [[_ [=]]|(w & Hane & Haall & [= <- ->])].
  simpl in Hap. rewrite extract_ee_pose_6d_rows in Hap. injection Hap as <-.
  simpl in Hlen. apply Nat.eqb_eq in Hlen.
  rewrite py_init_length, !length_map in Hlen.
  exists data, im1, im2, i. repeat split; try done.
  - intros Hobs. apply Hsne. by rewrite Hobs.
  - simpl. by rewrite !length_map.
Qed.

(** The lengths that the decoder does relate. *)
Lemma process_pickle_file_lengths path noop d :
  decode path noop = Ok d ->
  1 <= episode_length d
  /\ len (robot_state d) = episode_length d
  /\ len (action_delta d) = episode_length d
  /\ len (action_pos d) = episode_length d
  /\ img_len (color_image1 d) = episode_length d
  /\ img_len (color_image2 d) = episode_length d.
Proof.
  intros (data&im1&im2&i&_&Him1&Him2&_&_&Hane&_&Hlen&_&->&->&->&->&->&_&_&->&_)
    %process_pickle_file_inv.
  apply np_array_images_len in Him1, Him2. rewrite length_map in Him1, Him2.
  cbn [len]. rewrite !img_drop_last_len, Him1, Him2.
  rewrite !length_map, py_init_length, py_tail_length, !length_map.
  repeat split; try done.
  destruct (actions data); [done | simpl; lia].
Qed.

(** The check of the decoder: what it compares and what it reports. *)
Lemma process_pickle_file_mismatch path noop data im1 im2 :
  unpickle_data path = Ok data ->
  np_array_images (map obs_color_image1 (observations data)) = Ok im1 ->
  np_array_images (map obs_color_image2 (observations data)) = Ok im2 ->
  observations data ≠ [] ->
  Forall (fun r => length r = 14) (raw_states data) ->
  actions data ≠ [] ->
  Forall (fun r => length r = 8) (actions data) ->
  length (observations data) - 1 ≠ length (actions data) ->
  decode path noop
  = Raise (AssertionError
             (mismatch_message path (length (observations data) - 1)
                (length (actions data)))).
Proof.
  intros Hdata Him1 Him2 Hone Hsall Hane Haall Hlen.
  unfold process_pickle_file. rewrite Hdata. simpl. rewrite Him1, Him2. simpl.
  rewrite (np_array_rows_uniform float32 (raw_states data) 14);
    [|by intros ?%map_eq_nil|done].
  simpl. rewrite proprioceptive_to_6d_rotation_rows. simpl.
  rewrite (np_array_rows_uniform float32 (actions data) 8); [|done..].
  simpl. rewrite action_to_6d_rotation_rows. simpl.
  rewrite extract_ee_pose_6d_rows. simpl.
  rewrite py_init_length, !length_map.
  by destruct (Nat.eqb_spec (length (observations data) - 1) (length (actions data))).
Qed.

(** A decodable episode, decoded. *)
Lemma process_pickle_file_ok path noop data im1 im2 i :
  unpickle_data path = Ok data ->
  np_array_images (map obs_color_image1 (observations data)) = Ok im1 ->
  np_array_images (map obs_color_image2 (observations data)) = Ok im2 ->
  observations data ≠ [] ->
  Forall (fun r => length r = 14) (raw_states data) ->
  actions data ≠ [] ->
  Forall (fun r => length r = 8) (actions data) ->
  length (observations data) - 1 = length (actions data) ->
  tuple_index "raw" (parts path) = Ok i ->
  exists d, decode path noop = Ok d.
Proof.
  intros Hdata Him1 Him2 Hone Hsall Hane Haall Hlen Hi.
  unfold process_pickle_file. rewrite Hdata. simpl. rewrite Him1, Him2. simpl.
  rewrite (np_array_rows_uniform float32 (raw_states data) 14);
    [|by intros ?%map_eq_nil|done].
  simpl. rewrite proprioceptive_to_6d_rotation_rows. simpl.
  rewrite (np_array_rows_uniform float32 (actions data) 8); [|done..].
  simpl. rewrite action_to_6d_rotation_rows. simpl.
  rewrite extract_ee_pose_6d_rows. simpl.
  rewrite py_init_length, !length_map, Hlen, Nat.eqb_refl. simpl.
  rewrite Hi. simpl. eauto.
Qed.

(** Without a [raw] component the decoder never returns. *)
Lemma process_pickle_file_no_raw path noop :
  "raw" ∉ parts path -> exists e, decode path noop = Raise e.
Proof.
  intros Hraw. destruct (decode path noop) as [d|e] eqn:Hd; [|eauto].
  apply process_pickle_file_inv in Hd
    as (data&im1&im2&i&_&_&_&_&_&_&_&_&Hi&_).
  rewrite tuple_index_absent in Hi; done.
Qed.
End DecoderFacts.

(** ** The parallel aggregator *)

Lemma as_completed_perm {A} (sched : list nat) (pending : list A) :
  as_completed sched pending ≡ₚ pending.
Proof.
  revert pending. induction sched as [|k sched IH]; intros pending; simpl; [done|].
  destruct pending as [|x pending]; [done|].
  destruct ((x :: pending) !! (k mod length (x :: pending))) as [y|] eqn:Hy; [|done].
  rewrite IH. symmetry. by apply delete_Permutation.
Qed.

Lemma as_completed_length {A} (sched : list nat) (pending : list A) :
  length (as_completed sched pending) = length pending.
Proof. by rewrite as_completed_perm. Qed.

Lemma as_completed_elem_of {A} (sched : list nat) (pending : list A) x :
  x ∈ as_completed sched pending <-> x ∈ pending.
Proof. by rewrite as_completed_perm. Qed.

Lemma running_ends_length start lengths :
  length (running_ends start lengths) = length lengths.
Proof.
  revert start. induction lengths as [|n ns IH]; intros start; simpl; [done|].
  by rewrite IH.
Qed.

Lemma running_ends_app start l1 l2 :
  running_ends start (l1 ++ l2)
  = running_ends start l1 ++ running_ends (start + sum_list l1) l2.
Proof.
  revert start. induction l1 as [|n l1 IH]; intros start; simpl.
  - by rewrite Nat.add_0_r.
  - by rewrite IH, Nat.add_assoc.
Qed.

Lemma running_ends_last start lengths :
  lengths ≠ [] -> last (running_ends start lengths) = Some (start + sum_list lengths).
Proof.
  revert start. induction lengths as [|n ns IH]; intros start Hne; [done|].
  destruct ns as [|m ns].
  - simpl. by rewrite Nat.add_0_r.
  - change (sum_list (n :: m :: ns)) with (n + sum_list (m :: ns)).
    rewrite Nat.add_assoc, <- IH by done. reflexivity.
Qed.

Lemma running_ends_lower start lengths i e :
  running_ends start lengths !! i = Some e -> start <= e.
Proof.
  revert start i. induction lengths as [|n ns IH]; intros start i; simpl; [done|].
  destruct i as [|i]; simpl.
  - intros [= <-]. lia.
  - intros H%IH. lia.
Qed.

Lemma running_ends_above start lengths i e :
  Forall (fun n => 1 <= n) lengths ->
  running_ends start lengths !! i = Some e -> start < e.
Proof.
  intros Hpos He. destruct lengths as [|n ns]; [done|].
  apply Forall_cons in Hpos as [Hn _]. destruct i as [|i]; simpl in He.
  - injection He as <-. lia.
  - apply running_ends_lower in He. lia.
Qed.

(** Each boundary is the previous one plus the length of its episode. *)
Lemma running_ends_step start lengths i n :
  lengths !! i = Some n ->
  running_ends start lengths !! i
  = Some (match i with
          | 0 => start
          | S j => default 0 (running_ends start lengths !! j)
          end + n).
Proof.
  revert start i. induction lengths as [|m ns IH]; intros start i; [done|].
  destruct i as [|i]; simpl.
  - by intros [= ->].
  - intros Hn. rewrite (IH _ _ Hn). destruct i as [|i]; [done|]. reflexivity.
Qed.

(** Episodes of positive length give strictly increasing boundaries. *)
Lemma running_ends_increasing start lengths i j a b :
  Forall (fun n => 1 <= n) lengths ->
  i < j ->
  running_ends start lengths !! i = Some a ->
  running_ends start lengths !! j = Some b ->
  a < b.
Proof.
  revert start i j. induction lengths as [|n ns IH]; intros start i j Hpos Hij; [done|].
  apply Forall_cons in Hpos as [Hn Hpos].
  destruct j as [|j]; [exfalso; lia|]. destruct i as [|i]; simpl.
  - intros [= <-] Hb. by apply running_ends_above in Hb.
  - apply IH; [done | lia].
Qed.

Section NumpyConcat.
Context {F : Type}.

Lemma vstack_len (a b c : ndarray F) :
  vstack a b = Ok c -> len c = len a + len b.
Proof.
  destruct a as [v1|w1 r1], b as [v2|w2 r2]; simpl; try discriminate.
  - intros [= <-]. simpl. apply length_app.
  - destruct (w1 =? w2); [|discriminate]. intros [= <-]. simpl. apply length_app.
Qed.

Lemma concat_from_vstack_len (acc : ndarray F) l c :
  concat_from vstack acc l = Ok c -> len c = len acc + sum_list (map len l).
Proof.
  revert acc. induction l as [|a l IH]; intros acc; simpl.
  - intros [= <-]. lia.
  - intros (acc' & Hacc & H)%bind_Ok_inv. apply vstack_len in Hacc.
    apply IH in H. lia.
Qed.

(** The length of a concatenation is the sum of the lengths. *)
Lemma np_concatenate_vstack_len (l : list (ndarray F)) c :
  np_concatenate vstack l = Ok c -> len c = sum_list (map len l).
Proof.
  destruct l as [|a l]; [discriminate|]. simpl. apply concat_from_vstack_len.
Qed.

Lemma concat_from_vstack_mats w rows (l : list (list (list F))) :
  concat_from vstack (Mat w rows) (map (Mat w) l) = Ok (Mat w (rows ++ concat l)).
Proof.
  revert rows. induction l as [|r l IH]; intros rows; simpl.
  - by rewrite app_nil_r.
  - rewrite Nat.eqb_refl. simpl. by rewrite IH, app_assoc.
Qed.

Lemma concat_from_vstack_vecs v (l : list (list F)) :
  concat_from vstack (Vec v) (map Vec l) = Ok (Vec (v ++ concat l)).
Proof.
  revert v. induction l as [|r l IH]; intros v; simpl.
  - by rewrite app_nil_r.
  - by rewrite IH, app_assoc.
Qed.
End NumpyConcat.

Lemma img_vstack_len a b c :
  img_vstack a b = Ok c -> img_len c = img_len a + img_len b.
Proof.
  unfold img_vstack. destruct (shape_eqb _ _); [|discriminate].
  intros [= <-]. unfold img_len. simpl. apply length_app.
Qed.

Lemma img_concat_from_len acc l c :
  img_concat_from acc l = Ok c -> img_len c = img_len acc + sum_list (map img_len l).
Proof.
  revert acc. induction l as [|a l IH]; intros acc; simpl.
  - intros [= <-]. lia.
  - intros (acc' & Hacc & H)%bind_Ok_inv. apply img_vstack_len in Hacc.
    apply IH in H. lia.
Qed.

Lemma img_concatenate_len l c :
  img_concatenate l = Ok c -> img_len c = sum_list (map img_len l).
Proof.
  destruct l as [|a l]; [discriminate|]. simpl. apply img_concat_from_len.
Qed.

Lemma img_concat_from_same s fr (l : list imgarray) :
  Forall (fun a => frame_shape a = s) l ->
  img_concat_from {| frame_shape := s; frames := fr |} l
  = Ok {| frame_shape := s; frames := fr ++ concat (map frames l) |}.
Proof.
  revert fr. induction l as [|a l IH]; intros fr Hall; simpl.
  - by rewrite app_nil_r.
  - apply Forall_cons in Hall as [Ha Hall]. unfold img_vstack. simpl.
    rewrite (proj2 (shape_eqb_true _ _) (eq_sym Ha)). simpl.
    by rewrite IH, app_assoc.
Qed.

Section AggregatorFacts.
Context {R F RobotState : Type}.
Variable float32 : R -> F.
Variable quat_to_rot_6d : F * F * F * F -> F * F * F * F * F * F.
Variable filter_and_concat_robot_state : RobotState -> list R.
Variable unpickle_data : Path -> result (@Trajectory R RobotState).

Abbreviation decode :=
  (process_pickle_file float32 quat_to_rot_6d filter_and_concat_robot_state unpickle_data).
Abbreviation aggregate :=
  (parallel_process_pickle_files float32 quat_to_rot_6d
     filter_and_concat_robot_state unpickle_data).
Abbreviation completed :=
  (completed_results float32 quat_to_rot_6d filter_and_concat_robot_state unpickle_data).

Lemma last_end_snoc (ends : list nat) e : last_end (ends ++ [e]) = e.
Proof. unfold last_end. by rewrite last_snoc. Qed.

(** The loop returns exactly when every future holds a result, and then
    it has folded all of them, in order. *)
Lemma collect_Ok (agg agg' : @Accumulator F) rs :
  collect agg rs = Ok agg' <->
  exists ds, rs = map Ok ds /\ agg' = foldl aggregate_one agg ds.
Proof.
  revert agg. induction rs as [|r rs IH]; intros agg; simpl.
  - split.
    + intros [= <-]. by exists [].
    + intros (ds & Hds & ->). by destruct ds.
  - split.
    + intros (d & -> & H)%bind_Ok_inv. apply IH in H as (ds & -> & ->).
      by exists (d :: ds).
    + intros (ds & Hds & ->). destruct ds as [|d ds]; [done|].
      injection Hds as -> ->. simpl. apply IH. eauto.
Qed.

(** A failed future makes the loop raise the error of the first failed
    future in completion order, whatever was folded before. *)
Lemma collect_Raise (rs : list (result (@ProcessedData F))) :
  (exists r, r ∈ rs /\ is_ok r = false) ->
  exists ds e post,
    rs = map Ok ds ++ Raise e :: post
    /\ forall agg, collect agg rs = Raise e.
Proof.
  induction rs as [|r rs IH]; intros (r' & Hin & Hr').
  - by apply elem_of_nil in Hin.
  - destruct r as [d|e].
    + apply elem_of_cons in Hin as [->|Hin]; [done|].
      destruct IH as (ds & e & post & -> & Hc); [eauto|].
      exists (d :: ds), e, post. split; [done|]. intros agg. simpl. apply Hc.
    + exists [], e, rs. split; [done|]. reflexivity.
Qed.

(** The accumulator after folding the episodes [ds]. *)
Lemma foldl_aggregate_one (agg : @Accumulator F) ds :
  let agg' := foldl aggregate_one agg ds in
  acc_robot_state agg' = acc_robot_state agg ++ map robot_state ds
  /\ acc_color_image1 agg' = acc_color_image1 agg ++ map color_image1 ds
  /\ acc_color_image2 agg' = acc_color_image2 agg ++ map color_image2 ds
  /\ acc_action_delta agg' = acc_action_delta agg ++ map action_delta ds
  /\ acc_action_pos agg' = acc_action_pos agg ++ map action_pos ds
  /\ acc_reward agg' = acc_reward agg ++ map reward ds
  /\ acc_skill agg' = acc_skill agg ++ map skill ds
  /\ acc_episode_ends agg'
     = acc_episode_ends agg
         ++ running_ends (last_end (acc_episode_ends agg)) (map episode_length ds)
  /\ acc_furniture agg' = acc_furniture agg ++ map pd_furniture ds
  /\ acc_success agg' = acc_success agg ++ map pd_success ds
  /\ acc_pickle_file agg' = acc_pickle_file agg ++ map pickle_file ds.
Proof.
  revert agg. induction ds as [|d ds IH]; intros agg; simpl.
  - by rewrite !app_nil_r.
  - destruct (IH (aggregate_one agg d))
      as (H1&H2&H3&H4&H5&H6&H7&H8&H9&H10&H11).
    rewrite H1, H2, H3, H4, H5, H6, H7, H8, H9, H10, H11. simpl.
    rewrite last_end_snoc, <- !app_assoc. done.
Qed.

(** Concatenation keeps the per-episode keys and adds up the lengths. *)
Lemma concatenate_all_inv (agg : @Accumulator F) ad :
  concatenate_all agg = Ok ad ->
  len (ad_robot_state ad) = sum_list (map len (acc_robot_state agg))
  /\ img_len (ad_color_image1 ad) = sum_list (map img_len (acc_color_image1 agg))
  /\ img_len (ad_color_image2 ad) = sum_list (map img_len (acc_color_image2 agg))
  /\ len (ad_action_delta ad) = sum_list (map len (acc_action_delta agg))
  /\ len (ad_action_pos ad) = sum_list (map len (acc_action_pos agg))
  /\ len (ad_reward ad) = sum_list (map len (acc_reward agg))
  /\ len (ad_skill ad) = sum_list (map len (acc_skill agg))
  /\ ad_episode_ends ad = acc_episode_ends agg
  /\ ad_furniture ad = acc_furniture agg
  /\ ad_success ad = acc_success agg
  /\ ad_pickle_file ad = acc_pickle_file agg.
Proof.
  unfold concatenate_all. intros H.
  apply bind_Ok_inv in H as (rs & Hrs%np_concatenate_vstack_len & H).
  apply bind_Ok_inv in H as (c1 & Hc1%img_concatenate_len & H).
  apply bind_Ok_inv in H as (c2 & Hc2%img_concatenate_len & H).
  apply bind_Ok_inv in H as (dl & Hdl%np_concatenate_vstack_len & H).
  apply bind_Ok_inv in H as (ap & Hap%np_concatenate_vstack_len & H).
  apply bind_Ok_inv in H as (rw & Hrw%np_concatenate_vstack_len & H).
  apply bind_Ok_inv in H as (sk & Hsk%np_concatenate_vstack_len & H).
  injection H as <-. simpl. done.
Qed.

(** Every completed result is the result of one submitted path. *)
Lemma completed_results_elem_of sched paths noop r :
  r ∈ completed sched paths noop <->
  exists path, path ∈ paths /\ r = decode path noop.
Proof.
  unfold completed_results. rewrite as_completed_elem_of, list_elem_of_fmap.
  split; intros (p & H1 & H2); eauto.
Qed.

Lemma completed_results_length sched paths noop :
  length (completed sched paths noop) = length paths.
Proof. unfold completed_results. by rewrite as_completed_length, length_map. Qed.

Lemma sum_list_map_ext {A} (f g : A -> nat) (l : list A) :
  Forall (fun x => f x = g x) l -> sum_list (map f l) = sum_list (map g l).
Proof. induction 1 as [|x l Hx _ IH]; simpl; [done | by rewrite Hx, IH]. Qed.

Lemma thread_pool_pos n : 1 <= n -> thread_pool n = Ok tt.
Proof. intros Hn. unfold thread_pool. by destruct n; [lia|]. Qed.

Lemma thread_pool_Ok_inv n u : thread_pool n = Ok u -> 1 <= n.
Proof. unfold thread_pool. destruct n; [done|]. intros _. lia. Qed.

(** With a worker the aggregation is the collection of the results
    followed by the concatenation; without, the pool is refused. *)
Lemma parallel_process_pickle_files_pos sched paths noop n :
  1 <= n ->
  aggregate sched paths noop n
  = (agg ← collect empty_accumulator (completed sched paths noop);
     concatenate_all agg).
Proof.
  intros Hn. unfold parallel_process_pickle_files. by rewrite thread_pool_pos.
Qed.

Lemma parallel_process_pickle_files_no_worker sched paths noop :
  aggregate sched paths noop 0
  = Raise (ValueError "max_workers must be greater than 0").
Proof. reflexivity. Qed.

Lemma parallel_process_pickle_files_workers sched paths noop n ad :
  aggregate sched paths noop n = Ok ad -> 1 <= n.
Proof.
  unfold parallel_process_pickle_files.
  intros (u & Hpool & _)%bind_Ok_inv. by apply thread_pool_Ok_inv in Hpool.
Qed.

(** What holds of every aggregate that the code returns: [ds] are the
    decoded episodes in completion order. *)
Lemma parallel_process_pickle_files_inv sched paths noop n ad :
  aggregate sched paths noop n = Ok ad ->
  exists ds,
    completed sched paths noop = map Ok ds
    /\ ds ≠ []
    /\ Forall (fun d => 1 <= episode_length d) ds
    /\ ad_episode_ends ad = running_ends 0 (map episode_length ds)
    /\ len (ad_robot_state ad) = sum_list (map episode_length ds)
    /\ len (ad_action_delta ad) = sum_list (map episode_length ds)
    /\ len (ad_action_pos ad) = sum_list (map episode_length ds)
    /\ img_len (ad_color_image1 ad) = sum_list (map episode_length ds)
    /\ img_len (ad_color_image2 ad) = sum_list (map episode_length ds)
    /\ len (ad_reward ad) = sum_list (map (fun d => len (reward d)) ds)
    /\ len (ad_skill ad) = sum_list (map (fun d => len (skill d)) ds)
    /\ ad_furniture ad = map pd_furniture ds
    /\ ad_success ad = map pd_success ds
    /\ ad_pickle_file ad = map pickle_file ds.
Proof.
  intros Hagg.
  rewrite parallel_process_pickle_files_pos in Hagg
    by (by eapply parallel_process_pickle_files_workers).
  apply bind_Ok_inv in Hagg as (agg & (ds & Hds & ->)%collect_Ok & Hcat).
  assert (Forall (fun d => exists path, decode path noop = Ok d) ds) as Hdec.
  { apply Forall_forall. intros d Hd.
    assert (Ok d ∈ completed sched paths noop) as Hin.
    { rewrite Hds. by apply list_elem_of_fmap_2. }
    apply completed_results_elem_of in Hin as (p & _ & Hp). eauto. }
  assert (ds ≠ []) as Hne.
  { intros ->. discriminate Hcat. }
  pose proof (foldl_aggregate_one empty_accumulator ds) as Hf. simpl in Hf.
  destruct Hf as (F1&F2&F3&F4&F5&F6&F7&F8&F9&F10&F11).
  apply concatenate_all_inv in Hcat as (C1&C2&C3&C4&C5&C6&C7&C8&C9&C10&C11).
  rewrite F1 in C1. rewrite F2 in C2. rewrite F3 in C3. rewrite F4 in C4.
  rewrite F5 in C5. rewrite F6 in C6. rewrite F7 in C7. rewrite F8 in C8.
  rewrite F9 in C9. rewrite F10 in C10. rewrite F11 in C11.
  rewrite map_map in C1, C2, C3, C4, C5, C6, C7.
  exists ds. split; [done|].
  split; [done|].
  split.
  { eapply Forall_impl; [exact Hdec|]. simpl.
    intros d [p Hp]. by apply process_pickle_file_lengths in Hp as (?&_). }
  split; [done|].
  repeat split; try done.
  - rewrite C1. apply sum_list_map_ext. eapply Forall_impl; [exact Hdec|].
    simpl. intros d [p Hp]. by apply process_pickle_file_lengths in Hp as (_&?&_).
  - rewrite C4. apply sum_list_map_ext. eapply Forall_impl; [exact Hdec|].
    simpl. intros d [p Hp]. by apply process_pickle_file_lengths in Hp as (_&_&?&_).
  - rewrite C5. apply sum_list_map_ext. eapply Forall_impl; [exact Hdec|].
    simpl. intros d [p Hp]. by apply process_pickle_file_lengths in Hp as (_&_&_&?&_).
  - rewrite C2. apply sum_list_map_ext. eapply Forall_impl; [exact Hdec|].
    simpl. intros d [p Hp]. by apply process_pickle_file_lengths in Hp as (_&_&_&_&?&_).
  - rewrite C3. apply sum_list_map_ext. eapply Forall_impl; [exact Hdec|].
    simpl. intros d [p Hp]. by apply process_pickle_file_lengths in Hp as (_&_&_&_&_&?).
Qed.
End AggregatorFacts.

(** ** The store *)

Section StoreFacts.
Context {F : Type}.
Variable write_fault : string -> bool.
Variable torn_write : string -> option (value F) -> value F -> option (value F).
Variable astype_other : dtype -> value F -> result (value F).

Lemma update_store_Some (z : Path) f (w : world F) s :
  fs w !! parts z = Some s ->
  update_store z f w
  = {| fs := <[parts z := f s]> (fs w); clock := clock w; log := log w |}.
Proof. intros Hs. unfold update_store. by rewrite (alter_alt_Some _ _ _ _ Hs). Qed.

Lemma io_bind_eq {A B} (m : IO F A) (k : A -> IO F B) w w' a :
  m w = (w', Ok a) -> io_bind m k w = k a w'.
Proof. intros H. unfold io_bind. by rewrite H. Qed.

Lemma io_bind_raise {A B} (m : IO F A) (k : A -> IO F B) w w' e :
  m w = (w', Raise e) -> io_bind m k w = (w', Raise e).
Proof. intros H. unfold io_bind. by rewrite H. Qed.

Lemma io_for_log {A} (l : list A) (ev : A -> event) (w : world F) :
  io_for l (fun x => io_log (ev x)) w
  = ({| fs := fs w; clock := clock w; log := log w ++ map ev l |}, Ok tt).
Proof.
  revert w. induction l as [|x l IH]; intros w; simpl.
  - unfold io_ret. rewrite app_nil_r. by destruct w.
  - unfold io_bind, io_log at 1. rewrite IH. simpl.
    by rewrite <- app_assoc.
Qed.

Lemma create_dataset_fresh (z : Path) name shp dt chunks comp (w : world F) s :
  fs w !! parts z = Some s ->
  datasets s !! name = None ->
  create_dataset z name shp dt chunks comp w
  = ({| fs := <[parts z :=
                 {| attrs := attrs s;
                    datasets :=
                      <[name := {| ds_shape := shp; ds_dtype := dt;
                                   ds_chunks := chunks; ds_compressor := comp;
                                   ds_data := None |}]> (datasets s) |}]> (fs w);
        clock := clock w;
        log := log w ++ [EvCreateDataset name] |}, Ok tt).
Proof.
  intros Hs Hname. unfold create_dataset. rewrite Hs, Hname.
  by rewrite (update_store_Some _ _ _ s).
Qed.

(** The loop of [initialize_zarr_store] over distinct fresh names: every
    declared channel gets its dataset, nothing else changes. *)
Lemma io_for_create_datasets (z : Path) cs
    (specs : list (string * list nat * dtype)) (w : world F) s :
  fs w !! parts z = Some s ->
  NoDup (map (fun spec => spec.1.1) specs) ->
  Forall (fun spec => datasets s !! spec.1.1 = None) specs ->
  exists s',
    io_for specs (fun '(name, shp, dt) =>
       if python_in "color_image" name
       then create_dataset z name shp dt (chunks_of cs shp) (Some image_compressor)
       else create_dataset z name shp dt (chunks_of cs shp) None) w
    = ({| fs := <[parts z := s']> (fs w);
          clock := clock w;
          log := log w ++ map (fun spec => EvCreateDataset spec.1.1) specs |},
       Ok tt)
    /\ attrs s' = attrs s
    /\ (forall name shp dt, (name, shp, dt) ∈ specs ->
          datasets s' !! name = Some (new_dataset cs name shp dt))
    /\ (forall name, name ∉ map (fun spec => spec.1.1) specs ->
          datasets s' !! name = datasets s !! name).
Proof.
  revert w s. induction specs as [|[[name shp] dt] specs IH]; intros w s Hs Hnd Hfresh.
  - exists s. simpl. unfold io_ret. rewrite app_nil_r.
    rewrite (insert_id _ _ _ Hs). split; [by destruct w|].
    split; [done|]. split; [|done]. intros ??? []%elem_of_nil.
  - simpl in Hnd. apply NoDup_cons in Hnd as [Hname Hnd].
    apply Forall_cons in Hfresh as [Hfresh0 Hfresh]. simpl in Hfresh0.
    set (d := @new_dataset F cs name shp dt).
    set (s1 := {| attrs := attrs s; datasets := <[name := d]> (datasets s) |}).
    set (w1 := {| fs := <[parts z := s1]> (fs w); clock := clock w;
                  log := log w ++ [EvCreateDataset name] |}).
    assert ((if python_in "color_image" name
             then create_dataset z name shp dt (chunks_of cs shp) (Some image_compressor)
             else create_dataset z name shp dt (chunks_of cs shp) None) w
            = (w1, Ok tt)) as Hstep.
    { unfold w1, s1, d, new_dataset.
      destruct (python_in "color_image" name);
        by rewrite (create_dataset_fresh _ _ _ _ _ _ _ s). }
    destruct (IH w1 s1) as (s' & Hrun & Hattrs & Hin & Hout).
    { simpl. apply lookup_insert_eq. }
    { done. }
    { rewrite Forall_forall in Hfresh. apply Forall_forall.
      intros spec Hspec. simpl. rewrite lookup_insert_ne; [by apply Hfresh|].
      intros ->. apply Hname. apply list_elem_of_fmap. by exists spec. }
    exists s'. split.
    { simpl. unfold io_bind at 1. rewrite Hstep. rewrite Hrun. simpl.
      by rewrite insert_insert_eq, <- app_assoc. }
    split; [done|]. split.
    + intros name' shp' dt' [[= -> -> ->]|Hin']%elem_of_cons.
      * rewrite Hout; [|done]. simpl. apply lookup_insert_eq.
      * by apply Hin.
    + intros name' [Hne Hnotin]%not_elem_of_cons.
      rewrite Hout by done. simpl. by rewrite lookup_insert_ne.
Qed.

Lemma attrs_set_Some (z : Path) key v (w : world F) s :
  fs w !! parts z = Some s ->
  attrs_set z key v w
  = ({| fs := <[parts z := {| attrs := <[key := v]> (attrs s);
                              datasets := datasets s |}]> (fs w);
        clock := clock w;
        log := log w ++ [EvSetAttr key] |}, Ok tt).
Proof. intros Hs. unfold attrs_set. by rewrite (update_store_Some _ _ _ s). Qed.

(** Store creation, as a whole. *)
Lemma initialize_zarr_store_spec (out : Path) specs cs (w : world F) :
  NoDup (map (fun spec => spec.1.1) specs) ->
  exists s,
    initialize_zarr_store out specs cs w
    = ({| fs := <[parts out := s]> (fs w);
          clock := S (clock w);
          log := log w ++ [EvOpen out; EvSetAttr "time_created"]
                   ++ map (fun spec => EvCreateDataset spec.1.1) specs |},
       Ok out)
    /\ attrs s = {[ "time_created" := AStr (pretty (clock w)) ]}
    /\ (forall name shp dt, (name, shp, dt) ∈ specs ->
          datasets s !! name = Some (new_dataset cs name shp dt))
    /\ (forall name, name ∉ map (fun spec => spec.1.1) specs ->
          datasets s !! name = None).
Proof.
  intros Hnd.
  set (s0 := {| attrs := {[ "time_created" := AStr (pretty (clock w)) ]};
                datasets := ∅ |} : store F).
  unfold initialize_zarr_store.
  erewrite io_bind_eq; [|reflexivity].
  erewrite io_bind_eq; [|reflexivity].
  erewrite io_bind_eq; [|apply attrs_set_Some; cbn [fs]; apply lookup_insert_eq].
  cbn [fs clock log attrs datasets empty_store].
  rewrite insert_insert_eq, <- app_assoc. fold s0.
  match goal with
  | |- context [io_bind (io_for _ _) _ ?W] =>
      destruct (io_for_create_datasets out cs specs W s0)
        as (s & Hrun & Hattrs & Hin & Hout)
  end.
  { cbn [fs]. apply lookup_insert_eq. }
  { done. }
  { apply Forall_forall. intros spec _. apply lookup_empty. }
  exists s. split; [|split; [done|split; [done|]]].
  - erewrite io_bind_eq; [|exact Hrun]. unfold io_ret. cbn [fs clock log].
    by rewrite insert_insert_eq, <- app_assoc.
  - intros name Hname. rewrite Hout by done. apply lookup_empty.
Qed.

Lemma with_data_same (d : dataset F) : with_data d (ds_data d) = d.
Proof. by destruct d. Qed.

Lemma write_channel_ok (z : Path) name v (w : world F) s d v' :
  fs w !! parts z = Some s ->
  datasets s !! name = Some d ->
  ds_shape d = value_shape v ->
  write_fault name = false ->
  astype astype_other (ds_dtype d) v = Ok v' ->
  write_channel write_fault torn_write astype_other z name v w
  = ({| fs := <[parts z :=
                 {| attrs := attrs s;
                    datasets := <[name := with_data d (Some v')]> (datasets s) |}]>
                (fs w);
        clock := clock w;
        log := log w ++ [EvWrite name] |}, Ok tt).
Proof.
  intros Hs Hd Hshape Hfault Hcast. unfold write_channel, bulk_write.
  rewrite Hs, Hd, Hfault, Hshape, Hcast.
  rewrite (proj2 (shape_eqb_true _ _) eq_refl). simpl.
  by rewrite (update_store_Some _ _ _ s).
Qed.

(** A write that fails on the way raises, and leaves in its dataset what
    had been stored by then. *)
Lemma write_channel_fault (z : Path) name v (w : world F) s d :
  fs w !! parts z = Some s ->
  datasets s !! name = Some d ->
  ds_shape d = value_shape v ->
  write_fault name = true ->
  write_channel write_fault torn_write astype_other z name v w
  = ({| fs := <[parts z :=
                 {| attrs := attrs s;
                    datasets :=
                      <[name := with_data d (torn_write name (ds_data d) v)]>
                        (datasets s) |}]> (fs w);
        clock := clock w;
        log := log w |}, Raise (OSError "write failed")).
Proof.
  intros Hs Hd Hshape Hfault. unfold write_channel, bulk_write.
  rewrite Hs, Hd, Hfault, Hshape.
  rewrite (proj2 (shape_eqb_true _ _) eq_refl). simpl.
  by rewrite (update_store_Some _ _ _ s).
Qed.

(** The write loop over distinct channels that all exist with the shape
    of their data: it writes the channels before the first storage
    fault, in order, tears the channel of the fault, and leaves the
    later channels and the attributes alone. *)
Lemma io_for_write_channels (z : Path) (items : list (string * value F))
    (w : world F) s :
  fs w !! parts z = Some s ->
  NoDup (map fst items) ->
  Forall (fun item => exists d v',
            datasets s !! item.1 = Some d
            /\ ds_shape d = value_shape item.2
            /\ astype astype_other (ds_dtype d) item.2 = Ok v') items ->
  exists s',
    io_for items
      (fun '(name, v) => write_channel write_fault torn_write astype_other z name v) w
    = ({| fs := <[parts z := s']> (fs w);
          clock := clock w;
          log := log w ++ map EvWrite (written write_fault (map fst items)) |},
       if forallb (fun name => negb (write_fault name)) (map fst items)
       then Ok tt else Raise (OSError "write failed"))
    /\ attrs s' = attrs s
    /\ (forall name v d v',
          (name, v) ∈ items ->
          datasets s !! name = Some d ->
          astype astype_other (ds_dtype d) v = Ok v' ->
          datasets s' !! name
          = Some (with_data d
                    (if bool_decide (name ∈ written write_fault (map fst items))
                     then Some v'
                     else if bool_decide
                               (first_fault write_fault (map fst items) = Some name)
                          then torn_write name (ds_data d) v
                          else ds_data d)))
    /\ (forall name, name ∉ map fst items -> datasets s' !! name = datasets s !! name).
Proof.
  revert w s. induction items as [|[name v] items IH]; intros w s Hs Hnd Hall.
  - exists s. simpl. unfold io_ret. rewrite app_nil_r, (insert_id _ _ _ Hs).
    split; [by destruct w|]. split; [done|]. split; [|done].
    intros ???? []%elem_of_nil.
  - simpl in Hnd. apply NoDup_cons in Hnd as [Hname Hnd].
    apply Forall_cons in Hall as [(d & v0 & Hd & Hshape & Hcast) Hall].
    simpl in Hd, Hshape, Hcast.
    assert (forall name' v1, (name', v1) ∈ items -> name ≠ name') as Hother.
    { intros name' v1 Hitem ->. apply Hname. apply list_elem_of_fmap.
      by exists (name', v1). }
    simpl. destruct (write_fault name) eqn:Hfault; simpl.
    + eexists. unfold io_bind.
      rewrite (write_channel_fault _ _ _ _ s d) by done.
      rewrite app_nil_r. split; [reflexivity|]. split; [done|]. split.
      * intros name' v1 d' v1' [[= -> ->]|Hitem]%elem_of_cons Hd' Hcast'.
        -- simpl. rewrite lookup_insert_eq. rewrite Hd in Hd'. injection Hd' as <-.
           by rewrite bool_decide_eq_true_2.
        -- pose proof (Hother _ _ Hitem) as Hne.
           simpl. rewrite lookup_insert_ne by done. rewrite Hd'.
           rewrite bool_decide_eq_false_2 by congruence.
           by rewrite with_data_same.
      * intros name' [Hne Hnotin]%not_elem_of_cons.
        simpl. by rewrite lookup_insert_ne.
    + set (s1 := {| attrs := attrs s;
                    datasets := <[name := with_data d (Some v0)]> (datasets s) |}).
      set (w1 := {| fs := <[parts z := s1]> (fs w); clock := clock w;
                    log := log w ++ [EvWrite name] |}).
      destruct (IH w1 s1) as (s' & Hrun & Hattrs & Hin & Hout).
      { simpl. apply lookup_insert_eq. }
      { done. }
      { rewrite Forall_forall in Hall. apply Forall_forall.
        intros [name' v1] Hitem.
        destruct (Hall _ Hitem) as (d0 & v0' & Hd0 & Hshape0 & Hcast0).
        exists d0, v0'. split; [|done]. simpl.
        rewrite lookup_insert_ne; [done|]. by eapply Hother. }
      exists s'. split; [|split; [done|split]].
      * unfold io_bind at 1.
        rewrite (write_channel_ok _ _ _ _ s d v0) by done.
        fold s1. fold w1. rewrite Hrun. simpl.
        by rewrite insert_insert_eq, <- app_assoc.
      * intros name' v1 d' v1' [[= -> ->]|Hitem]%elem_of_cons Hd' Hcast'.
        -- rewrite Hout by done. simpl. rewrite lookup_insert_eq.
           rewrite Hd in Hd'. injection Hd' as <-.
           rewrite Hcast in Hcast'. injection Hcast' as <-.
           rewrite bool_decide_eq_true_2; [done|]. left.
        -- pose proof (Hother _ _ Hitem) as Hne.
           rewrite (Hin name' v1 d' v1' Hitem);
             [|simpl; by rewrite lookup_insert_ne|done].
           do 2 f_equal.
           rewrite (bool_decide_ext (name' ∈ name :: written write_fault (map fst items))
                      (name' ∈ written write_fault (map fst items))); [done|].
           rewrite elem_of_cons. split; [intros [?|?]; [congruence|done] | auto].
      * intros name' [Hne Hnotin]%not_elem_of_cons.
        rewrite Hout by done. simpl. by rewrite lookup_insert_ne.
Qed.
End StoreFacts.

(** ** The script *)

Section MainFacts.
Context {R F RobotState : Type}.
Variable float32 : R -> F.
Variable quat_to_rot_6d : F * F * F * F -> F * F * F * F * F * F.
Variable filter_and_concat_robot_state : RobotState -> list R.
Variable unpickle_data : Path -> result (@Trajectory R RobotState).
Variable write_fault : string -> bool.
Variable torn_write : string -> option (value F) -> value F -> option (value F).
Variable astype_other : dtype -> value F -> result (value F).

Abbreviation aggregate :=
  (parallel_process_pickle_files float32 quat_to_rot_6d
     filter_and_concat_robot_state unpickle_data).
Abbreviation script :=
  (main float32 quat_to_rot_6d filter_and_concat_robot_state unpickle_data
     write_fault torn_write astype_other).
Abbreviation all_written :=
  (forallb (fun name => negb (write_fault name)) channel_names).

(** The decode phase: with a worker every path is submitted before the
    results are collected; without, nothing is. *)
Lemma run_decode_phase_eq sched paths n (w : world F) :
  run_decode_phase float32 quat_to_rot_6d filter_and_concat_robot_state
    unpickle_data sched paths n w
  = ({| fs := fs w; clock := clock w;
        log := log w ++ (if n =? 0 then [] else map EvSubmit paths) |},
     aggregate sched paths noop_threshold n).
Proof.
  unfold run_decode_phase. destruct n as [|n].
  - simpl. rewrite app_nil_r. by destruct w.
  - erewrite io_bind_eq; [|reflexivity].
    erewrite io_bind_eq; [|apply io_for_log]. reflexivity.
Qed.

(** The guard. *)
Lemma main_already_exists args paths out n sched (w : world F) :
  is_Some (fs w !! parts out) ->
  overwrite args = false ->
  script args paths out n sched w
  = (w, Raise (ValueError (already_exists_message out))).
Proof.
  intros Hthere Hflag. unfold main.
  erewrite io_bind_eq; [|reflexivity].
  by rewrite (bool_decide_eq_true_2 _ Hthere), Hflag.
Qed.

(** Past the guard, the script is the three phases in sequence. *)
Lemma main_proceeds args paths out n sched (w : world F) :
  fs w !! parts out = None \/ overwrite args = true ->
  script args paths out n sched w
  = io_bind
      (run_decode_phase float32 quat_to_rot_6d filter_and_concat_robot_state
         unpickle_data sched paths n)
      (fun all_data =>
         io_bind (initialize_zarr_store out (full_data_shapes all_data) chunksize)
           (fun z => write_phase write_fault torn_write astype_other z all_data)) w.
Proof.
  intros Hguard. unfold main.
  erewrite io_bind_eq; [|reflexivity].
  destruct Hguard as [Hnone| ->].
  - rewrite bool_decide_eq_false_2; [done|]. rewrite Hnone. by intros [].
  - by rewrite andb_false_r.
Qed.

(** A failed decode phase ends the run with the store untouched. *)
Lemma main_decode_error args paths out n sched (w : world F) e :
  fs w !! parts out = None \/ overwrite args = true ->
  aggregate sched paths noop_threshold n = Raise e ->
  script args paths out n sched w
  = ({| fs := fs w; clock := clock w;
        log := log w ++ (if n =? 0 then [] else map EvSubmit paths) |},
     Raise e).
Proof.
  intros Hguard Hagg. rewrite main_proceeds by done.
  erewrite io_bind_raise; [done|]. by rewrite run_decode_phase_eq, Hagg.
Qed.

(** Every key of [all_data] is declared with the shape of its value and
    a dtype to which the value converts. *)
Lemma all_data_items_declared (all_data : @AggregatedData F) item :
  item ∈ all_data_items all_data ->
  exists dt,
    (item.1, value_shape item.2, dt) ∈ full_data_shapes all_data
    /\ astype astype_other dt item.2 = Ok (as_stored item.2).
Proof.
  unfold all_data_items, full_data_shapes. rewrite !elem_of_cons, elem_of_nil.
  intros H.
  repeat (destruct H as [->|H];
          [eexists; split;
           [apply list_elem_of_In; simpl;
            repeat first [left; reflexivity | right]
           |reflexivity]|]).
  done.
Qed.

Lemma channel_names_items (all_data : @AggregatedData F) name :
  name ∈ channel_names -> exists v, (name, v) ∈ all_data_items all_data.
Proof.
  unfold channel_names, all_data_items. rewrite !elem_of_cons, elem_of_nil.
  intros Hname.
  repeat (destruct Hname as [->|Hname];
          [eexists; apply list_elem_of_In; simpl;
           repeat first [left; reflexivity | right]|]).
  done.
Qed.

(** After a successful decode phase the store is created and written up
    to the first storage fault; the final metadata is set only when
    there was none. *)
Lemma main_store args paths out n sched (w : world F) all_data :
  fs w !! parts out = None \/ overwrite args = true ->
  aggregate sched paths noop_threshold n = Ok all_data ->
  exists s,
    script args paths out n sched w
    = ({| fs := <[parts out := s]> (fs w);
          clock := if all_written then S (S (clock w)) else S (clock w);
          log := log w ++ map EvSubmit paths
                   ++ [EvOpen out; EvSetAttr "time_created"]
                   ++ map EvCreateDataset declared_names
                   ++ map EvWrite (written write_fault channel_names)
                   ++ (if all_written
                       then [EvSetAttr "time_finished"; EvSetAttr "noop_threshold";
                             EvSetAttr "chunksize"]
                       else []) |},
       if all_written then Ok tt else Raise (OSError "write failed"))
    /\ attrs s
       = (if all_written
          then <[ "chunksize" := AInt chunksize ]>
                 (<[ "noop_threshold" := AFloat noop_threshold ]>
                    (<[ "time_finished" := AStr (pretty (S (clock w))) ]>
                       {[ "time_created" := AStr (pretty (clock w)) ]}))
          else {[ "time_created" := AStr (pretty (clock w)) ]})
    /\ (forall name, is_Some (datasets s !! name) <-> name ∈ channel_names)
    /\ (forall name v,
          (name, v) ∈ all_data_items all_data ->
          exists dt,
            (name, value_shape v, dt) ∈ full_data_shapes all_data
            /\ datasets s !! name
               = Some (with_data (new_dataset chunksize name (value_shape v) dt)
                         (if bool_decide (name ∈ written write_fault channel_names)
                          then Some (as_stored v)
                          else if bool_decide
                                    (first_fault write_fault channel_names = Some name)
                               then torn_write name None v
                               else None))).
Proof.
  intros Hguard Hagg. rewrite main_proceeds by done.
  erewrite io_bind_eq; [|by rewrite run_decode_phase_eq, Hagg].
  apply parallel_process_pickle_files_workers in Hagg as Hn.
  destruct n as [|n]; [lia|]. cbn [Nat.eqb].
  match goal with
  | |- context [io_bind (initialize_zarr_store _ ?specs ?cs) _ ?W] =>
      destruct (initialize_zarr_store_spec out specs cs W)
        as (s0 & Hinit & Hattrs0 & Hin0 & Hout0)
  end.
  { change (NoDup declared_names). apply (bool_decide_unpack _). by vm_compute. }
  erewrite io_bind_eq; [|exact Hinit]. cbn [fs clock log] in *.
  unfold write_phase.
  match goal with
  | |- context [io_bind (io_for ?items _) _ ?W] =>
      destruct (io_for_write_channels write_fault torn_write astype_other
                  out items W s0)
        as (s1 & Hwr & Hattrs1 & Hin1 & Hout1)
  end.
  { cbn [fs]. apply lookup_insert_eq. }
  { change (NoDup channel_names). apply (bool_decide_unpack _). by vm_compute. }
  { apply Forall_forall. intros item (dt & Hdt & Hcast)%all_data_items_declared.
    apply (Hin0 _ _ _) in Hdt. eauto. }
  cbn [fs clock log] in Hwr. rewrite insert_insert_eq in Hwr.
  change (map fst (all_data_items all_data)) with channel_names in *.
  change (map (fun spec : string * list nat * dtype => EvCreateDataset spec.1.1)
            (full_data_shapes all_data))
    with (map EvCreateDataset declared_names) in *.
  assert (forall name v,
            (name, v) ∈ all_data_items all_data ->
            exists dt,
              (name, value_shape v, dt) ∈ full_data_shapes all_data
              /\ datasets s1 !! name
                 = Some (with_data (new_dataset chunksize name (value_shape v) dt)
                           (if bool_decide (name ∈ written write_fault channel_names)
                            then Some (as_stored v)
                            else if bool_decide
                                      (first_fault write_fault channel_names = Some name)
                                 then torn_write name None v
                                 else None))) as Hitems.
  { intros name v Hv.
    destruct (all_data_items_declared all_data _ Hv) as (dt & Hdt & Hcast).
    simpl in Hdt, Hcast. exists dt. split; [done|].
    by rewrite (Hin1 name v _ _ Hv (Hin0 _ _ _ Hdt) Hcast). }
  assert (forall name, is_Some (datasets s1 !! name) <-> name ∈ channel_names)
    as Hdom.
  { intros name. destruct (decide (name ∈ channel_names)) as [Hname|Hname].
    - split; [done|]. intros _.
      destruct (channel_names_items all_data name Hname) as [v Hv].
      destruct (Hitems name v Hv) as (dt & _ & ->). eauto.
    - split; [|done]. rewrite (Hout1 _ Hname), Hout0; [by intros []|].
      change (map (fun spec : string * list nat * dtype => spec.1.1)
                (full_data_shapes all_data)) with declared_names.
      intros Hd. apply Hname. unfold declared_names in Hd. unfold channel_names.
      rewrite !elem_of_cons, elem_of_nil in Hd. rewrite !elem_of_cons. tauto. }
  destruct all_written eqn:Hall.
  - erewrite io_bind_eq; [|exact Hwr].
    erewrite io_bind_eq; [|reflexivity].
    erewrite io_bind_eq; [|apply attrs_set_Some; cbn [fs]; apply lookup_insert_eq].
    erewrite io_bind_eq; [|apply attrs_set_Some; cbn [fs]; apply lookup_insert_eq].
    erewrite attrs_set_Some; [|cbn [fs]; apply lookup_insert_eq].
    cbn [fs clock log attrs datasets]. rewrite !insert_insert_eq.
    eexists. split; [|split; [|split]].
    + f_equal. f_equal. rewrite <- !app_assoc. reflexivity.
    + cbn [attrs]. by rewrite Hattrs1, Hattrs0.
    + exact Hdom.
    + exact Hitems.
  - erewrite io_bind_raise; [|exact Hwr].
    exists s1. split; [|split; [|split]].
    + f_equal. f_equal. rewrite <- !app_assoc, app_nil_r. reflexivity.
    + by rewrite Hattrs1, Hattrs0.
    + exact Hdom.
    + exact Hitems.
Qed.

(** The shapes in the store are those of the aggregated arrays. *)
Lemma main_store_shapes args paths out n sched (w : world F) all_data :
  fs w !! parts out = None \/ overwrite args = true ->
  aggregate sched paths noop_threshold n = Ok all_data ->
  forall s,
    fs (script args paths out n sched w).1 !! parts out = Some s ->
    forall item, item ∈ all_data_items all_data ->
      ds_shape <$> (datasets s !! item.1) = Some (value_shape item.2).
Proof.
  intros Hguard Hagg s Hs [name v] Hitem.
  destruct (main_store args paths out n sched w all_data Hguard Hagg)
    as (s' & Hrun & _ & _ & Hitems).
  rewrite Hrun in Hs. cbn [fst fs] in Hs. rewrite lookup_insert_eq in Hs.
  injection Hs as <-.
  destruct (Hitems name v Hitem) as (dt & _ & Hd). simpl. by rewrite Hd.
Qed.
End MainFacts.

(** * The claims *)

Section KinematicsClaims.
Context {F : Type}.
Variable quat_to_rot_6d : F * F * F * F -> F * F * F * F * F * F.

(** C7.  On a batch of 8-wide action rows, [action_to_6d_rotation]
    returns 10-wide rows, one per input row and in the same order: the
    first three entries and the last entry are the position and the
    gripper entries of the input row, unchanged, and the six entries in
    between are the 6D expansion of the quaternion at entries 3..6 of the
    input row.  On a batch of any other row width it fails with the
    assertion error ["Action must be 8D"]. *)
Theorem action_to_6d_rotation_spec :
  (forall rows : list (list F),
     Forall (fun r => length r = 8) rows ->
     exists out,
       action_to_6d_rotation quat_to_rot_6d (Mat 8 rows) = Ok (Mat 10 out)
       /\ Forall2
            (fun r o =>
               length o = 10
               /\ take 3 o = take 3 r
               /\ drop 9 o = drop 7 r
               /\ exists x y z w,
                    take 4 (drop 3 r) = [x; y; z; w]
                    /\ take 6 (drop 3 o) = rot_6d_list (quat_to_rot_6d (x, y, z, w)))
            rows out)
  /\ (forall w (rows : list (list F)),
        w ≠ 8 ->
        action_to_6d_rotation quat_to_rot_6d (Mat w rows)
        = Raise (AssertionError "Action must be 8D")).
Proof.
  split.
  - intros rows Hrows. exists (map (action_row_6d quat_to_rot_6d) rows).
    split; [apply action_to_6d_rotation_rows|].
    apply Forall2_fmap_r, Forall_Forall2_diag.
    eapply Forall_impl; [exact Hrows|]. clear rows Hrows. simpl.
    intros r (p0&p1&p2&x&y&z&w&g&->)%length_8_inv.
    unfold action_row_6d, rot_6d_row, rot_6d_list. simpl.
    destruct (quat_to_rot_6d (x, y, z, w)) as [[[[[a b] c] d] e] f] eqn:Hq.
    simpl. repeat split. exists x, y, z, w. by rewrite Hq.
  - apply action_to_6d_rotation_width.
Qed.

(** C6.  For 14-wide state rows, [extract_ee_pose_6d] applied to the
    16-wide result of [proprioceptive_to_6d_rotation] yields 9-wide rows:
    the first three entries are the position [s[0:3]] of the state row
    and the other six are the 6D expansion of its quaternion [s[3:7]],
    which are also the first nine entries of the expanded row.
    [extract_ee_pose_6d] fails with the assertion error
    ["Robot state must be 16D"] on any other row width. *)
Theorem extract_ee_pose_6d_of_expanded_state :
  (forall rows : list (list F),
     Forall (fun s => length s = 14) rows ->
     exists expanded poses,
       proprioceptive_to_6d_rotation quat_to_rot_6d (Mat 14 rows)
       = Ok (Mat 16 expanded)
       /\ extract_ee_pose_6d (Mat 16 expanded) = Ok (Mat 9 poses)
       /\ Forall2
            (fun s p =>
               length p = 9
               /\ take 3 p = take 3 s
               /\ exists x y z w,
                    take 4 (drop 3 s) = [x; y; z; w]
                    /\ drop 3 p = rot_6d_list (quat_to_rot_6d (x, y, z, w)))
            rows poses
       /\ Forall2 (fun e p => length e = 16 /\ p = take 9 e) expanded poses)
  /\ (forall w (rows : list (list F)),
        w ≠ 16 ->
        extract_ee_pose_6d (Mat w rows)
        = Raise (AssertionError "Robot state must be 16D")).
Proof.
  split.
  - intros rows Hrows.
    exists (map (state_row_6d quat_to_rot_6d) rows),
           (map pose_row_6d (map (state_row_6d quat_to_rot_6d) rows)).
    split; [apply proprioceptive_to_6d_rotation_rows|].
    split; [apply extract_ee_pose_6d_rows|].
    split.
    + rewrite map_map. apply Forall2_fmap_r, Forall_Forall2_diag.
      eapply Forall_impl; [exact Hrows|]. simpl.
      intros s Hs. rewrite pose_of_state_row by done.
      destruct (length_14_inv _ Hs)
        as (p0&p1&p2&x&y&z&w&v0&v1&v2&a0&a1&a2&g&->).
      unfold rot_6d_row, rot_6d_list. simpl.
      destruct (quat_to_rot_6d (x, y, z, w)) as [[[[[a b] c] d] e] f] eqn:Hq.
      simpl. repeat split. exists x, y, z, w. by rewrite Hq.
    + apply Forall2_fmap_r, Forall_Forall2_diag, Forall_fmap.
      eapply Forall_impl; [exact Hrows|]. simpl.
      intros s Hs. split; [by apply state_row_6d_length|].
      destruct (length_14_inv _ Hs)
        as (p0&p1&p2&x&y&z&w&v0&v1&v2&a0&a1&a2&g&->).
      unfold pose_row_6d, state_row_6d, rot_6d_row, rot_6d_list. simpl.
      by destruct (quat_to_rot_6d (x, y, z, w)) as [[[[[a b] c] d] e] f].
  - apply extract_ee_pose_6d_width.
Qed.
End KinematicsClaims.

Lemma action_to_6d_rotation_spec_witness :
  (exists out,
     action_to_6d_rotation Sample.quat_to_rot_6d (Mat 8 [Sample.action 1; Sample.action 2])
     = Ok (Mat 10 out)
     /\ Forall2
          (fun r o =>
             length o = 10
             /\ take 3 o = take 3 r
             /\ drop 9 o = drop 7 r
             /\ exists x y z w,
                  take 4 (drop 3 r) = [x; y; z; w]
                  /\ take 6 (drop 3 o)
                     = rot_6d_list (Sample.quat_to_rot_6d (x, y, z, w)))
          [Sample.action 1; Sample.action 2] out)
  /\ action_to_6d_rotation Sample.quat_to_rot_6d (Mat 7 [[1; 2; 3; 4; 5; 6; 7]%Z])
     = Raise (AssertionError "Action must be 8D").
Proof.
  split.
  - apply (proj1 (action_to_6d_rotation_spec Sample.quat_to_rot_6d)).
    repeat constructor.
  - apply (proj2 (action_to_6d_rotation_spec Sample.quat_to_rot_6d)). lia.
Defined.

Lemma extract_ee_pose_6d_of_expanded_state_witness :
  (exists expanded poses,
     proprioceptive_to_6d_rotation Sample.quat_to_rot_6d
       (Mat 14 [Sample.state 0; Sample.state 1])
     = Ok (Mat 16 expanded)
     /\ extract_ee_pose_6d (Mat 16 expanded) = Ok (Mat 9 poses)
     /\ Forall2
          (fun s p =>
             length p = 9
             /\ take 3 p = take 3 s
             /\ exists x y z w,
                  take 4 (drop 3 s) = [x; y; z; w]
                  /\ drop 3 p = rot_6d_list (Sample.quat_to_rot_6d (x, y, z, w)))
          [Sample.state 0; Sample.state 1] poses
     /\ Forall2 (fun e p => length e = 16 /\ p = take 9 e) expanded poses)
  /\ extract_ee_pose_6d (Mat 14 [Sample.state 0])
     = Raise (AssertionError "Robot state must be 16D").
Proof.
  split.
  - apply (proj1 (extract_ee_pose_6d_of_expanded_state Sample.quat_to_rot_6d)).
    repeat constructor.
  - apply (proj2 (extract_ee_pose_6d_of_expanded_state Sample.quat_to_rot_6d)). lia.
Defined.

Section DecoderClaims.
Context {R F RobotState : Type}.
Variable float32 : R -> F.
Variable quat_to_rot_6d : F * F * F * F -> F * F * F * F * F * F.
Variable filter_and_concat_robot_state : RobotState -> list R.
Variable unpickle_data : Path -> result (@Trajectory R RobotState).

Abbreviation decode :=
  (process_pickle_file float32 quat_to_rot_6d filter_and_concat_robot_state unpickle_data).
Abbreviation raw_states data :=
  (map (fun o => filter_and_concat_robot_state (obs_robot_state o)) (observations data)).

(** C3, amended.  For a raw episode with [N + 1] observations and
    [N >= 1] actions, 8-wide actions, 14-wide robot states and [H x W x 3]
    frames, stored under a path with a [raw] component, decoding
    returns: [robot_state], the 16D-expanded observation states without
    the last timestep, of shape [[N, 16]]; [action_pos],
    [extract_ee_pose_6d] of the expanded states without the first
    timestep, of shape [[N, 9]]; [action_delta], the 6D-expanded actions,
    of shape [[N, 10]]; and both image channels, the stacked frames
    without the last timestep, of shape [[N, H, W, 3]]. *)
Theorem process_pickle_file_channels path noop data N H W :
  unpickle_data path = Ok data ->
  1 <= N ->
  length (observations data) = N + 1 ->
  length (actions data) = N ->
  Forall (fun a => length a = 8) (actions data) ->
  Forall (fun s => length s = 14) (raw_states data) ->
  Forall (fun o => img_shape (obs_color_image1 o) = [H; W; 3]) (observations data) ->
  Forall (fun o => img_shape (obs_color_image2 o) = [H; W; 3]) (observations data) ->
  "raw" ∈ parts path ->
  exists d expanded stack1 stack2,
    decode path noop = Ok d
    /\ proprioceptive_to_6d_rotation quat_to_rot_6d
         (Mat 14 (map (map float32) (raw_states data))) = Ok expanded
    /\ shape expanded = [N + 1; 16]
    /\ robot_state d = drop_last expanded
    /\ shape (robot_state d) = [N; 16]
    /\ well_shaped (robot_state d)
    /\ extract_ee_pose_6d (drop_first expanded) = Ok (action_pos d)
    /\ shape (action_pos d) = [N; 9]
    /\ well_shaped (action_pos d)
    /\ action_to_6d_rotation quat_to_rot_6d
         (Mat 8 (map (map float32) (actions data))) = Ok (action_delta d)
    /\ shape (action_delta d) = [N; 10]
    /\ well_shaped (action_delta d)
    /\ np_array_images (map obs_color_image1 (observations data)) = Ok stack1
    /\ color_image1 d = img_drop_last stack1
    /\ imgarray_shape (color_image1 d) = [N; H; W; 3]
    /\ np_array_images (map obs_color_image2 (observations data)) = Ok stack2
    /\ color_image2 d = img_drop_last stack2
    /\ imgarray_shape (color_image2 d) = [N; H; W; 3].
Proof.
  intros Hdata HN Hobs Hact Ha8 Hs14 Him1 Him2 Hraw.
  assert (observations data ≠ []) as Hone by (intros E; rewrite E in Hobs; simpl in Hobs; lia).
  assert (actions data ≠ []) as Hane by (intros E; rewrite E in Hact; simpl in Hact; lia).
  set (st1 := {| frame_shape := [H; W; 3];
                 frames := map (fun i => map to_uint8 (img_data i))
                             (map obs_color_image1 (observations data)) |}).
  set (st2 := {| frame_shape := [H; W; 3];
                 frames := map (fun i => map to_uint8 (img_data i))
                             (map obs_color_image2 (observations data)) |}).
  assert (np_array_images (map obs_color_image1 (observations data)) = Ok st1) as Hst1.
  { apply np_array_images_uniform; [by intros ?%map_eq_nil | by apply Forall_fmap]. }
  assert (np_array_images (map obs_color_image2 (observations data)) = Ok st2) as Hst2.
  { apply np_array_images_uniform; [by intros ?%map_eq_nil | by apply Forall_fmap]. }
  destruct (tuple_index_present _ _ Hraw) as [i Hi].
  destruct (process_pickle_file_ok float32 quat_to_rot_6d
              filter_and_concat_robot_state unpickle_data
              path noop data st1 st2 i) as [d Hd]; try done.
  { lia. }
  pose proof (process_pickle_file_inv _ _ _ _ _ _ _ Hd) as
    (data'&im1&im2&i'&Hdata'&Him1'&Him2'&_&_&_&_&_&_
      &Hrs&Hc1&Hc2&Hdl&Hap&_).
  rewrite Hdata in Hdata'. injection Hdata' as <-.
  rewrite Hst1 in Him1'. injection Him1' as <-.
  rewrite Hst2 in Him2'. injection Him2' as <-.
  exists d, (Mat 16 (map (state_row_6d quat_to_rot_6d)
                       (map (map float32) (raw_states data)))), st1, st2.
  rewrite Hrs, Hap, Hdl, Hc1, Hc2.
  assert (Forall (fun r : list F => length r = 14)
            (map (map float32) (raw_states data))) as Hs14'.
  { apply Forall_fmap. eapply Forall_impl; [exact Hs14|].
    intros r Hr. simpl. by rewrite length_map. }
  assert (Forall (fun r : list F => length r = 16)
            (map (state_row_6d quat_to_rot_6d) (map (map float32) (raw_states data))))
    as Hs16.
  { apply Forall_fmap. eapply Forall_impl; [exact Hs14'|].
    intros r Hr. simpl. by apply state_row_6d_length. }
  split; [done|].
  split; [apply proprioceptive_to_6d_rotation_rows|].
  split; [simpl; by rewrite !length_map, Hobs|].
  split; [done|].
  split; [simpl; rewrite py_init_length, !length_map, Hobs; f_equal; lia|].
  split; [simpl; by apply Forall_take|].
  split; [apply extract_ee_pose_6d_rows|].
  split; [cbn [shape]; rewrite length_map, py_tail_length, !length_map, Hobs; f_equal; lia|].
  split.
  { simpl. apply Forall_fmap. apply (Forall_drop _ 1) in Hs16.
    eapply Forall_impl; [exact Hs16|]. intros r Hr. simpl.
    by apply pose_row_6d_length. }
  split; [apply action_to_6d_rotation_rows|].
  split; [simpl; by rewrite !length_map, Hact|].
  split.
  { simpl. apply Forall_fmap, Forall_fmap. eapply Forall_impl; [exact Ha8|].
    intros r Hr. simpl. apply action_row_6d_length. by rewrite length_map. }
  split; [done|]. split; [done|].
  split.
  { unfold imgarray_shape. rewrite img_drop_last_len. unfold img_len, st1. simpl.
    rewrite !length_map, Hobs. f_equal. lia. }
  split; [done|]. split; [done|].
  unfold imgarray_shape. rewrite img_drop_last_len. unfold img_len, st2. simpl.
  rewrite !length_map, Hobs. f_equal. lia.
Qed.

(** The provenance string of a decoded episode is the parts of its path
    strictly after the first part equal to ["raw"], joined with ["/"]. *)
Lemma pickle_file_after_raw path noop d :
  decode path noop = Ok d ->
  exists pre post,
    parts path = pre ++ "raw" :: post
    /\ ("raw" ∉ pre)
    /\ pickle_file d = String.concat "/" post.
Proof.
  intros (data&im1&im2&i&_&_&_&_&_&_&_&_&Hi&_&_&_&_&_&_&_&_&_&_&Hpf)
    %process_pickle_file_inv.
  apply tuple_index_spec in Hi as (pre & post & Hparts & Hpre & ->).
  exists pre, post. split; [done|]. split; [done|].
  rewrite Hpf, Hparts, <- drop_drop, drop_app_length. done.
Qed.
End DecoderClaims.

(** C3 as stated fails on an episode without actions, whose (empty) action
    array has no second axis, and on an episode stored outside [raw]. *)
Lemma process_pickle_file_channels_counterexample :
  (let data := Sample.episode 0 0 in
   Sample.unpickle_data Sample.path_no_action = Ok data
   /\ length (observations data) = 0 + 1
   /\ length (actions data) = 0
   /\ Forall (fun a => length a = 8) (actions data)
   /\ Forall (fun o => length (obs_robot_state o) = 14) (observations data)
   /\ Sample.process_pickle_file Sample.path_no_action 0%float
      = Raise (IndexError "tuple index out of range"))
  /\ (let data := Sample.episode 2 2 in
      Sample.unpickle_data Sample.path_outside_raw = Ok data
      /\ length (observations data) = 2 + 1
      /\ length (actions data) = 2
      /\ Forall (fun a => length a = 8) (actions data)
      /\ Forall (fun o => length (obs_robot_state o) = 14) (observations data)
      /\ Sample.process_pickle_file Sample.path_outside_raw 0%float
         = Raise (ValueError "tuple.index(x): x not in tuple")).
Proof.
  split; simpl; repeat split; repeat constructor.
Qed.

Lemma process_pickle_file_channels_witness :
  exists d expanded stack1 stack2,
    Sample.process_pickle_file Sample.path_a 0%float = Ok d
    /\ proprioceptive_to_6d_rotation Sample.quat_to_rot_6d
         (Mat 14 (map (map Sample.float32)
                    (map (fun o => Sample.filter_and_concat_robot_state (obs_robot_state o))
                       (observations (Sample.episode 2 2))))) = Ok expanded
    /\ shape expanded = [2 + 1; 16]
    /\ robot_state d = drop_last expanded
    /\ shape (robot_state d) = [2; 16]
    /\ well_shaped (robot_state d)
    /\ extract_ee_pose_6d (drop_first expanded) = Ok (action_pos d)
    /\ shape (action_pos d) = [2; 9]
    /\ well_shaped (action_pos d)
    /\ action_to_6d_rotation Sample.quat_to_rot_6d
         (Mat 8 (map (map Sample.float32) (actions (Sample.episode 2 2))))
       = Ok (action_delta d)
    /\ shape (action_delta d) = [2; 10]
    /\ well_shaped (action_delta d)
    /\ np_array_images (map obs_color_image1 (observations (Sample.episode 2 2)))
       = Ok stack1
    /\ color_image1 d = img_drop_last stack1
    /\ imgarray_shape (color_image1 d) = [2; 2; 2; 3]
    /\ np_array_images (map obs_color_image2 (observations (Sample.episode 2 2)))
       = Ok stack2
    /\ color_image2 d = img_drop_last stack2
    /\ imgarray_shape (color_image2 d) = [2; 2; 2; 3].
Proof.
  apply (process_pickle_file_channels Sample.float32 Sample.quat_to_rot_6d
           Sample.filter_and_concat_robot_state Sample.unpickle_data
           Sample.path_a 0%float (Sample.episode 2 2) 2 2 2).
  - reflexivity.
  - lia.
  - reflexivity.
  - reflexivity.
  - repeat constructor.
  - repeat constructor.
  - repeat constructor.
  - repeat constructor.
  - apply (bool_decide_unpack _). vm_compute. exact I.
Defined.

(** C1.  The decoder compares the lengths of [robot_state] and
    [action_delta] only.  On the episode [short_reward.pkl], with two
    actions, three observations, two skills and a single reward, it
    returns a decoded episode whose [reward] channel has length 1 next to
    channels of length 2, where the claim wants a length-mismatch error. *)
Theorem process_pickle_file_reward_length_unchecked :
  exists d,
    Sample.process_pickle_file Sample.path_short_reward 0%float = Ok d
    /\ len (robot_state d) = 2
    /\ len (action_delta d) = 2
    /\ len (action_pos d) = 2
    /\ len (skill d) = 2
    /\ len (reward d) = 1.
Proof.
  eexists. split; [vm_compute; reflexivity|]. vm_compute. repeat split.
Qed.

Section AggregateClaims.
Context {R F RobotState : Type}.
Variable float32 : R -> F.
Variable quat_to_rot_6d : F * F * F * F -> F * F * F * F * F * F.
Variable filter_and_concat_robot_state : RobotState -> list R.
Variable unpickle_data : Path -> result (@Trajectory R RobotState).

Abbreviation aggregate :=
  (parallel_process_pickle_files float32 quat_to_rot_6d
     filter_and_concat_robot_state unpickle_data).
Abbreviation completed :=
  (completed_results float32 quat_to_rot_6d filter_and_concat_robot_state unpickle_data).

(** The part of the bookkeeping that holds of every aggregate: with [ds]
    the decoded episodes in completion order, [episode_ends] is strictly
    increasing, each boundary is the previous one plus the length of its
    episode, the last boundary is the length of the state, action and
    image channels, and the per-episode channels list the episodes in
    the same order.  The [reward] and [skill] channels are as long as
    the rewards and skills found in the pickles. *)
Lemma parallel_process_pickle_files_episode_ends sched paths noop n all_data :
  aggregate sched paths noop n = Ok all_data ->
  exists ds,
    completed sched paths noop = map Ok ds
    /\ length ds = length paths
    /\ length (ad_episode_ends all_data) = length ds
    /\ (forall i j a b,
          i < j ->
          ad_episode_ends all_data !! i = Some a ->
          ad_episode_ends all_data !! j = Some b ->
          a < b)
    /\ (forall i d,
          ds !! i = Some d ->
          ad_episode_ends all_data !! i
          = Some (match i with
                  | 0 => 0
                  | S j => default 0 (ad_episode_ends all_data !! j)
                  end + episode_length d))
    /\ last (ad_episode_ends all_data) = Some (len (ad_robot_state all_data))
    /\ len (ad_action_delta all_data) = len (ad_robot_state all_data)
    /\ len (ad_action_pos all_data) = len (ad_robot_state all_data)
    /\ img_len (ad_color_image1 all_data) = len (ad_robot_state all_data)
    /\ img_len (ad_color_image2 all_data) = len (ad_robot_state all_data)
    /\ len (ad_reward all_data) = sum_list (map (fun d => len (reward d)) ds)
    /\ len (ad_skill all_data) = sum_list (map (fun d => len (skill d)) ds)
    /\ ad_furniture all_data = map pd_furniture ds
    /\ ad_success all_data = map pd_success ds
    /\ ad_pickle_file all_data = map pickle_file ds.
Proof.
  intros Hagg.
  destruct (parallel_process_pickle_files_inv _ _ _ _ _ _ _ _ _ Hagg)
    as (ds & Hds & Hne & Hpos & Hends & Hrs & Hdl & Hap & Hc1 & Hc2
        & Hrw & Hsk & Hfu & Hsu & Hpf).
  exists ds. rewrite Hends, Hrs, Hdl, Hap, Hc1, Hc2.
  split; [done|].
  split.
  { rewrite <- (completed_results_length float32 quat_to_rot_6d
                  filter_and_concat_robot_state unpickle_data sched paths noop), Hds.
    by rewrite length_map. }
  split; [by rewrite running_ends_length, length_map|].
  split.
  { intros i j a b. apply running_ends_increasing. by apply Forall_fmap. }
  split.
  { intros i d Hd. apply running_ends_step. by rewrite list_lookup_fmap, Hd. }
  split.
  { rewrite running_ends_last; [done|]. by intros ?%map_eq_nil. }
  done.
Qed.
End AggregateClaims.

(** C2.  The boundaries follow the lengths of [action_delta], which the
    decoder does not compare with the rewards.  Aggregating [a.pkl] (two
    steps, two rewards) and [short_reward.pkl] (two steps, one reward)
    returns [episode_ends = [2; 4]] and state and action channels of
    length 4, next to a [reward] channel of length 3: the last boundary is
    not the length of every per-timestep channel. *)
Theorem parallel_process_pickle_files_reward_total :
  exists all_data,
    Sample.parallel_process_pickle_files [1]
      [Sample.path_a; Sample.path_short_reward] noop_threshold 4 = Ok all_data
    /\ ad_episode_ends all_data = [2; 4]
    /\ len (ad_robot_state all_data) = 4
    /\ len (ad_action_delta all_data) = 4
    /\ len (ad_action_pos all_data) = 4
    /\ len (ad_skill all_data) = 4
    /\ len (ad_reward all_data) = 3.
Proof.
  eexists. split; [vm_compute; reflexivity|]. vm_compute. repeat split.
Qed.

Section PipelineClaims.
Context {R F RobotState : Type}.
Variable float32 : R -> F.
Variable quat_to_rot_6d : F * F * F * F -> F * F * F * F * F * F.
Variable filter_and_concat_robot_state : RobotState -> list R.
Variable unpickle_data : Path -> result (@Trajectory R RobotState).
Variable write_fault : string -> bool.
Variable torn_write : string -> option (value F) -> value F -> option (value F).
Variable astype_other : dtype -> value F -> result (value F).

Abbreviation decode :=
  (process_pickle_file float32 quat_to_rot_6d filter_and_concat_robot_state unpickle_data).
Abbreviation aggregate :=
  (parallel_process_pickle_files float32 quat_to_rot_6d
     filter_and_concat_robot_state unpickle_data).
Abbreviation completed :=
  (completed_results float32 quat_to_rot_6d filter_and_concat_robot_state unpickle_data).
Abbreviation script :=
  (main float32 quat_to_rot_6d filter_and_concat_robot_state unpickle_data
     write_fault torn_write astype_other).

(** In a pool with a worker, one failed task fails the aggregation with
    the error of a failed task. *)
Lemma aggregate_fail_fast sched paths noop n bad :
  1 <= n ->
  bad ∈ paths ->
  is_ok (decode bad noop) = false ->
  exists path e,
    path ∈ paths /\ decode path noop = Raise e
    /\ aggregate sched paths noop n = Raise e.
Proof.
  intros Hn Hbad Hfail.
  destruct (collect_Raise (completed sched paths noop)) as (ds & e & post & Hrs & Hc).
  { exists (decode bad noop). split; [|done].
    apply completed_results_elem_of. eauto. }
  assert (Raise e ∈ completed sched paths noop) as Hin.
  { rewrite Hrs. apply elem_of_app. right. left. }
  apply completed_results_elem_of in Hin as (path & Hpath & Hdec).
  exists path, e. split; [done|]. split; [done|].
  rewrite parallel_process_pickle_files_pos by done. by rewrite Hc.
Qed.

(** A failed aggregation ends the script before the store is opened. *)
Lemma main_aborts_on_decode_error sched paths n e args out (w : world F) :
  aggregate sched paths noop_threshold n = Raise e ->
  script args paths out n sched w
  = if bool_decide (is_Some (fs w !! parts out)) && negb (overwrite args)
    then (w, Raise (ValueError (already_exists_message out)))
    else ({| fs := fs w; clock := clock w;
             log := log w ++ (if n =? 0 then [] else map EvSubmit paths) |},
          Raise e).
Proof.
  intros Hagg. destruct (overwrite args) eqn:Hflag.
  - rewrite andb_false_r. apply main_decode_error; auto.
  - rewrite andb_true_r. case_bool_decide as Hthere.
    + by apply main_already_exists.
    + apply main_decode_error; [|done]. left.
      destruct (fs w !! parts out) eqn:E; [|done]. exfalso. apply Hthere. eauto.
Qed.

(** C4.  In a pool with at least one worker, if the decode task of one
    submitted path fails, the aggregation fails with the error of a
    failed task, whatever the completion order; the script then ends
    with that error, leaves the file system as it was and logs nothing
    but the submissions, so there is no write phase.  A pool without
    workers is refused with a [ValueError] before any task is submitted,
    and the script ends there in the world it started from.  Conversely
    an aggregate is returned only when every submitted path was decoded,
    and then it holds one entry per path: nothing is skipped. *)
Theorem parallel_process_pickle_files_fail_fast sched paths n :
  (1 <= n ->
   forall bad,
     bad ∈ paths ->
     is_ok (decode bad noop_threshold) = false ->
     exists path e,
       path ∈ paths
       /\ decode path noop_threshold = Raise e
       /\ aggregate sched paths noop_threshold n = Raise e
       /\ forall args out (w : world F),
            script args paths out n sched w
            = if bool_decide (is_Some (fs w !! parts out)) && negb (overwrite args)
              then (w, Raise (ValueError (already_exists_message out)))
              else ({| fs := fs w; clock := clock w;
                       log := log w ++ map EvSubmit paths |}, Raise e))
  /\ (n = 0 ->
      aggregate sched paths noop_threshold n
      = Raise (ValueError "max_workers must be greater than 0")
      /\ forall args out (w : world F),
           script args paths out n sched w
           = if bool_decide (is_Some (fs w !! parts out)) && negb (overwrite args)
             then (w, Raise (ValueError (already_exists_message out)))
             else (w, Raise (ValueError "max_workers must be greater than 0")))
  /\ (forall all_data,
        aggregate sched paths noop_threshold n = Ok all_data ->
        1 <= n
        /\ (forall path, path ∈ paths ->
              exists d, decode path noop_threshold = Ok d
                        /\ pickle_file d ∈ ad_pickle_file all_data)
        /\ length (ad_episode_ends all_data) = length paths
        /\ length (ad_pickle_file all_data) = length paths
        /\ length (ad_furniture all_data) = length paths
        /\ length (ad_success all_data) = length paths).
Proof.
  split; [|split].
  - intros Hn bad Hbad Hfail.
    destruct (aggregate_fail_fast sched paths noop_threshold n bad Hn Hbad Hfail)
      as (path & e & Hpath & Hdec & Hagg).
    exists path, e. repeat split; try done.
    intros args out w. rewrite (main_aborts_on_decode_error _ _ _ e) by done.
    by destruct n; [lia|].
  - intros ->. split; [reflexivity|]. intros args out w.
    rewrite (main_aborts_on_decode_error _ _ _
               (ValueError "max_workers must be greater than 0")) by reflexivity.
    simpl. rewrite app_nil_r. by destruct w.
  - intros all_data Hagg.
    split; [by eapply parallel_process_pickle_files_workers|].
    apply parallel_process_pickle_files_inv in Hagg
      as (ds & Hds & _ & _ & Hends & _ & _ & _ & _ & _ & _ & _ & Hfu & Hsu & Hpf).
    assert (length ds = length paths) as Hlen.
    { rewrite <- (completed_results_length float32 quat_to_rot_6d
                    filter_and_concat_robot_state unpickle_data
                    sched paths noop_threshold), Hds.
      by rewrite length_map. }
    split.
    + intros path Hpath.
      assert (decode path noop_threshold ∈ completed sched paths noop_threshold) as Hin.
      { apply completed_results_elem_of. eauto. }
      rewrite Hds in Hin. apply list_elem_of_fmap in Hin as (d & Hd & Hdin).
      exists d. split; [done|]. rewrite Hpf. by apply list_elem_of_fmap_2.
    + rewrite Hends, Hpf, Hfu, Hsu, running_ends_length, !length_map. done.
Qed.

(** C10.  The provenance string of a decoded episode is the parts of
    its path strictly after the first part equal to ["raw"], joined with
    ["/"].  A path without such a part makes the decoder raise, and then
    the aggregation raises and the script ends with an error and an
    untouched file system: no default provenance is made up. *)
Theorem pickle_file_provenance :
  (forall path noop d,
     decode path noop = Ok d ->
     exists pre post,
       parts path = pre ++ "raw" :: post
       /\ ("raw" ∉ pre)
       /\ pickle_file d = String.concat "/" post)
  /\ (forall path noop,
        "raw" ∉ parts path -> exists e, decode path noop = Raise e)
  /\ (forall sched paths n path,
        path ∈ paths ->
        "raw" ∉ parts path ->
        exists e,
          aggregate sched paths noop_threshold n = Raise e
          /\ forall args out (w : world F),
               exists w' e',
                 script args paths out n sched w = (w', Raise e')
                 /\ fs w' = fs w).
Proof.
  split; [|split].
  - apply pickle_file_after_raw.
  - apply process_pickle_file_no_raw.
  - intros sched paths n path Hpath Hraw.
    assert (exists e, aggregate sched paths noop_threshold n = Raise e) as [e Hagg].
    { destruct n as [|n]; [by eexists|].
      destruct (process_pickle_file_no_raw float32 quat_to_rot_6d
                  filter_and_concat_robot_state unpickle_data
                  path noop_threshold Hraw) as [e0 He0].
      destruct (aggregate_fail_fast sched paths noop_threshold (S n) path)
        as (path' & e & _ & _ & Hagg); [lia | done | by rewrite He0 |].
      eauto. }
    exists e. split; [done|]. intros args out w.
    rewrite (main_aborts_on_decode_error _ _ _ e) by done.
    destruct (_ && _); eauto.
Qed.
End PipelineClaims.

Lemma parallel_process_pickle_files_fail_fast_witness :
  (exists path e,
     path ∈ [Sample.path_a; Sample.path_missing; Sample.path_b]
     /\ Sample.process_pickle_file path noop_threshold = Raise e
     /\ Sample.parallel_process_pickle_files [2; 0]
          [Sample.path_a; Sample.path_missing; Sample.path_b] noop_threshold 4
        = Raise e
     /\ forall args out (w : world Z),
          Sample.main Sample.no_fault args
            [Sample.path_a; Sample.path_missing; Sample.path_b] out 4 [2; 0] w
          = if bool_decide (is_Some (fs w !! parts out)) && negb (overwrite args)
            then (w, Raise (ValueError (already_exists_message out)))
            else ({| fs := fs w; clock := clock w;
                     log := log w ++ map EvSubmit
                                       [Sample.path_a; Sample.path_missing; Sample.path_b] |},
                  Raise e))
  /\ Sample.parallel_process_pickle_files [2; 0]
       [Sample.path_a; Sample.path_missing; Sample.path_b] noop_threshold 0
     = Raise (ValueError "max_workers must be greater than 0")
  /\ forall args out (w : world Z),
       Sample.main Sample.no_fault args
         [Sample.path_a; Sample.path_missing; Sample.path_b] out 0 [2; 0] w
       = if bool_decide (is_Some (fs w !! parts out)) && negb (overwrite args)
         then (w, Raise (ValueError (already_exists_message out)))
         else (w, Raise (ValueError "max_workers must be greater than 0")).
Proof.
  split.
  - refine (proj1 (parallel_process_pickle_files_fail_fast Sample.float32
                     Sample.quat_to_rot_6d Sample.filter_and_concat_robot_state
                     Sample.unpickle_data Sample.no_fault Sample.torn_write
                     Sample.astype_other [2; 0]
                     [Sample.path_a; Sample.path_missing; Sample.path_b] 4)
              _ Sample.path_missing _ _).
    + lia.
    + apply (bool_decide_unpack _). vm_compute. exact I.
    + vm_compute. reflexivity.
  - apply (proj1 (proj2 (parallel_process_pickle_files_fail_fast Sample.float32
                           Sample.quat_to_rot_6d
                           Sample.filter_and_concat_robot_state
                           Sample.unpickle_data Sample.no_fault Sample.torn_write
                           Sample.astype_other [2; 0]
                           [Sample.path_a; Sample.path_missing; Sample.path_b] 0))).
    reflexivity.
Defined.

Lemma pickle_file_provenance_witness :
  (exists d,
     Sample.process_pickle_file Sample.path_a 0%float = Ok d
     /\ exists pre post,
          parts Sample.path_a = pre ++ "raw" :: post
          /\ ("raw" ∉ pre)
          /\ pickle_file d = String.concat "/" post)
  /\ (exists e, Sample.process_pickle_file Sample.path_outside_raw 0%float = Raise e)
  /\ (exists e,
        Sample.parallel_process_pickle_files [] [Sample.path_a; Sample.path_outside_raw]
          noop_threshold 4 = Raise e
        /\ forall args out (w : world Z),
             exists w' e',
               Sample.main Sample.no_fault args
                 [Sample.path_a; Sample.path_outside_raw] out 4 [] w
               = (w', Raise e')
               /\ fs w' = fs w).
Proof.
  pose proof (pickle_file_provenance Sample.float32 Sample.quat_to_rot_6d
                Sample.filter_and_concat_robot_state Sample.unpickle_data
                Sample.no_fault Sample.torn_write Sample.astype_other)
    as (H1 & H2 & H3).
  split; [|split].
  - eexists. split; [vm_compute; reflexivity|].
    apply (H1 Sample.path_a 0%float). vm_compute. reflexivity.
  - apply H2. apply (bool_decide_unpack _). vm_compute. exact I.
  - apply (H3 [] [Sample.path_a; Sample.path_outside_raw] 4 Sample.path_outside_raw).
    + apply (bool_decide_unpack _). vm_compute. exact I.
    + apply (bool_decide_unpack _). vm_compute. exact I.
Defined.

Section StoreClaims.
Context {R F RobotState : Type}.
Variable float32 : R -> F.
Variable quat_to_rot_6d : F * F * F * F -> F * F * F * F * F * F.
Variable filter_and_concat_robot_state : RobotState -> list R.
Variable unpickle_data : Path -> result (@Trajectory R RobotState).
Variable write_fault : string -> bool.
Variable torn_write : string -> option (value F) -> value F -> option (value F).
Variable astype_other : dtype -> value F -> result (value F).

Abbreviation aggregate :=
  (parallel_process_pickle_files float32 quat_to_rot_6d
     filter_and_concat_robot_state unpickle_data).
Abbreviation script :=
  (main float32 quat_to_rot_6d filter_and_concat_robot_state unpickle_data
     write_fault torn_write astype_other).
Abbreviation all_written :=
  (forallb (fun name => negb (write_fault name)) channel_names).

(** C8.  [initialize_zarr_store], on the shapes that the script
    declares, creates one dataset per channel of [all_data] and no
    other.  Each is created empty, with the full shape of the array that
    will be written to it, and with chunks [(chunksize,) + shape[1:]]:
    the leading dimension is cut, the trailing ones are kept whole.  The
    two image channels, and only they, get the zstd level-9 bit-shuffle
    compressor; the others are created without a compressor argument. *)
Theorem initialize_zarr_store_channels
    (all_data : @AggregatedData F) out cs (w : world F) :
  exists w' s,
    initialize_zarr_store out (full_data_shapes all_data) cs w = (w', Ok out)
    /\ fs w' !! parts out = Some s
    /\ (forall name, is_Some (datasets s !! name) <-> name ∈ channel_names)
    /\ (forall name v,
          (name, v) ∈ all_data_items all_data ->
          exists d,
            datasets s !! name = Some d
            /\ ds_shape d = value_shape v
            /\ ds_chunks d = cs :: drop 1 (value_shape v)
            /\ ds_data d = None
            /\ ds_compressor d
               = match v with
                 | VImage _ => Some image_compressor
                 | _ => None
                 end)
    /\ image_compressor
       = {| cname := "zstd"; clevel := 9; shuffle := BITSHUFFLE |}.
Proof.
  destruct (initialize_zarr_store_spec out (full_data_shapes all_data) cs w)
    as (s & Hrun & _ & Hin & Hout).
  { change (NoDup declared_names). apply (bool_decide_unpack _). by vm_compute. }
  eexists _, s. split; [exact Hrun|]. split; [cbn [fs]; apply lookup_insert_eq|].
  assert (forall name v,
            (name, v) ∈ all_data_items all_data ->
            exists d,
              datasets s !! name = Some d
              /\ ds_shape d = value_shape v
              /\ ds_chunks d = cs :: drop 1 (value_shape v)
              /\ ds_data d = None
              /\ ds_compressor d
                 = match v with
                   | VImage _ => Some image_compressor
                   | _ => None
                   end) as Hitems.
  { intros name v Hitem. unfold all_data_items in Hitem.
    rewrite !elem_of_cons, elem_of_nil in Hitem.
    repeat (destruct Hitem as [[= -> ->]|Hitem];
            [eexists; split;
             [apply Hin; apply list_elem_of_In; simpl;
              repeat first [left; reflexivity | right]
             |by repeat split]|]).
    done. }
  split; [|split; [exact Hitems | reflexivity]].
  intros name. split.
  - intros Hsome. destruct (decide (name ∈ declared_names)) as [Hd|Hd].
    + unfold declared_names in Hd. unfold channel_names.
      rewrite !elem_of_cons, elem_of_nil in Hd.
      rewrite !elem_of_cons. tauto.
    + change declared_names
        with (map (fun spec : string * list nat * dtype => spec.1.1)
                (full_data_shapes all_data)) in Hd.
      rewrite (Hout _ Hd) in Hsome. by destruct Hsome.
  - intros Hname.
    assert (exists v, (name, v) ∈ all_data_items all_data) as [v Hv].
    { unfold channel_names in Hname. rewrite !elem_of_cons, elem_of_nil in Hname.
      unfold all_data_items.
      repeat (destruct Hname as [->|Hname];
              [eexists; apply list_elem_of_In; simpl;
               repeat first [left; reflexivity | right]|]).
      done. }
    destruct (Hitems _ _ Hv) as (d & -> & _). eauto.
Qed.

Lemma zarr_open_w_delete (out : Path) (m : gmap (list string) (store F))
    (c : nat) (l : list event) :
  zarr_open_w out {| fs := delete (parts out) m; clock := c; log := l |}
  = zarr_open_w out {| fs := m; clock := c; log := l |}.
Proof. unfold zarr_open_w. cbn [fs clock log]. by rewrite insert_delete_eq. Qed.

Lemma initialize_zarr_store_delete (out : Path)
    (specs : list (string * list nat * dtype)) (cs : nat)
    (m : gmap (list string) (store F)) (c : nat) (l : list event) :
  initialize_zarr_store out specs cs
    {| fs := delete (parts out) m; clock := c; log := l |}
  = initialize_zarr_store out specs cs {| fs := m; clock := c; log := l |}.
Proof.
  unfold initialize_zarr_store. unfold io_bind at 1 5.
  by rewrite zarr_open_w_delete.
Qed.

(** C5.  When the output location exists and [--overwrite] is not
    given, the script raises the already-exists error and leaves the
    world exactly as it found it: nothing was submitted, nothing was
    created.  With [--overwrite] the run ends as it would on a free
    location.  Once the decode phase has succeeded the whole final
    world is the one obtained from a free location, so that nothing of
    the old store is left: the store at the output location is the one
    created by this run, with its own [time_created] and the eleven
    channels of this run and no other.  When the decode phase fails, the
    script raises its error and the file system is as it was: the old
    store is still there. *)
Theorem main_overwrite_guard args paths out n sched (w : world F) :
  (is_Some (fs w !! parts out) ->
   overwrite args = false ->
   script args paths out n sched w
   = (w, Raise (ValueError (already_exists_message out))))
  /\ (overwrite args = true ->
      let w0 := {| fs := delete (parts out) (fs w); clock := clock w; log := log w |} in
      (script args paths out n sched w).2 = (script args paths out n sched w0).2
      /\ (forall all_data,
            aggregate sched paths noop_threshold n = Ok all_data ->
            script args paths out n sched w = script args paths out n sched w0
            /\ exists s,
                 fs (script args paths out n sched w).1 !! parts out = Some s
                 /\ attrs s !! "time_created" = Some (AStr (pretty (clock w)))
                 /\ (forall name, is_Some (datasets s !! name) <-> name ∈ channel_names)
                 /\ forall item, item ∈ all_data_items all_data ->
                      ds_shape <$> (datasets s !! item.1) = Some (value_shape item.2))
      /\ (forall e,
            aggregate sched paths noop_threshold n = Raise e ->
            (script args paths out n sched w).2 = Raise e
            /\ fs (script args paths out n sched w).1 = fs w)).
Proof.
  split; [apply main_already_exists|].
  intros Hflag w0.
  assert (forall all_data,
            aggregate sched paths noop_threshold n = Ok all_data ->
            script args paths out n sched w = script args paths out n sched w0)
    as Hsame.
  { intros all_data Hagg. rewrite !main_proceeds by auto.
    erewrite io_bind_eq; [|by rewrite run_decode_phase_eq, Hagg].
    erewrite (io_bind_eq _ _ w0); [|by rewrite run_decode_phase_eq, Hagg].
    unfold w0. cbn [fs clock log]. unfold io_bind.
    by rewrite initialize_zarr_store_delete. }
  split; [|split].
  - destruct (aggregate sched paths noop_threshold n) as [all_data|e] eqn:Hagg.
    + by rewrite (Hsame all_data eq_refl).
    + rewrite !(main_decode_error _ _ _ _ _ _ _ _ _ _ _ _ _ e) by auto. done.
  - intros all_data Hagg. split; [exact (Hsame all_data Hagg)|].
    destruct (main_store float32 quat_to_rot_6d filter_and_concat_robot_state
                unpickle_data write_fault torn_write astype_other
                args paths out n sched w all_data)
      as (s & Hrun & Hattrs & Hdom & Hitems); [auto | done |].
    exists s. rewrite Hrun. cbn [fst fs]. split; [apply lookup_insert_eq|].
    split; [|split; [exact Hdom|]].
    + rewrite Hattrs. destruct all_written.
      * rewrite !lookup_insert_ne by done. apply lookup_singleton_eq.
      * apply lookup_singleton_eq.
    + intros [name v] Hitem. destruct (Hitems name v Hitem) as (dt & _ & Hd).
      simpl. by rewrite Hd.
  - intros e Hagg.
    rewrite (main_decode_error _ _ _ _ _ _ _ _ _ _ _ _ _ e) by auto. done.
Qed.
End StoreClaims.

(** C5 as stated fails when the decode phase fails: with [--overwrite]
    and a store at the output location, a run over a pickle that cannot
    be read raises, and the old store is still at the output location,
    with its old attributes: it has not been replaced. *)
Lemma main_overwrite_guard_counterexample :
  let run :=
    Sample.main Sample.no_fault {| overwrite := true |}
      [Sample.path_a; Sample.path_missing] Sample.output_path 4 []
      Sample.used_world in
  fs Sample.used_world !! parts Sample.output_path = Some Sample.old_store
  /\ run.2 = Raise (OSError "No such file or directory")
  /\ fs run.1 !! parts Sample.output_path = Some Sample.old_store
  /\ attrs Sample.old_store !! "time_created" = None.
Proof.
  vm_compute. repeat split.
Qed.

Lemma main_overwrite_guard_witness :
  Sample.main Sample.no_fault {| overwrite := false |}
    [Sample.path_a; Sample.path_b] Sample.output_path 4 [1] Sample.used_world
  = (Sample.used_world,
     Raise (ValueError (already_exists_message Sample.output_path)))
  /\ already_exists_message Sample.output_path
     = "Output path already exists: /data/processed/sim.zarr. Use --overwrite to overwrite."
  /\ (exists all_data,
       Sample.parallel_process_pickle_files [1] [Sample.path_a; Sample.path_b]
         noop_threshold 4 = Ok all_data
       /\ (let w0 := {| fs := delete (parts Sample.output_path) (fs Sample.used_world);
                        clock := clock Sample.used_world;
                        log := log Sample.used_world |} in
           Sample.main Sample.no_fault {| overwrite := true |}
             [Sample.path_a; Sample.path_b] Sample.output_path 4 [1] Sample.used_world
           = Sample.main Sample.no_fault {| overwrite := true |}
               [Sample.path_a; Sample.path_b] Sample.output_path 4 [1] w0)
       /\ exists s,
            fs (Sample.main Sample.no_fault {| overwrite := true |}
                  [Sample.path_a; Sample.path_b] Sample.output_path 4 [1]
                  Sample.used_world).1 !! parts Sample.output_path = Some s
            /\ attrs s !! "time_created"
               = Some (AStr (pretty (clock Sample.used_world)))
            /\ (forall name, is_Some (datasets s !! name) <-> name ∈ channel_names)
            /\ forall item, item ∈ all_data_items all_data ->
                 ds_shape <$> (datasets s !! item.1) = Some (value_shape item.2))
  /\ (Sample.main Sample.no_fault {| overwrite := true |}
        [Sample.path_a; Sample.path_missing] Sample.output_path 4 []
        Sample.used_world).2 = Raise (OSError "No such file or directory")
     /\ fs (Sample.main Sample.no_fault {| overwrite := true |}
              [Sample.path_a; Sample.path_missing] Sample.output_path 4 []
              Sample.used_world).1 = fs Sample.used_world.
Proof.
  split; [|split; [|split]].
  - apply (proj1 (main_overwrite_guard Sample.float32 Sample.quat_to_rot_6d
                    Sample.filter_and_concat_robot_state Sample.unpickle_data
                    Sample.no_fault Sample.torn_write Sample.astype_other
                    {| overwrite := false |}
                    [Sample.path_a; Sample.path_b] Sample.output_path 4 [1]
                    Sample.used_world)).
    + apply (bool_decide_unpack _). vm_compute. exact I.
    + reflexivity.
  - vm_compute. reflexivity.
  - eexists. split; [vm_compute; reflexivity|].
    apply (proj1 (proj2 (proj2 (main_overwrite_guard Sample.float32
                                  Sample.quat_to_rot_6d
                                  Sample.filter_and_concat_robot_state
                                  Sample.unpickle_data
                                  Sample.no_fault Sample.torn_write
                                  Sample.astype_other {| overwrite := true |}
                                  [Sample.path_a; Sample.path_b]
                                  Sample.output_path 4 [1]
                                  Sample.used_world) eq_refl))).
    vm_compute. reflexivity.
  - apply (proj2 (proj2 (proj2 (main_overwrite_guard Sample.float32
                                  Sample.quat_to_rot_6d
                                  Sample.filter_and_concat_robot_state
                                  Sample.unpickle_data
                                  Sample.no_fault Sample.torn_write
                                  Sample.astype_other {| overwrite := true |}
                                  [Sample.path_a; Sample.path_missing]
                                  Sample.output_path 4 []
                                  Sample.used_world) eq_refl))).
    vm_compute. reflexivity.
Defined.

(** ** The order of events *)

Lemma prefix_before {A} (x : A) (front pre post rest : list A) :
  x ∉ front ->
  pre ++ x :: post = front ++ rest ->
  front `prefix_of` pre.
Proof.
  revert pre. induction front as [|a front IH]; intros pre Hx Heq.
  - apply prefix_nil.
  - apply not_elem_of_cons in Hx as [Hne Hx].
    destruct pre as [|b pre]; simpl in Heq.
    + injection Heq as -> _. done.
    + injection Heq as -> Heq. apply prefix_cons. by apply IH.
Qed.

Lemma prefix_map {A B} (f : A -> B) (l1 l2 : list A) :
  l1 `prefix_of` l2 -> map f l1 `prefix_of` map f l2.
Proof. intros [k ->]. exists (map f k). apply map_app. Qed.

Lemma written_prefix write_fault names :
  written write_fault names `prefix_of` names.
Proof.
  induction names as [|name names IH]; simpl; [done|].
  destruct (write_fault name); [apply prefix_nil | by apply prefix_cons].
Qed.

Lemma written_all write_fault names :
  forallb (fun name => negb (write_fault name)) names = true ->
  written write_fault names = names.
Proof.
  induction names as [|name names IH]; simpl; [done|].
  destruct (write_fault name); simpl; [done|]. intros H. by rewrite IH.
Qed.

Lemma written_elem_of write_fault names name :
  name ∈ written write_fault names ->
  name ∈ names /\ write_fault name = false.
Proof.
  induction names as [|name' names IH]; simpl; [by intros ?%elem_of_nil|].
  destruct (write_fault name') eqn:Hfault; [by intros ?%elem_of_nil|].
  intros [->|Hin]%elem_of_cons.
  - split; [left | done].
  - destruct (IH Hin). split; [by right | done].
Qed.

Lemma first_fault_Some write_fault names name :
  first_fault write_fault names = Some name ->
  name ∈ names /\ write_fault name = true.
Proof.
  induction names as [|name' names IH]; simpl; [done|].
  destruct (write_fault name') eqn:Hfault.
  - intros [= ->]. split; [left | done].
  - intros H. destruct (IH H). split; [by right | done].
Qed.

Lemma first_fault_None write_fault names :
  first_fault write_fault names = None
  <-> forallb (fun name => negb (write_fault name)) names = true.
Proof.
  induction names as [|name names IH]; simpl; [done|].
  destruct (write_fault name); simpl; [split; done | exact IH].
Qed.

Section TraceClaims.
Context {R F RobotState : Type}.
Variable float32 : R -> F.
Variable quat_to_rot_6d : F * F * F * F -> F * F * F * F * F * F.
Variable filter_and_concat_robot_state : RobotState -> list R.
Variable unpickle_data : Path -> result (@Trajectory R RobotState).
Variable write_fault : string -> bool.
Variable torn_write : string -> option (value F) -> value F -> option (value F).
Variable astype_other : dtype -> value F -> result (value F).

Abbreviation aggregate :=
  (parallel_process_pickle_files float32 quat_to_rot_6d
     filter_and_concat_robot_state unpickle_data).
Abbreviation script :=
  (main float32 quat_to_rot_6d filter_and_concat_robot_state unpickle_data
     write_fault torn_write astype_other).
Abbreviation all_written :=
  (forallb (fun name => negb (write_fault name)) channel_names).

(** The three ways a run can go. *)
Lemma main_cases args paths out n sched (w : world F) :
  script args paths out n sched w
  = (w, Raise (ValueError (already_exists_message out)))
  \/ (exists e,
        script args paths out n sched w
        = ({| fs := fs w; clock := clock w;
              log := log w ++ (if n =? 0 then [] else map EvSubmit paths) |},
           Raise e))
  \/ (exists s all_data,
        aggregate sched paths noop_threshold n = Ok all_data
        /\ script args paths out n sched w
           = ({| fs := <[parts out := s]> (fs w);
                 clock := if all_written then S (S (clock w)) else S (clock w);
                 log := log w ++ map EvSubmit paths
                          ++ [EvOpen out; EvSetAttr "time_created"]
                          ++ map EvCreateDataset declared_names
                          ++ map EvWrite (written write_fault channel_names)
                          ++ (if all_written
                              then [EvSetAttr "time_finished";
                                    EvSetAttr "noop_threshold"; EvSetAttr "chunksize"]
                              else []) |},
              if all_written then Ok tt else Raise (OSError "write failed"))
        /\ attrs s
           = (if all_written
              then <[ "chunksize" := AInt chunksize ]>
                     (<[ "noop_threshold" := AFloat noop_threshold ]>
                        (<[ "time_finished" := AStr (pretty (S (clock w))) ]>
                           {[ "time_created" := AStr (pretty (clock w)) ]}))
              else {[ "time_created" := AStr (pretty (clock w)) ]})
        /\ (forall name v,
              (name, v) ∈ all_data_items all_data ->
              exists d,
                datasets s !! name = Some d
                /\ ds_shape d = value_shape v
                /\ ds_data d
                   = if bool_decide (name ∈ written write_fault channel_names)
                     then Some (as_stored v)
                     else if bool_decide
                               (first_fault write_fault channel_names = Some name)
                          then torn_write name None v
                          else None)).
Proof.
  destruct (bool_decide (is_Some (fs w !! parts out)) && negb (overwrite args))
    eqn:Hguard.
  - left. apply andb_true_iff in Hguard as [Hthere Hflag].
    apply main_already_exists; [by apply bool_decide_eq_true in Hthere|].
    by destruct (overwrite args).
  - right.
    assert (fs w !! parts out = None \/ overwrite args = true) as Hgo.
    { apply andb_false_iff in Hguard as [Hthere|Hflag].
      - left. apply bool_decide_eq_false in Hthere.
        destruct (fs w !! parts out) eqn:E; [|done]. exfalso. apply Hthere. eauto.
      - right. by destruct (overwrite args). }
    destruct (aggregate sched paths noop_threshold n) as [all_data|e] eqn:Hagg.
    + right.
      destruct (main_store float32 quat_to_rot_6d filter_and_concat_robot_state
                  unpickle_data write_fault torn_write astype_other
                  args paths out n sched w all_data)
        as (s & Hrun & Hattrs & _ & Hitems); [done..|].
      exists s, all_data. split; [done|]. split; [done|]. split; [done|].
      intros name v Hitem. destruct (Hitems name v Hitem) as (dt & _ & Hd).
      eexists. split; [exact Hd|]. done.
    + left. exists e. by apply main_decode_error.
Qed.

(** C9.  The events of a run are an initial segment of the sequence
    submissions, store creation, [time_created], dataset creations,
    channel writes, [time_finished], [noop_threshold], [chunksize].
    Hence each of the three completion attributes is set only after all
    eleven channels have been written; and before any channel write the
    store has been opened and [time_created] set at once.  A write is
    logged only when it went through, and then the channel holds its
    aggregated array in the final store, converted to the dtype of its
    dataset.  A run that raises after having opened the store leaves a
    store whose attributes are [time_created] alone, in which the
    channel of the fault holds what the torn write left and the later
    channels hold nothing; a run that returns leaves the four
    attributes and every one of the eleven channels holding its data. *)
Theorem main_completion_metadata args paths out n sched (w : world F) :
  exists evs,
    log (script args paths out n sched w).1 = log w ++ evs
    /\ evs `prefix_of` full_trace paths out
    /\ (forall pre post key,
          key ∈ ["time_finished"; "noop_threshold"; "chunksize"] ->
          evs = pre ++ EvSetAttr key :: post ->
          forall name, name ∈ channel_names -> EvWrite name ∈ pre)
    /\ (forall pre post name,
          evs = pre ++ EvWrite name :: post ->
          exists mid,
            pre = map EvSubmit paths
                    ++ EvOpen out :: EvSetAttr "time_created" :: mid)
    /\ (forall name,
          EvWrite name ∈ evs ->
          exists s all_data v d,
            aggregate sched paths noop_threshold n = Ok all_data
            /\ (name, v) ∈ all_data_items all_data
            /\ fs (script args paths out n sched w).1 !! parts out = Some s
            /\ datasets s !! name = Some d
            /\ ds_shape d = value_shape v
            /\ ds_data d = Some (as_stored v))
    /\ (forall e,
          (script args paths out n sched w).2 = Raise e ->
          EvOpen out ∈ evs ->
          exists s all_data,
            aggregate sched paths noop_threshold n = Ok all_data
            /\ fs (script args paths out n sched w).1 !! parts out = Some s
            /\ attrs s !! "time_created" = Some (AStr (pretty (clock w)))
            /\ attrs s !! "time_finished" = None
            /\ attrs s !! "noop_threshold" = None
            /\ attrs s !! "chunksize" = None
            /\ exists torn v d,
                 first_fault write_fault channel_names = Some torn
                 /\ (torn, v) ∈ all_data_items all_data
                 /\ (EvWrite torn ∉ evs)
                 /\ datasets s !! torn = Some d
                 /\ ds_data d = torn_write torn None v)
    /\ ((script args paths out n sched w).2 = Ok tt ->
        evs = full_trace paths out
        /\ exists s all_data,
             aggregate sched paths noop_threshold n = Ok all_data
             /\ fs (script args paths out n sched w).1 !! parts out = Some s
             /\ attrs s !! "time_created" = Some (AStr (pretty (clock w)))
             /\ attrs s !! "time_finished" = Some (AStr (pretty (S (clock w))))
             /\ attrs s !! "noop_threshold" = Some (AFloat noop_threshold)
             /\ attrs s !! "chunksize" = Some (AInt chunksize)
             /\ forall name v,
                  (name, v) ∈ all_data_items all_data ->
                  exists d,
                    datasets s !! name = Some d
                    /\ ds_shape d = value_shape v
                    /\ ds_data d = Some (as_stored v)).
Proof.
  assert (forall evs,
            evs `prefix_of` full_trace paths out ->
            (forall pre post key,
               key ∈ ["time_finished"; "noop_threshold"; "chunksize"] ->
               evs = pre ++ EvSetAttr key :: post ->
               forall name, name ∈ channel_names -> EvWrite name ∈ pre)
            /\ (forall pre post name,
                  evs = pre ++ EvWrite name :: post ->
                  exists mid,
                    pre = map EvSubmit paths
                            ++ EvOpen out :: EvSetAttr "time_created" :: mid))
    as Horder.
  { intros evs [rest Hfull]. split.
    - intros pre post key Hkey -> name Hname.
      set (front := map EvSubmit paths
                      ++ [EvOpen out; EvSetAttr "time_created"]
                      ++ map EvCreateDataset declared_names
                      ++ map EvWrite channel_names).
      assert (front `prefix_of` pre) as [tl ->].
      { apply (prefix_before (EvSetAttr key) front pre (post ++ rest)
                 [EvSetAttr "time_finished"; EvSetAttr "noop_threshold";
                  EvSetAttr "chunksize"]).
        - unfold front. rewrite !not_elem_of_app. split.
          + intros (p & [=] & _)%list_elem_of_fmap.
          + split; [|split].
            * rewrite !elem_of_cons, elem_of_nil in Hkey.
              rewrite !not_elem_of_cons. split; [done|]. split; [|apply not_elem_of_nil].
              intros [= ->]. destruct Hkey as [|[|[|]]]; done.
            * intros (p & [=] & _)%list_elem_of_fmap.
            * intros (p & [=] & _)%list_elem_of_fmap.
        - transitivity (full_trace paths out);
            [by rewrite Hfull, <- app_assoc|].
          unfold full_trace, front. by rewrite <- !app_assoc. }
      unfold front. rewrite !elem_of_app. left. right. right. right.
      by apply list_elem_of_fmap_2.
    - intros pre post name ->.
      set (front := map EvSubmit paths ++ [EvOpen out; EvSetAttr "time_created"]).
      assert (front `prefix_of` pre) as [tl ->].
      { apply (prefix_before (EvWrite name) front pre (post ++ rest)
                 (map EvCreateDataset declared_names
                    ++ map EvWrite channel_names
                    ++ [EvSetAttr "time_finished"; EvSetAttr "noop_threshold";
                        EvSetAttr "chunksize"])).
        - unfold front. rewrite !not_elem_of_app. split.
          + intros (p & [=] & _)%list_elem_of_fmap.
          + rewrite !not_elem_of_cons. split; [done|]. split; [done|].
            apply not_elem_of_nil.
        - transitivity (full_trace paths out);
            [by rewrite Hfull, <- app_assoc|].
          unfold full_trace, front. by rewrite <- !app_assoc. }
      exists tl. unfold front. by rewrite <- !app_assoc. }
  destruct (main_cases args paths out n sched w)
    as [Hrun|[(e & Hrun)|(s & all_data & Hagg & Hrun & Hattrs & Hitems)]];
    rewrite Hrun; cbn [fst snd fs log].
  - exists []. rewrite app_nil_r.
    split; [done|]. split; [apply prefix_nil|].
    destruct (Horder [] (prefix_nil _)) as [H1 H2].
    split; [exact H1|]. split; [exact H2|].
    split; [by intros name ?%elem_of_nil|].
    split; [|done]. intros _ _ []%elem_of_nil.
  - assert ((if n =? 0 then [] else map EvSubmit paths)
            `prefix_of` full_trace paths out) as Hpre.
    { destruct (n =? 0); [apply prefix_nil | by apply prefix_app_r]. }
    assert (forall ev, ev ∈ (if n =? 0 then [] else map EvSubmit paths) ->
              exists p, ev = EvSubmit p) as Hsub.
    { intros ev. destruct (n =? 0); [by intros ?%elem_of_nil|].
      intros (p & -> & _)%list_elem_of_fmap. eauto. }
    eexists. split; [reflexivity|]. split; [exact Hpre|].
    destruct (Horder _ Hpre) as [H1 H2].
    split; [exact H1|]. split; [exact H2|].
    split; [by intros name (p & [=])%Hsub|].
    split; [|done]. by intros _ _ (p & [=])%Hsub.
  - eexists. split; [reflexivity|].
    assert ((map EvSubmit paths
               ++ [EvOpen out; EvSetAttr "time_created"]
               ++ map EvCreateDataset declared_names
               ++ map EvWrite (written write_fault channel_names)
               ++ (if all_written
                   then [EvSetAttr "time_finished"; EvSetAttr "noop_threshold";
                         EvSetAttr "chunksize"]
                   else []))
            `prefix_of` full_trace paths out) as Hpre.
    { unfold full_trace. do 3 apply prefix_app. destruct all_written eqn:Hall.
      - by rewrite written_all.
      - rewrite app_nil_r. apply prefix_app_r, prefix_map, written_prefix. }
    split; [exact Hpre|].
    destruct (Horder _ Hpre) as [H1 H2].
    split; [exact H1|]. split; [exact H2|].
    rewrite lookup_insert_eq.
    assert (forall name,
              EvWrite name
              ∈ map EvSubmit paths
                  ++ [EvOpen out; EvSetAttr "time_created"]
                  ++ map EvCreateDataset declared_names
                  ++ map EvWrite (written write_fault channel_names)
                  ++ (if all_written
                      then [EvSetAttr "time_finished"; EvSetAttr "noop_threshold";
                            EvSetAttr "chunksize"]
                      else []) ->
              name ∈ written write_fault channel_names) as Hlogged.
    { intros name. rewrite !elem_of_app.
      intros [(p & [=] & _)%list_elem_of_fmap
             |[Hin|[(p & [=] & _)%list_elem_of_fmap
                   |[(name' & [= ->] & Hin)%list_elem_of_fmap|Hin]]]].
      - rewrite !elem_of_cons, elem_of_nil in Hin. by destruct Hin as [|[|]].
      - done.
      - destruct all_written; [|by apply elem_of_nil in Hin].
        rewrite !elem_of_cons, elem_of_nil in Hin. by destruct Hin as [|[|[|]]]. }
    split.
    { intros name Hname%Hlogged.
      destruct (written_elem_of _ _ _ Hname) as [Hchan _].
      destruct (channel_names_items all_data name Hchan) as [v Hv].
      destruct (Hitems name v Hv) as (d & Hd & Hshape & Hdata).
      exists s, all_data, v, d. repeat split; try done.
      by rewrite Hdata, bool_decide_eq_true_2. }
    destruct all_written eqn:Hall.
    + split; [done|]. intros _.
      split; [unfold full_trace; by rewrite written_all|].
      exists s, all_data. rewrite Hattrs. split; [done|]. split; [done|].
      split; [by simplify_map_eq|]. split; [by simplify_map_eq|].
      split; [by simplify_map_eq|]. split; [by simplify_map_eq|].
      intros name v Hv. destruct (Hitems name v Hv) as (d & Hd & Hshape & Hdata).
      exists d. split; [done|]. split; [done|].
      rewrite Hdata, bool_decide_eq_true_2; [done|].
      rewrite written_all by done.
      apply (list_elem_of_fmap_2 fst) in Hv. exact Hv.
    + split; [|done]. intros e _ _. exists s, all_data. rewrite Hattrs.
      split; [done|]. split; [done|].
      split; [by simplify_map_eq|]. split; [by simplify_map_eq|].
      split; [by simplify_map_eq|]. split; [by simplify_map_eq|].
      destruct (first_fault write_fault channel_names) as [torn|] eqn:Hfirst;
        [|apply first_fault_None in Hfirst; congruence].
      destruct (first_fault_Some _ _ _ Hfirst) as [Hchan Hfault].
      destruct (channel_names_items all_data torn Hchan) as [v Hv].
      destruct (Hitems torn v Hv) as (d & Hd & Hshape & Hdata).
      assert (torn ∉ written write_fault channel_names) as Hnot.
      { intros [_ Hok]%written_elem_of. congruence. }
      exists torn, v, d. split; [done|]. split; [done|].
      split; [by intros ?%Hlogged|]. split; [done|].
      rewrite Hdata, bool_decide_eq_false_2 by done.
      by rewrite bool_decide_eq_true_2.
Qed.
End TraceClaims.

Lemma main_completion_metadata_witness :
  (exists s all_data,
     Sample.parallel_process_pickle_files [1] [Sample.path_a; Sample.path_b]
       noop_threshold 4 = Ok all_data
     /\ fs (Sample.main Sample.skill_fault {| overwrite := false |}
              [Sample.path_a; Sample.path_b] Sample.output_path 4 [1]
              Sample.fresh_world).1 !! parts Sample.output_path = Some s
     /\ attrs s !! "time_created" = Some (AStr (pretty (clock Sample.fresh_world)))
     /\ attrs s !! "time_finished" = None
     /\ attrs s !! "noop_threshold" = None
     /\ attrs s !! "chunksize" = None
     /\ exists torn v d,
          first_fault Sample.skill_fault channel_names = Some torn
          /\ (torn, v) ∈ all_data_items all_data
          /\ (EvWrite torn
              ∉ map EvSubmit [Sample.path_a; Sample.path_b]
                  ++ [EvOpen Sample.output_path; EvSetAttr "time_created"]
                  ++ map EvCreateDataset declared_names
                  ++ map EvWrite ["robot_state"; "color_image1"; "color_image2";
                                  "action/delta"; "action/pos"; "reward"])
          /\ datasets s !! torn = Some d
          /\ ds_data d = Sample.torn_write torn None v)
  /\ (exists s all_data,
        Sample.parallel_process_pickle_files [1] [Sample.path_a; Sample.path_b]
          noop_threshold 4 = Ok all_data
        /\ fs (Sample.main Sample.no_fault {| overwrite := false |}
                 [Sample.path_a; Sample.path_b] Sample.output_path 4 [1]
                 Sample.fresh_world).1 !! parts Sample.output_path = Some s
        /\ attrs s !! "time_created" = Some (AStr (pretty (clock Sample.fresh_world)))
        /\ attrs s !! "time_finished"
           = Some (AStr (pretty (S (clock Sample.fresh_world))))
        /\ attrs s !! "noop_threshold" = Some (AFloat noop_threshold)
        /\ attrs s !! "chunksize" = Some (AInt chunksize)
        /\ forall name v,
             (name, v) ∈ all_data_items all_data ->
             exists d,
               datasets s !! name = Some d
               /\ ds_shape d = value_shape v
               /\ ds_data d = Some (as_stored v))
  /\ (forall name, name ∈ channel_names ->
        EvWrite name
        ∈ map EvSubmit [Sample.path_a; Sample.path_b]
            ++ [EvOpen Sample.output_path; EvSetAttr "time_created"]
            ++ map EvCreateDataset declared_names
            ++ map EvWrite channel_names).
Proof.
  split; [|split].
  - destruct (main_completion_metadata Sample.float32 Sample.quat_to_rot_6d
                Sample.filter_and_concat_robot_state Sample.unpickle_data
                Sample.skill_fault Sample.torn_write Sample.astype_other
                {| overwrite := false |}
                [Sample.path_a; Sample.path_b] Sample.output_path 4 [1]
                Sample.fresh_world) as (evs & Hlog & _ & _ & _ & _ & Hfail & _).
    vm_compute in Hlog. rewrite <- Hlog in Hfail.
    apply (Hfail (OSError "write failed")); [vm_compute; reflexivity|].
    apply (bool_decide_unpack _). vm_compute. exact I.
  - destruct (main_completion_metadata Sample.float32 Sample.quat_to_rot_6d
                Sample.filter_and_concat_robot_state Sample.unpickle_data
                Sample.no_fault Sample.torn_write Sample.astype_other
                {| overwrite := false |}
                [Sample.path_a; Sample.path_b] Sample.output_path 4 [1]
                Sample.fresh_world) as (evs & _ & _ & _ & _ & _ & _ & Hdone).
    apply Hdone. vm_compute. reflexivity.
  - destruct (main_completion_metadata Sample.float32 Sample.quat_to_rot_6d
                Sample.filter_and_concat_robot_state Sample.unpickle_data
                Sample.no_fault Sample.torn_write Sample.astype_other
                {| overwrite := false |}
                [Sample.path_a; Sample.path_b] Sample.output_path 4 [1]
                Sample.fresh_world) as (evs & _ & _ & Hafter & _ & _ & _ & Hdone).
    destruct Hdone as [Hevs _]; [vm_compute; reflexivity|].
    apply (Hafter _ [EvSetAttr "noop_threshold"; EvSetAttr "chunksize"]
             "time_finished").
    + apply (bool_decide_unpack _). vm_compute. exact I.
    + rewrite Hevs. unfold full_trace. rewrite !app_assoc. reflexivity.
Defined.

(** * Further properties *)

Section KinematicsExtras.
Context {F : Type}.
Variable quat_to_rot_6d : F * F * F * F -> F * F * F * F * F * F.

(** X1.  On a batch of 14-wide state rows,
    [proprioceptive_to_6d_rotation] returns 16-wide rows, one per input
    row and in the same order: the first three entries are the position
    of the input row, the next six are the 6D expansion of its quaternion
    (entries 3..6), and the last seven are its velocities and gripper
    width (entries 7..13), unchanged.  On a batch of any other row width
    it fails with the assertion error ["Robot state must be 14D"]. *)
Theorem proprioceptive_to_6d_rotation_spec :
  (forall rows : list (list F),
     Forall (fun s => length s = 14) rows ->
     exists out,
       proprioceptive_to_6d_rotation quat_to_rot_6d (Mat 14 rows) = Ok (Mat 16 out)
       /\ Forall2
            (fun s e =>
               length e = 16
               /\ take 3 e = take 3 s
               /\ drop 9 e = drop 7 s
               /\ exists x y z w,
                    take 4 (drop 3 s) = [x; y; z; w]
                    /\ take 6 (drop 3 e) = rot_6d_list (quat_to_rot_6d (x, y, z, w)))
            rows out)
  /\ (forall w (rows : list (list F)),
        w ≠ 14 ->
        proprioceptive_to_6d_rotation quat_to_rot_6d (Mat w rows)
        = Raise (AssertionError "Robot state must be 14D")).
Proof.
  split.
  - intros rows Hrows. exists (map (state_row_6d quat_to_rot_6d) rows).
    split; [apply proprioceptive_to_6d_rotation_rows|].
    apply Forall2_fmap_r, Forall_Forall2_diag.
    eapply Forall_impl; [exact Hrows|]. clear rows Hrows. simpl.
    intros s (p0&p1&p2&x&y&z&w&v0&v1&v2&a0&a1&a2&g&->)%length_14_inv.
    unfold state_row_6d, rot_6d_row, rot_6d_list. simpl.
    destruct (quat_to_rot_6d (x, y, z, w)) as [[[[[a b] c] d] e] f] eqn:Hq.
    simpl. repeat split. exists x, y, z, w. by rewrite Hq.
  - apply proprioceptive_to_6d_rotation_width.
Qed.

Lemma py_init_map {A B} (g : A -> B) (l : list A) :
  py_init (map g l) = map g (py_init l).
Proof. unfold py_init. by rewrite length_map, fmap_take. Qed.

Lemma py_tail_map {A B} (g : A -> B) (l : list A) :
  py_tail (map g l) = map g (py_tail l).
Proof. unfold py_tail. by rewrite fmap_drop. Qed.

(** A transform that maps the rows of the width it expects, and trips
    the same assertion on every other width, commutes with stacking and
    with dropping the first or the last row. *)
Lemma rowwise_transform (f : ndarray F -> result (ndarray F))
    (w w' : nat) (g : list F -> list F) (msg : string) :
  (forall rows, f (Mat w rows) = Ok (Mat w' (map g rows))) ->
  (forall v rows, v ≠ w -> f (Mat v rows) = Raise (AssertionError msg)) ->
  forall v r1 r2,
    f (Mat v (r1 ++ r2))
    = (a1 ← f (Mat v r1); a2 ← f (Mat v r2); vstack a1 a2)
    /\ f (drop_last (Mat v r1)) = drop_last <$> f (Mat v r1)
    /\ f (drop_first (Mat v r1)) = drop_first <$> f (Mat v r1).
Proof.
  intros Hrows Hwidth v r1 r2. destruct (decide (v = w)) as [->|Hv].
  - rewrite !Hrows. simpl. rewrite Nat.eqb_refl, !Hrows.
    by rewrite map_app, py_init_map, py_tail_map.
  - simpl. by rewrite !Hwidth.
Qed.

(** X2.  The three transforms work row by row: on two-dimensional
    arrays of any width, transforming a stack of two batches is stacking
    the two transformed batches (an error of the first batch, else of the
    second, being the error of the whole), and transforming a batch
    without its last, or first, row is dropping that row from the
    transformed batch. *)
Theorem transforms_are_rowwise (v : nat) (r1 r2 : list (list F)) :
  (action_to_6d_rotation quat_to_rot_6d (Mat v (r1 ++ r2))
   = (a1 ← action_to_6d_rotation quat_to_rot_6d (Mat v r1);
      a2 ← action_to_6d_rotation quat_to_rot_6d (Mat v r2);
      vstack a1 a2)
   /\ action_to_6d_rotation quat_to_rot_6d (drop_last (Mat v r1))
      = drop_last <$> action_to_6d_rotation quat_to_rot_6d (Mat v r1)
   /\ action_to_6d_rotation quat_to_rot_6d (drop_first (Mat v r1))
      = drop_first <$> action_to_6d_rotation quat_to_rot_6d (Mat v r1))
  /\ (proprioceptive_to_6d_rotation quat_to_rot_6d (Mat v (r1 ++ r2))
      = (a1 ← proprioceptive_to_6d_rotation quat_to_rot_6d (Mat v r1);
         a2 ← proprioceptive_to_6d_rotation quat_to_rot_6d (Mat v r2);
         vstack a1 a2)
      /\ proprioceptive_to_6d_rotation quat_to_rot_6d (drop_last (Mat v r1))
         = drop_last <$> proprioceptive_to_6d_rotation quat_to_rot_6d (Mat v r1)
      /\ proprioceptive_to_6d_rotation quat_to_rot_6d (drop_first (Mat v r1))
         = drop_first <$> proprioceptive_to_6d_rotation quat_to_rot_6d (Mat v r1))
  /\ (extract_ee_pose_6d (Mat v (r1 ++ r2))
      = (a1 ← extract_ee_pose_6d (Mat v r1);
         a2 ← extract_ee_pose_6d (Mat v r2);
         vstack a1 a2)
      /\ extract_ee_pose_6d (drop_last (Mat v r1))
         = drop_last <$> extract_ee_pose_6d (Mat v r1)
      /\ extract_ee_pose_6d (drop_first (Mat v r1))
         = drop_first <$> extract_ee_pose_6d (Mat v r1)).
Proof.
  split; [|split].
  - apply (rowwise_transform _ 8 10 (action_row_6d quat_to_rot_6d) "Action must be 8D").
    + apply action_to_6d_rotation_rows.
    + apply action_to_6d_rotation_width.
  - apply (rowwise_transform _ 14 16 (state_row_6d quat_to_rot_6d)
             "Robot state must be 14D").
    + apply proprioceptive_to_6d_rotation_rows.
    + apply proprioceptive_to_6d_rotation_width.
  - apply (rowwise_transform _ 16 9 pose_row_6d "Robot state must be 16D").
    + apply extract_ee_pose_6d_rows.
    + apply extract_ee_pose_6d_width.
Qed.
End KinematicsExtras.

Lemma proprioceptive_to_6d_rotation_spec_witness :
  (exists out,
     proprioceptive_to_6d_rotation Sample.quat_to_rot_6d
       (Mat 14 [Sample.state 0; Sample.state 1]) = Ok (Mat 16 out)
     /\ Forall2
          (fun s e =>
             length e = 16
             /\ take 3 e = take 3 s
             /\ drop 9 e = drop 7 s
             /\ exists x y z w,
                  take 4 (drop 3 s) = [x; y; z; w]
                  /\ take 6 (drop 3 e)
                     = rot_6d_list (Sample.quat_to_rot_6d (x, y, z, w)))
          [Sample.state 0; Sample.state 1] out)
  /\ proprioceptive_to_6d_rotation Sample.quat_to_rot_6d (Mat 8 [Sample.action 0])
     = Raise (AssertionError "Robot state must be 14D").
Proof.
  split.
  - apply (proj1 (proprioceptive_to_6d_rotation_spec Sample.quat_to_rot_6d)).
    repeat constructor.
  - apply (proj2 (proprioceptive_to_6d_rotation_spec Sample.quat_to_rot_6d)). lia.
Defined.

Lemma np_array_images_inv (l : list image) a :
  np_array_images l = Ok a ->
  l = [] \/ exists s, Forall (fun i => img_shape i = s) l.
Proof.
  destruct l as [|i l]; [by left|]. unfold np_array_images.
  destruct (forallb _ _) eqn:Hall; [|discriminate]. intros _. right.
  exists (img_shape i). apply Forall_forall. intros i' Hi'.
  rewrite forallb_forall in Hall. apply shape_eqb_true, Hall.
  by apply list_elem_of_In.
Qed.

Lemma np_array_rows_ragged {R F} (cast : R -> F) (l : list (list R)) r r' :
  r ∈ l -> r' ∈ l -> length r ≠ length r' ->
  np_array_rows cast l
  = Raise (ValueError "setting an array element with a sequence. The requested array has an inhomogeneous shape").
Proof.
  intros Hr Hr' Hne. destruct l as [|r0 l]; [by apply elem_of_nil in Hr|].
  unfold np_array_rows.
  destruct (forallb _ _) eqn:Hall; [|done]. exfalso.
  apply forallb_length_eq in Hall. rewrite Forall_forall in Hall.
  apply Hne. by rewrite (Hall r Hr), (Hall r' Hr').
Qed.


Section DecoderExtras.
Context {R F RobotState : Type}.
Variable float32 : R -> F.
Variable quat_to_rot_6d : F * F * F * F -> F * F * F * F * F * F.
Variable filter_and_concat_robot_state : RobotState -> list R.
Variable unpickle_data : Path -> result (@Trajectory R RobotState).

Abbreviation decode :=
  (process_pickle_file float32 quat_to_rot_6d filter_and_concat_robot_state unpickle_data).
Abbreviation raw_states data :=
  (map (fun o => filter_and_concat_robot_state (obs_robot_state o)) (observations data)).

(** X3.  Empty input.  An episode without observations, and an episode
    with decodable observations but without actions, are both refused
    with [IndexError("tuple index out of range")]: the array built from
    an empty list is one-dimensional, and the width assertion of the
    transform reads [shape[1]] before it can report its own message. *)
Theorem process_pickle_file_empty_input path noop data :
  unpickle_data path = Ok data ->
  (observations data = [] ->
   decode path noop = Raise (IndexError "tuple index out of range"))
  /\ (forall s1 s2,
        observations data ≠ [] ->
        Forall (fun o => img_shape (obs_color_image1 o) = s1) (observations data) ->
        Forall (fun o => img_shape (obs_color_image2 o) = s2) (observations data) ->
        Forall (fun s => length s = 14) (raw_states data) ->
        actions data = [] ->
        decode path noop = Raise (IndexError "tuple index out of range")).
Proof.
  intros Hdata. split.
  - intros Hobs. unfold process_pickle_file. rewrite Hdata. simpl.
    by rewrite Hobs.
  - intros s1 s2 Hone Him1 Him2 Hs14 Hact.
    unfold process_pickle_file. rewrite Hdata. simpl.
    rewrite (np_array_images_uniform (map obs_color_image1 (observations data)) s1);
      [|by intros ?%map_eq_nil|by apply Forall_fmap].
    rewrite (np_array_images_uniform (map obs_color_image2 (observations data)) s2);
      [|by intros ?%map_eq_nil|by apply Forall_fmap].
    simpl.
    rewrite (np_array_rows_uniform float32 (raw_states data) 14);
      [|by intros ?%map_eq_nil|done].
    simpl. rewrite proprioceptive_to_6d_rotation_rows. simpl.
    by rewrite Hact.
Qed.

(** X4.  The decoder returns exactly on the episodes that have at least
    one observation, frames of one shape per camera, 14-wide robot
    states, at least one action, 8-wide actions, one observation more
    than actions, and a path with a part equal to ["raw"]; the rewards
    and the skills are not looked at. *)
Theorem process_pickle_file_returns_iff path noop :
  is_ok (decode path noop) = true <->
  exists data s1 s2,
    unpickle_data path = Ok data
    /\ observations data ≠ []
    /\ Forall (fun o => img_shape (obs_color_image1 o) = s1) (observations data)
    /\ Forall (fun o => img_shape (obs_color_image2 o) = s2) (observations data)
    /\ Forall (fun s => length s = 14) (raw_states data)
    /\ actions data ≠ []
    /\ Forall (fun a => length a = 8) (actions data)
    /\ length (observations data) = length (actions data) + 1
    /\ "raw" ∈ parts path.
Proof.
  split.
  - destruct (decode path noop) as [d|e] eqn:Hd; [intros _|done].
    apply process_pickle_file_inv in Hd
      as (data&im1&im2&i&Hdata&Him1&Him2&Hone&Hs14&Hane&Ha8&Hlen&Hi&_).
    apply np_array_images_inv in Him1 as [Hnil%map_eq_nil|[s1 Hs1]]; [done|].
    apply np_array_images_inv in Him2 as [Hnil%map_eq_nil|[s2 Hs2]]; [done|].
    exists data, s1, s2. repeat split; try done.
    + by apply Forall_fmap in Hs1.
    + by apply Forall_fmap in Hs2.
    + destruct (observations data); [done | simpl in *; lia].
    + apply tuple_index_spec in Hi as (pre & post & -> & _).
      apply elem_of_app. right. left.
  - intros (data&s1&s2&Hdata&Hone&Him1&Him2&Hs14&Hane&Ha8&Hlen&Hraw).
    destruct (tuple_index_present _ _ Hraw) as [i Hi].
    destruct (process_pickle_file_ok float32 quat_to_rot_6d
                filter_and_concat_robot_state unpickle_data path noop data
                {| frame_shape := s1;
                   frames := map (fun i => map to_uint8 (img_data i))
                               (map obs_color_image1 (observations data)) |}
                {| frame_shape := s2;
                   frames := map (fun i => map to_uint8 (img_data i))
                               (map obs_color_image2 (observations data)) |}
                i) as [d ->]; try done.
    + apply np_array_images_uniform; [by intros ?%map_eq_nil|by apply Forall_fmap].
    + apply np_array_images_uniform; [by intros ?%map_eq_nil|by apply Forall_fmap].
    + lia.
Qed.

(** X5.  Whatever the input, a decoded episode has [N >= 1] steps, [N]
    being the number of actions in the pickle, which held [N + 1]
    observations: [robot_state] is [[N, 16]], [action_delta] is
    [[N, 10]], [action_pos] is [[N, 9]], every row having the declared
    width, both image channels have [N] frames, and [reward] and [skill]
    are as long as the lists of the pickle. *)
Theorem process_pickle_file_shapes path noop d :
  decode path noop = Ok d ->
  exists data,
    unpickle_data path = Ok data
    /\ 1 <= episode_length d
    /\ episode_length d = length (actions data)
    /\ length (observations data) = episode_length d + 1
    /\ shape (robot_state d) = [episode_length d; 16]
    /\ well_shaped (robot_state d)
    /\ shape (action_delta d) = [episode_length d; 10]
    /\ well_shaped (action_delta d)
    /\ shape (action_pos d) = [episode_length d; 9]
    /\ well_shaped (action_pos d)
    /\ img_len (color_image1 d) = episode_length d
    /\ img_len (color_image2 d) = episode_length d
    /\ shape (reward d) = [length (rewards data)]
    /\ shape (skill d) = [length (skills data)].
Proof.
  intros Hd.
  destruct (process_pickle_file_lengths _ _ _ _ _ _ _ Hd) as (HN&_&_&_&Hc1&Hc2).
  apply process_pickle_file_inv in Hd
    as (data&im1&im2&i&Hdata&_&_&Hone&Hs14&Hane&Ha8&Hlen&_
        &Hrs&_&_&Hdl&Hap&Hrw&Hsk&Hep&_).
  exists data. rewrite Hrs, Hdl, Hap, Hrw, Hsk, Hep in *.
  assert (Forall (fun r : list F => length r = 16)
            (map (state_row_6d quat_to_rot_6d) (map (map float32) (raw_states data))))
    as Hs16.
  { apply Forall_fmap, Forall_fmap. eapply Forall_impl; [exact Hs14|].
    intros r Hr. simpl. apply state_row_6d_length. by rewrite length_map. }
  split; [done|]. split; [done|]. split; [done|].
  split.
  { destruct (observations data); [done | simpl in *; lia]. }
  split.
  { cbn [shape]. rewrite py_init_length, !length_map. by rewrite Hlen. }
  split; [simpl; by apply Forall_take|].
  split; [cbn [shape]; by rewrite !length_map|].
  split.
  { simpl. apply Forall_fmap, Forall_fmap. eapply Forall_impl; [exact Ha8|].
    intros r Hr. simpl. apply action_row_6d_length. by rewrite length_map. }
  split.
  { cbn [shape]. rewrite length_map, py_tail_length, !length_map. by rewrite Hlen. }
  split.
  { simpl. apply Forall_fmap. apply (Forall_drop _ 1) in Hs16.
    eapply Forall_impl; [exact Hs16|]. intros r Hr. simpl.
    by apply pose_row_6d_length. }
  split; [done|]. split; [done|].
  simpl. by rewrite !length_map.
Qed.

(** X6.  The alignment check.  When the observations are decodable and
    the actions are 8-wide but their number is not the number of
    observations minus one, the decoder raises an assertion error whose
    message is ["Mismatch in <path>, lengths differ by <d>"], [<path>]
    being [str(pickle_path)] and [<d>] the signed decimal of
    [len(robot_state) - len(action_delta)]. *)
Theorem process_pickle_file_length_mismatch path noop data s1 s2 :
  unpickle_data path = Ok data ->
  observations data ≠ [] ->
  Forall (fun o => img_shape (obs_color_image1 o) = s1) (observations data) ->
  Forall (fun o => img_shape (obs_color_image2 o) = s2) (observations data) ->
  Forall (fun s => length s = 14) (raw_states data) ->
  actions data ≠ [] ->
  Forall (fun a => length a = 8) (actions data) ->
  length (observations data) - 1 ≠ length (actions data) ->
  decode path noop
  = Raise (AssertionError
             ("Mismatch in " +:+ path_str path +:+ ", lengths differ by "
                +:+ pretty (Z.of_nat (length (observations data) - 1)
                            - Z.of_nat (length (actions data)))%Z)).
Proof.
  intros Hdata Hone Him1 Him2 Hs14 Hane Ha8 Hlen.
  eapply process_pickle_file_mismatch; try done.
  - apply (np_array_images_uniform _ s1);
      [by intros ?%map_eq_nil|by apply Forall_fmap].
  - apply (np_array_images_uniform _ s2);
      [by intros ?%map_eq_nil|by apply Forall_fmap].
Qed.


(** X8.  The order of the shape checks.  With decodable frames: states
    that are not all of one length are refused by [np.array] with a
    [ValueError]; states of one width other than 14 trip ["Robot state
    must be 14D"], whatever the actions are; with 14-wide states,
    actions that are not all of one length are refused by [np.array], and
    actions of one width other than 8 trip ["Action must be 8D"]. *)
Theorem process_pickle_file_shape_errors path noop data s1 s2 :
  unpickle_data path = Ok data ->
  observations data ≠ [] ->
  Forall (fun o => img_shape (obs_color_image1 o) = s1) (observations data) ->
  Forall (fun o => img_shape (obs_color_image2 o) = s2) (observations data) ->
  (forall r r', r ∈ raw_states data -> r' ∈ raw_states data ->
     length r ≠ length r' ->
     exists msg, decode path noop = Raise (ValueError msg))
  /\ (forall w, w ≠ 14 ->
        Forall (fun s => length s = w) (raw_states data) ->
        decode path noop = Raise (AssertionError "Robot state must be 14D"))
  /\ (Forall (fun s => length s = 14) (raw_states data) ->
      (forall a a', a ∈ actions data -> a' ∈ actions data ->
         length a ≠ length a' ->
         exists msg, decode path noop = Raise (ValueError msg))
      /\ (forall w, w ≠ 8 ->
            actions data ≠ [] ->
            Forall (fun a => length a = w) (actions data) ->
            decode path noop = Raise (AssertionError "Action must be 8D"))).
Proof.
  intros Hdata Hone Him1 Him2.
  assert (decode path noop
            = (all_robot_state ← np_array_rows float32 (raw_states data);
               all_robot_state ←
                 proprioceptive_to_6d_rotation quat_to_rot_6d all_robot_state;
               action_delta ← np_array_rows float32 (actions data);
               action_delta ← action_to_6d_rotation quat_to_rot_6d action_delta;
               action_pos ← extract_ee_pose_6d (drop_first all_robot_state);
               _ ← py_assert (len (drop_last all_robot_state) =? len action_delta)
                     (mismatch_message path (len (drop_last all_robot_state))
                        (len action_delta));
               i ← tuple_index "raw" (parts path);
               Ok {| robot_state := drop_last all_robot_state;
                     color_image1 :=
                       img_drop_last
                         {| frame_shape := s1;
                            frames := map (fun i => map to_uint8 (img_data i))
                                        (map obs_color_image1 (observations data)) |};
                     color_image2 :=
                       img_drop_last
                         {| frame_shape := s2;
                            frames := map (fun i => map to_uint8 (img_data i))
                                        (map obs_color_image2 (observations data)) |};
                     action_delta := action_delta;
                     action_pos := action_pos;
                     reward := np_array_scalars float32 (rewards data);
                     skill := np_array_scalars float32 (skills data);
                     episode_length := len action_delta;
                     pd_furniture := furniture data;
                     pd_success := success data;
                     pickle_file :=
                       String.concat "/" (drop (i + 1) (parts path)) |}))
    as Hstep.
  { unfold process_pickle_file. rewrite Hdata. simpl.
    rewrite (np_array_images_uniform (map obs_color_image1 (observations data)) s1);
      [|by intros ?%map_eq_nil|by apply Forall_fmap].
    rewrite (np_array_images_uniform (map obs_color_image2 (observations data)) s2);
      [|by intros ?%map_eq_nil|by apply Forall_fmap].
    reflexivity. }
  split; [|split].
  - intros r r' Hr Hr' Hne. rewrite Hstep.
    rewrite (np_array_rows_ragged float32 (raw_states data) r r') by done.
    by eexists.
  - intros w Hw Hall. rewrite Hstep.
    rewrite (np_array_rows_uniform float32 (raw_states data) w);
      [|by intros ?%map_eq_nil|done].
    simpl. by rewrite proprioceptive_to_6d_rotation_width.
  - intros Hs14.
    rewrite (np_array_rows_uniform float32 (raw_states data) 14) in Hstep;
      [|by intros ?%map_eq_nil|done].
    simpl in Hstep. rewrite proprioceptive_to_6d_rotation_rows in Hstep.
    simpl in Hstep. split.
    + intros a a' Ha Ha' Hne. rewrite Hstep.
      rewrite (np_array_rows_ragged float32 (actions data) a a') by done.
      by eexists.
    + intros w Hw Hane Hall. rewrite Hstep.
      rewrite (np_array_rows_uniform float32 (actions data) w) by done.
      simpl. by rewrite action_to_6d_rotation_width.
Qed.
End DecoderExtras.

Lemma process_pickle_file_empty_input_witness :
  Malformed.process_pickle_file Malformed.no_observation Sample.path_a 0%float
  = Raise (IndexError "tuple index out of range")
  /\ Malformed.process_pickle_file Malformed.no_action Sample.path_a 0%float
     = Raise (IndexError "tuple index out of range").
Proof.
  split.
  - apply (proj1 (process_pickle_file_empty_input Sample.float32
                    Sample.quat_to_rot_6d Sample.filter_and_concat_robot_state
                    (Malformed.holding Malformed.no_observation)
                    Sample.path_a 0%float Malformed.no_observation eq_refl)).
    reflexivity.
  - apply (proj2 (process_pickle_file_empty_input Sample.float32
                    Sample.quat_to_rot_6d Sample.filter_and_concat_robot_state
                    (Malformed.holding Malformed.no_action)
                    Sample.path_a 0%float Malformed.no_action eq_refl)
             [2; 2; 3] [2; 2; 3]).
    + discriminate.
    + repeat constructor.
    + repeat constructor.
    + repeat constructor.
    + reflexivity.
Defined.

Lemma process_pickle_file_returns_iff_witness :
  is_ok (Sample.process_pickle_file Sample.path_a 0%float) = true
  /\ exists data s1 s2,
       Sample.unpickle_data Sample.path_b = Ok data
       /\ observations data ≠ []
       /\ Forall (fun o => img_shape (obs_color_image1 o) = s1) (observations data)
       /\ Forall (fun o => img_shape (obs_color_image2 o) = s2) (observations data)
       /\ Forall (fun s => length s = 14)
            (map (fun o => Sample.filter_and_concat_robot_state (obs_robot_state o))
               (observations data))
       /\ actions data ≠ []
       /\ Forall (fun a => length a = 8) (actions data)
       /\ length (observations data) = length (actions data) + 1
       /\ "raw" ∈ parts Sample.path_b.
Proof.
  split.
  - apply (proj2 (process_pickle_file_returns_iff Sample.float32
                    Sample.quat_to_rot_6d Sample.filter_and_concat_robot_state
                    Sample.unpickle_data Sample.path_a 0%float)).
    exists (Sample.episode 2 2), [2; 2; 3], [2; 2; 3].
    split; [reflexivity|]. split; [discriminate|].
    split; [repeat constructor|]. split; [repeat constructor|].
    split; [repeat constructor|]. split; [discriminate|].
    split; [repeat constructor|]. split; [reflexivity|].
    apply (bool_decide_unpack _). vm_compute. exact I.
  - apply (proj1 (process_pickle_file_returns_iff Sample.float32
                    Sample.quat_to_rot_6d Sample.filter_and_concat_robot_state
                    Sample.unpickle_data Sample.path_b 0%float)).
    vm_compute. reflexivity.
Defined.

Lemma process_pickle_file_shapes_witness :
  exists d,
    Sample.process_pickle_file Sample.path_b 0%float = Ok d
    /\ exists data,
         Sample.unpickle_data Sample.path_b = Ok data
         /\ 1 <= episode_length d
         /\ episode_length d = length (actions data)
         /\ length (observations data) = episode_length d + 1
         /\ shape (robot_state d) = [episode_length d; 16]
         /\ well_shaped (robot_state d)
         /\ shape (action_delta d) = [episode_length d; 10]
         /\ well_shaped (action_delta d)
         /\ shape (action_pos d) = [episode_length d; 9]
         /\ well_shaped (action_pos d)
         /\ img_len (color_image1 d) = episode_length d
         /\ img_len (color_image2 d) = episode_length d
         /\ shape (reward d) = [length (rewards data)]
         /\ shape (skill d) = [length (skills data)].
Proof.
  eexists. split; [vm_compute; reflexivity|].
  apply (process_pickle_file_shapes Sample.float32 Sample.quat_to_rot_6d
           Sample.filter_and_concat_robot_state Sample.unpickle_data
           Sample.path_b 0%float).
  vm_compute. reflexivity.
Defined.

Lemma process_pickle_file_length_mismatch_witness :
  Malformed.process_pickle_file Malformed.one_action_too_many Sample.path_a 0%float
  = Raise (AssertionError "Mismatch in /data/raw/sim/a.pkl, lengths differ by -2")
  /\ Malformed.process_pickle_file Malformed.one_action_too_few Sample.path_a 0%float
     = Raise (AssertionError "Mismatch in /data/raw/sim/a.pkl, lengths differ by 2")
  /\ Malformed.process_pickle_file Malformed.one_action_too_few
       Malformed.path_double_root 0%float
     = Raise (AssertionError "Mismatch in //srv/raw/a.pkl, lengths differ by 2")
  /\ Malformed.process_pickle_file Malformed.one_action_too_few
       Malformed.path_relative 0%float
     = Raise (AssertionError "Mismatch in raw/a.pkl, lengths differ by 2").
Proof.
  split; [|split; [|split]].
  - etransitivity.
    + apply (process_pickle_file_length_mismatch Sample.float32
               Sample.quat_to_rot_6d Sample.filter_and_concat_robot_state
               (Malformed.holding Malformed.one_action_too_many)
               Sample.path_a 0%float Malformed.one_action_too_many
               [2; 2; 3] [2; 2; 3]).
      * reflexivity.
      * discriminate.
      * repeat constructor.
      * repeat constructor.
      * repeat constructor.
      * discriminate.
      * repeat constructor.
      * simpl. lia.
    + vm_compute. reflexivity.
  - etransitivity.
    + apply (process_pickle_file_length_mismatch Sample.float32
               Sample.quat_to_rot_6d Sample.filter_and_concat_robot_state
               (Malformed.holding Malformed.one_action_too_few)
               Sample.path_a 0%float Malformed.one_action_too_few
               [2; 2; 3] [2; 2; 3]).
      * reflexivity.
      * discriminate.
      * repeat constructor.
      * repeat constructor.
      * repeat constructor.
      * discriminate.
      * repeat constructor.
      * simpl. lia.
    + vm_compute. reflexivity.
  - etransitivity.
    + apply (process_pickle_file_length_mismatch Sample.float32
               Sample.quat_to_rot_6d Sample.filter_and_concat_robot_state
               (Malformed.holding Malformed.one_action_too_few)
               Malformed.path_double_root 0%float Malformed.one_action_too_few
               [2; 2; 3] [2; 2; 3]).
      * reflexivity.
      * discriminate.
      * repeat constructor.
      * repeat constructor.
      * repeat constructor.
      * discriminate.
      * repeat constructor.
      * simpl. lia.
    + vm_compute. reflexivity.
  - etransitivity.
    + apply (process_pickle_file_length_mismatch Sample.float32
               Sample.quat_to_rot_6d Sample.filter_and_concat_robot_state
               (Malformed.holding Malformed.one_action_too_few)
               Malformed.path_relative 0%float Malformed.one_action_too_few
               [2; 2; 3] [2; 2; 3]).
      * reflexivity.
      * discriminate.
      * repeat constructor.
      * repeat constructor.
      * repeat constructor.
      * discriminate.
      * repeat constructor.
      * simpl. lia.
    + vm_compute. reflexivity.
Defined.


Lemma process_pickle_file_shape_errors_witness :
  (exists msg,
     Malformed.process_pickle_file Malformed.ragged_state Sample.path_a 0%float
     = Raise (ValueError msg))
  /\ Malformed.process_pickle_file Malformed.narrow_state Sample.path_a 0%float
     = Raise (AssertionError "Robot state must be 14D")
  /\ (exists msg,
        Malformed.process_pickle_file Malformed.ragged_action Sample.path_a 0%float
        = Raise (ValueError msg))
  /\ Malformed.process_pickle_file Malformed.narrow_action Sample.path_a 0%float
     = Raise (AssertionError "Action must be 8D").
Proof.
  split; [|split; [|split]].
  - destruct (process_pickle_file_shape_errors Sample.float32
                Sample.quat_to_rot_6d Sample.filter_and_concat_robot_state
                (Malformed.holding Malformed.ragged_state)
                Sample.path_a 0%float Malformed.ragged_state [2; 2; 3] [2; 2; 3])
      as (Hragged & _); [reflexivity | discriminate | repeat constructor..|].
    apply (Hragged (Sample.state 0) [1; 2]%Z).
    + apply (bool_decide_unpack _). vm_compute. exact I.
    + apply (bool_decide_unpack _). vm_compute. exact I.
    + simpl. lia.
  - destruct (process_pickle_file_shape_errors Sample.float32
                Sample.quat_to_rot_6d Sample.filter_and_concat_robot_state
                (Malformed.holding Malformed.narrow_state)
                Sample.path_a 0%float Malformed.narrow_state [2; 2; 3] [2; 2; 3])
      as (_ & Hwidth & _); [reflexivity | discriminate | repeat constructor..|].
    apply (Hwidth 3); [lia | repeat constructor].
  - destruct (process_pickle_file_shape_errors Sample.float32
                Sample.quat_to_rot_6d Sample.filter_and_concat_robot_state
                (Malformed.holding Malformed.ragged_action)
                Sample.path_a 0%float Malformed.ragged_action [2; 2; 3] [2; 2; 3])
      as (_ & _ & Hact); [reflexivity | discriminate | repeat constructor..|].
    destruct Hact as [Hragged _]; [repeat constructor|].
    apply (Hragged (Sample.action 0) [1; 2]%Z).
    + apply (bool_decide_unpack _). vm_compute. exact I.
    + apply (bool_decide_unpack _). vm_compute. exact I.
    + simpl. lia.
  - destruct (process_pickle_file_shape_errors Sample.float32
                Sample.quat_to_rot_6d Sample.filter_and_concat_robot_state
                (Malformed.holding Malformed.narrow_action)
                Sample.path_a 0%float Malformed.narrow_action [2; 2; 3] [2; 2; 3])
      as (_ & _ & Hact); [reflexivity | discriminate | repeat constructor..|].
    destruct Hact as [_ Hwidth]; [repeat constructor|].
    apply (Hwidth 7); [lia | discriminate | repeat constructor].
Defined.

(** ** Concatenation, content-wise *)

Lemma running_ends_lookup start lengths i :
  i < length lengths ->
  running_ends start lengths !! i = Some (start + sum_list (take (S i) lengths)).
Proof.
  revert start i. induction lengths as [|n ns IH]; intros start i Hi; simpl in *.
  - lia.
  - destruct i as [|i]; simpl.
    + f_equal. lia.
    + rewrite IH by lia. f_equal. simpl. lia.
Qed.

Lemma concat_slice {A} (ls : list (list A)) i l :
  ls !! i = Some l ->
  py_slice (sum_list (map length (take i ls)))
    (sum_list (map length (take (S i) ls))) (concat ls) = l.
Proof.
  revert i. induction ls as [|l0 ls IH]; intros i Hl; [done|].
  destruct i as [|i]; simpl in *.
  - injection Hl as ->. unfold py_slice. simpl.
    rewrite Nat.sub_0_r, Nat.add_0_r, drop_0. by rewrite take_app_length.
  - unfold py_slice in *. specialize (IH i Hl).
    rewrite drop_app_add.
    replace (length l0 + sum_list (map length (take (S i) ls))
             - (length l0 + sum_list (map length (take i ls))))
      with (sum_list (map length (take (S i) ls))
            - sum_list (map length (take i ls))) by lia.
    exact IH.
Qed.

Lemma sum_list_snoc (l : list nat) x : sum_list (l ++ [x]) = sum_list l + x.
Proof. induction l as [|y l IH]; simpl; lia. Qed.

Lemma sum_list_Permutation_eq (l1 l2 : list nat) :
  l1 ≡ₚ l2 -> sum_list l1 = sum_list l2.
Proof. induction 1; simpl; lia. Qed.

Section ConcatContent.
Context {F : Type}.

Lemma np_concatenate_vstack_mats w (l : list (ndarray F)) :
  l ≠ [] ->
  Forall (fun a => exists rows, a = Mat w rows) l ->
  np_concatenate vstack l = Ok (Mat w (concat (map mat_rows l))).
Proof.
  intros Hne Hall.
  assert (l = map (Mat w) (map mat_rows l)) as Hl.
  { clear Hne. induction Hall as [|a l [rows ->] _ IH]; simpl; [done|].
    by rewrite <- IH. }
  destruct l as [|a l]; [done|]. apply Forall_cons in Hall as [[rows ->] _].
  simpl in Hl. injection Hl as Hl. simpl. rewrite Hl at 1.
  by rewrite concat_from_vstack_mats.
Qed.

Lemma np_concatenate_vstack_vecs (l : list (ndarray F)) :
  l ≠ [] ->
  Forall (fun a => exists v, a = Vec v) l ->
  np_concatenate vstack l = Ok (Vec (concat (map vec_items l))).
Proof.
  intros Hne Hall.
  assert (l = map Vec (map vec_items l)) as Hl.
  { clear Hne. induction Hall as [|a l [v ->] _ IH]; simpl; [done|].
    by rewrite <- IH. }
  destruct l as [|a l]; [done|]. apply Forall_cons in Hall as [[v ->] _].
  simpl in Hl. injection Hl as Hl. simpl. rewrite Hl at 1.
  by rewrite concat_from_vstack_vecs.
Qed.
End ConcatContent.

Lemma img_concatenate_same s (l : list imgarray) :
  l ≠ [] ->
  Forall (fun a => frame_shape a = s) l ->
  img_concatenate l = Ok {| frame_shape := s; frames := concat (map frames l) |}.
Proof.
  intros Hne Hall. destruct l as [|[s0 fr] l]; [done|].
  apply Forall_cons in Hall as [Hs Hall]. simpl in Hs. subst s0.
  simpl. by apply img_concat_from_same.
Qed.

Lemma img_concat_from_inv acc l c :
  img_concat_from acc l = Ok c ->
  frame_shape c = frame_shape acc
  /\ Forall (fun a => frame_shape a = frame_shape acc) l.
Proof.
  revert acc. induction l as [|a l IH]; intros acc; simpl.
  - by intros [= <-].
  - intros (acc' & Hacc & H)%bind_Ok_inv. unfold img_vstack in Hacc.
    destruct (shape_eqb _ _) eqn:Hs; [|discriminate]. injection Hacc as <-.
    apply shape_eqb_true in Hs. apply IH in H as [H1 H2]. simpl in *.
    split; [done|]. by constructor.
Qed.

Lemma img_concatenate_inv l c :
  img_concatenate l = Ok c ->
  Forall (fun a => frame_shape a = frame_shape c) l.
Proof.
  destruct l as [|a l]; [discriminate|]. simpl.
  intros [H1 H2]%img_concat_from_inv. rewrite H1. by constructor.
Qed.

Lemma all_Ok_inv {A} (rs : list (result A)) :
  Forall (fun r => is_ok r = true) rs -> exists ds, rs = map Ok ds.
Proof.
  induction 1 as [|r rs Hr _ [ds ->]]; [by exists []|].
  destruct r as [d|e]; [|done]. by exists (d :: ds).
Qed.

Lemma omap_ok_value {A} (ds : list A) : omap ok_value (map Ok ds) = ds.
Proof. induction ds as [|d ds IH]; [done|]. simpl. by f_equal. Qed.

Section AggregatorExtras.
Context {R F RobotState : Type}.
Variable float32 : R -> F.
Variable quat_to_rot_6d : F * F * F * F -> F * F * F * F * F * F.
Variable filter_and_concat_robot_state : RobotState -> list R.
Variable unpickle_data : Path -> result (@Trajectory R RobotState).
Variable write_fault : string -> bool.
Variable torn_write : string -> option (value F) -> value F -> option (value F).
Variable astype_other : dtype -> value F -> result (value F).

Abbreviation decode :=
  (process_pickle_file float32 quat_to_rot_6d filter_and_concat_robot_state unpickle_data).
Abbreviation aggregate :=
  (parallel_process_pickle_files float32 quat_to_rot_6d
     filter_and_concat_robot_state unpickle_data).
Abbreviation completed :=
  (completed_results float32 quat_to_rot_6d filter_and_concat_robot_state unpickle_data).
Abbreviation script :=
  (main float32 quat_to_rot_6d filter_and_concat_robot_state unpickle_data
     write_fault torn_write astype_other).

(** The kinds of arrays in a decoded episode. *)
Lemma process_pickle_file_kinds path noop d :
  decode path noop = Ok d ->
  (exists rows, robot_state d = Mat 16 rows)
  /\ (exists rows, action_delta d = Mat 10 rows)
  /\ (exists rows, action_pos d = Mat 9 rows)
  /\ (exists v, reward d = Vec v)
  /\ (exists v, skill d = Vec v).
Proof.
  intros (data&im1&im2&i&_&_&_&_&_&_&_&_&_&->&_&_&->&->&->&->&_)
    %process_pickle_file_inv.
  unfold np_array_scalars. eauto 10.
Qed.

Lemma completed_decoded sched paths noop ds d :
  completed sched paths noop = map Ok ds ->
  d ∈ ds -> exists path, path ∈ paths /\ decode path noop = Ok d.
Proof.
  intros Hds Hd.
  assert (Ok d ∈ completed sched paths noop) as Hin.
  { rewrite Hds. by apply list_elem_of_fmap_2. }
  apply completed_results_elem_of in Hin as (p & Hp & Hdec). eauto.
Qed.

(** The aggregate, channel by channel: each per-timestep channel is the
    concatenation of the episodes' channels in completion order. *)
Lemma parallel_process_pickle_files_content sched paths noop n all_data :
  aggregate sched paths noop n = Ok all_data ->
  exists ds,
    completed sched paths noop = map Ok ds
    /\ ds ≠ []
    /\ ad_robot_state all_data
       = Mat 16 (concat (map (fun d => mat_rows (robot_state d)) ds))
    /\ ad_action_delta all_data
       = Mat 10 (concat (map (fun d => mat_rows (action_delta d)) ds))
    /\ ad_action_pos all_data
       = Mat 9 (concat (map (fun d => mat_rows (action_pos d)) ds))
    /\ ad_reward all_data = Vec (concat (map (fun d => vec_items (reward d)) ds))
    /\ ad_skill all_data = Vec (concat (map (fun d => vec_items (skill d)) ds))
    /\ frames (ad_color_image1 all_data)
       = concat (map (fun d => frames (color_image1 d)) ds)
    /\ frames (ad_color_image2 all_data)
       = concat (map (fun d => frames (color_image2 d)) ds)
    /\ Forall (fun d => frame_shape (color_image1 d)
                        = frame_shape (ad_color_image1 all_data)) ds
    /\ Forall (fun d => frame_shape (color_image2 d)
                        = frame_shape (ad_color_image2 all_data)) ds.
Proof.
  intros Hagg.
  rewrite parallel_process_pickle_files_pos in Hagg
    by (by eapply parallel_process_pickle_files_workers).
  apply bind_Ok_inv in Hagg as (agg & (ds & Hds & ->)%collect_Ok & Hcat).
  assert (ds ≠ []) as Hne by (intros ->; discriminate Hcat).
  assert (Forall (fun d => exists path, decode path noop = Ok d) ds) as Hdec.
  { apply Forall_forall. intros d Hd.
    destruct (completed_decoded _ _ _ _ _ Hds Hd) as (p & _ & Hp). eauto. }
  pose proof (foldl_aggregate_one empty_accumulator ds) as Hf. simpl in Hf.
  destruct Hf as (F1&F2&F3&F4&F5&F6&F7&_).
  unfold concatenate_all in Hcat.
  rewrite F1, F2, F3, F4, F5, F6, F7 in Hcat. clear F1 F2 F3 F4 F5 F6 F7.
  rewrite (np_concatenate_vstack_mats 16 (map robot_state ds)) in Hcat;
    [|by intros ?%map_eq_nil|].
  2:{ apply Forall_fmap. eapply Forall_impl; [exact Hdec|]. simpl.
      intros d [p Hp]. by apply process_pickle_file_kinds in Hp as (?&_). }
  simpl in Hcat.
  apply bind_Ok_inv in Hcat as (c1 & Hc1 & Hcat).
  apply bind_Ok_inv in Hcat as (c2 & Hc2 & Hcat).
  rewrite (np_concatenate_vstack_mats 10 (map action_delta ds)) in Hcat;
    [|by intros ?%map_eq_nil|].
  2:{ apply Forall_fmap. eapply Forall_impl; [exact Hdec|]. simpl.
      intros d [p Hp]. by apply process_pickle_file_kinds in Hp as (_&?&_). }
  rewrite (np_concatenate_vstack_mats 9 (map action_pos ds)) in Hcat;
    [|by intros ?%map_eq_nil|].
  2:{ apply Forall_fmap. eapply Forall_impl; [exact Hdec|]. simpl.
      intros d [p Hp]. by apply process_pickle_file_kinds in Hp as (_&_&?&_). }
  rewrite (np_concatenate_vstack_vecs (map reward ds)) in Hcat;
    [|by intros ?%map_eq_nil|].
  2:{ apply Forall_fmap. eapply Forall_impl; [exact Hdec|]. simpl.
      intros d [p Hp]. by apply process_pickle_file_kinds in Hp as (_&_&_&?&_). }
  rewrite (np_concatenate_vstack_vecs (map skill ds)) in Hcat;
    [|by intros ?%map_eq_nil|].
  2:{ apply Forall_fmap. eapply Forall_impl; [exact Hdec|]. simpl.
      intros d [p Hp]. by apply process_pickle_file_kinds in Hp as (_&_&_&_&?). }
  simpl in Hcat. injection Hcat as <-. simpl.
  pose proof (img_concatenate_inv _ _ Hc1) as Hs1. apply Forall_fmap in Hs1.
  pose proof (img_concatenate_inv _ _ Hc2) as Hs2. apply Forall_fmap in Hs2.
  rewrite (img_concatenate_same (frame_shape c1)) in Hc1;
    [|by intros ?%map_eq_nil|by apply Forall_fmap].
  rewrite (img_concatenate_same (frame_shape c2)) in Hc2;
    [|by intros ?%map_eq_nil|by apply Forall_fmap].
  injection Hc1 as Hc1. injection Hc2 as Hc2.
  exists ds. rewrite !map_map. rewrite <- Hc1, <- Hc2. simpl. rewrite !map_map.
  by repeat split.
Qed.

(** X9.  No input, no worker.  In a pool with at least one worker an
    empty list of paths makes the aggregation raise
    [ValueError("need at least one array to concatenate")], whatever the
    schedule; a pool without workers is refused with
    [ValueError("max_workers must be greater than 0")], whatever the
    paths.  In both cases the script, when it gets past the guard, ends
    with that error in the world it started from: no store is created. *)
Theorem parallel_process_pickle_files_no_input sched noop n :
  (1 <= n ->
   aggregate sched [] noop n
   = Raise (ValueError "need at least one array to concatenate")
   /\ forall args out (w : world F),
        fs w !! parts out = None \/ overwrite args = true ->
        script args [] out n sched w
        = (w, Raise (ValueError "need at least one array to concatenate")))
  /\ (n = 0 ->
      forall paths,
        aggregate sched paths noop n
        = Raise (ValueError "max_workers must be greater than 0")
        /\ forall args out (w : world F),
             fs w !! parts out = None \/ overwrite args = true ->
             script args paths out n sched w
             = (w, Raise (ValueError "max_workers must be greater than 0"))).
Proof.
  split.
  - intros Hn.
    assert (forall t, aggregate sched [] t n
                      = Raise (ValueError "need at least one array to concatenate"))
      as Hagg.
    { intros t. rewrite parallel_process_pickle_files_pos by done.
      unfold completed_results. simpl. by destruct sched. }
    split; [apply Hagg|].
    intros args out w Hguard.
    rewrite (main_decode_error _ _ _ _ _ _ _ _ _ _ _ _ _ _ Hguard (Hagg _)).
    destruct n; [lia|]. simpl. rewrite app_nil_r. by destruct w.
  - intros -> paths. split; [reflexivity|].
    intros args out w Hguard.
    rewrite (main_decode_error _ _ _ _ _ _ _ _ _ _ _ _ _
               (ValueError "max_workers must be greater than 0") Hguard)
      by reflexivity.
    simpl. rewrite app_nil_r. by destruct w.
Qed.

(** X10.  Episode boundaries.  In every aggregate that is returned,
    [episode_ends] has one entry per submitted path and is strictly
    increasing; entry [i] is entry [i - 1] (or 0) plus the length of the
    [i]-th completed episode; its last entry is the length of the
    [robot_state], [action/delta], [action/pos] and image channels; and
    [furniture], [success] and [pickle_file] list the completed episodes
    in the same order. *)
Theorem episode_ends_bookkeeping sched paths noop n all_data :
  aggregate sched paths noop n = Ok all_data ->
  exists ds,
    completed sched paths noop = map Ok ds
    /\ length ds = length paths
    /\ length (ad_episode_ends all_data) = length paths
    /\ (forall i j a b,
          i < j ->
          ad_episode_ends all_data !! i = Some a ->
          ad_episode_ends all_data !! j = Some b ->
          a < b)
    /\ (forall i d,
          ds !! i = Some d ->
          ad_episode_ends all_data !! i
          = Some (match i with
                  | 0 => 0
                  | S j => default 0 (ad_episode_ends all_data !! j)
                  end + episode_length d))
    /\ last (ad_episode_ends all_data) = Some (len (ad_robot_state all_data))
    /\ len (ad_action_delta all_data) = len (ad_robot_state all_data)
    /\ len (ad_action_pos all_data) = len (ad_robot_state all_data)
    /\ img_len (ad_color_image1 all_data) = len (ad_robot_state all_data)
    /\ img_len (ad_color_image2 all_data) = len (ad_robot_state all_data)
    /\ ad_furniture all_data = map pd_furniture ds
    /\ ad_success all_data = map pd_success ds
    /\ ad_pickle_file all_data = map pickle_file ds.
Proof.
  intros Hagg.
  destruct (parallel_process_pickle_files_episode_ends _ _ _ _ _ _ _ _ _ Hagg)
    as (ds & H1 & H2 & H3 & H4 & H5 & H6 & H7 & H8 & H9 & H10 & _ & _ & H11 & H12 & H13).
  exists ds. rewrite H3, H2. by repeat split.
Qed.

Lemma concatenate_all_ok (ds : list (@ProcessedData F)) (paths : list Path)
    (noop : float) (s1 s2 : list nat) :
  ds ≠ [] ->
  Forall (fun d => exists path, path ∈ paths /\ decode path noop = Ok d) ds ->
  Forall (fun d => frame_shape (color_image1 d) = s1) ds ->
  Forall (fun d => frame_shape (color_image2 d) = s2) ds ->
  exists all_data,
    concatenate_all (foldl aggregate_one empty_accumulator ds) = Ok all_data.
Proof.
  intros Hne Hdec Hs1 Hs2.
  pose proof (foldl_aggregate_one empty_accumulator ds) as Hf. simpl in Hf.
  destruct Hf as (F1&F2&F3&F4&F5&F6&F7&_).
  unfold concatenate_all.
  rewrite F1, F2, F3, F4, F5, F6, F7. clear F1 F2 F3 F4 F5 F6 F7.
  rewrite (np_concatenate_vstack_mats 16 (map robot_state ds));
    [|by intros ?%map_eq_nil|].
  2:{ apply Forall_fmap. eapply Forall_impl; [exact Hdec|]. simpl.
      intros d (p & _ & Hp). by apply process_pickle_file_kinds in Hp as (?&_). }
  rewrite (img_concatenate_same s1 (map color_image1 ds));
    [|by intros ?%map_eq_nil|by apply Forall_fmap].
  rewrite (img_concatenate_same s2 (map color_image2 ds));
    [|by intros ?%map_eq_nil|by apply Forall_fmap].
  rewrite (np_concatenate_vstack_mats 10 (map action_delta ds));
    [|by intros ?%map_eq_nil|].
  2:{ apply Forall_fmap. eapply Forall_impl; [exact Hdec|]. simpl.
      intros d (p & _ & Hp). by apply process_pickle_file_kinds in Hp as (_&?&_). }
  rewrite (np_concatenate_vstack_mats 9 (map action_pos ds));
    [|by intros ?%map_eq_nil|].
  2:{ apply Forall_fmap. eapply Forall_impl; [exact Hdec|]. simpl.
      intros d (p & _ & Hp). by apply process_pickle_file_kinds in Hp as (_&_&?&_). }
  rewrite (np_concatenate_vstack_vecs (map reward ds));
    [|by intros ?%map_eq_nil|].
  2:{ apply Forall_fmap. eapply Forall_impl; [exact Hdec|]. simpl.
      intros d (p & _ & Hp). by apply process_pickle_file_kinds in Hp as (_&_&_&?&_). }
  rewrite (np_concatenate_vstack_vecs (map skill ds));
    [|by intros ?%map_eq_nil|].
  2:{ apply Forall_fmap. eapply Forall_impl; [exact Hdec|]. simpl.
      intros d (p & _ & Hp). by apply process_pickle_file_kinds in Hp as (_&_&_&_&?). }
  simpl. eauto.
Qed.

(** When the aggregation returns. *)
Lemma aggregate_returns_iff sched paths noop n :
  is_ok (aggregate sched paths noop n) = true <->
  1 <= n
  /\ paths ≠ []
  /\ (forall path, path ∈ paths -> is_ok (decode path noop) = true)
  /\ exists s1 s2,
       forall path d, path ∈ paths -> decode path noop = Ok d ->
         frame_shape (color_image1 d) = s1 /\ frame_shape (color_image2 d) = s2.
Proof.
  split.
  - destruct (aggregate sched paths noop n) as [all_data|e] eqn:Hagg; [intros _|done].
    split; [by eapply parallel_process_pickle_files_workers|].
    apply parallel_process_pickle_files_content in Hagg
      as (ds & Hds & Hne & _ & _ & _ & _ & _ & _ & _ & Hs1 & Hs2).
    assert (forall path, path ∈ paths -> exists d, d ∈ ds /\ decode path noop = Ok d)
      as Hall.
    { intros path Hpath.
      assert (decode path noop ∈ completed sched paths noop) as Hin.
      { apply completed_results_elem_of. eauto. }
      rewrite Hds in Hin. apply list_elem_of_fmap in Hin as (d & Hd & Hdin). eauto. }
    split.
    { intros ->. apply Hne.
      pose proof (completed_results_length float32 quat_to_rot_6d
                    filter_and_concat_robot_state unpickle_data sched [] noop) as Hl.
      rewrite Hds, length_map in Hl. by destruct ds. }
    split.
    { intros path Hpath. destruct (Hall path Hpath) as (d & _ & ->). done. }
    exists (frame_shape (ad_color_image1 all_data)),
           (frame_shape (ad_color_image2 all_data)).
    intros path d Hpath Hd. destruct (Hall path Hpath) as (d' & Hd' & Hdec).
    rewrite Hd in Hdec. injection Hdec as <-.
    rewrite Forall_forall in Hs1, Hs2. split; [by apply Hs1 | by apply Hs2].
  - intros (Hn & Hne & Hok & s1 & s2 & Hshape).
    destruct (all_Ok_inv (completed sched paths noop)) as [ds Hds].
    { apply Forall_forall. intros r (p & Hp & ->)%completed_results_elem_of.
      by apply Hok. }
    assert (Forall (fun d => exists path, path ∈ paths /\ decode path noop = Ok d) ds)
      as Hdec.
    { apply Forall_forall. intros d Hd. by apply (completed_decoded sched _ _ ds). }
    destruct (concatenate_all_ok ds paths noop s1 s2) as [all_data Hcat]; try done.
    + intros ->.
      pose proof (completed_results_length float32 quat_to_rot_6d
                    filter_and_concat_robot_state unpickle_data sched paths noop) as Hl.
      rewrite Hds in Hl. simpl in Hl. by destruct paths.
    + eapply Forall_impl; [exact Hdec|]. simpl. intros d (p & Hp & Hd).
      by apply (Hshape p d).
    + eapply Forall_impl; [exact Hdec|]. simpl. intros d (p & Hp & Hd).
      by apply (Hshape p d).
    + rewrite parallel_process_pickle_files_pos by done.
      rewrite (proj2 (collect_Ok empty_accumulator _ (completed sched paths noop))
                 (ex_intro _ ds (conj Hds eq_refl))).
      simpl. by rewrite Hcat.
Qed.

(** X11.  The aggregation returns exactly when the pool has at least
    one worker, there is at least one path, every path decodes, and the
    decoded episodes have one frame shape per camera; the completion
    order does not enter into it, and the number of threads only in
    that it must be positive. *)
Theorem parallel_process_pickle_files_returns_iff sched paths noop n :
  is_ok (aggregate sched paths noop n) = true <->
  1 <= n
  /\ paths ≠ []
  /\ (forall path, path ∈ paths -> is_ok (decode path noop) = true)
  /\ exists s1 s2,
       forall path d, path ∈ paths -> decode path noop = Ok d ->
         frame_shape (color_image1 d) = s1 /\ frame_shape (color_image2 d) = s2.
Proof. apply aggregate_returns_iff. Qed.

Lemma channel_slice {A B} (rows_of : A -> list B) (size : A -> nat) ds i d :
  Forall (fun d => length (rows_of d) = size d) ds ->
  ds !! i = Some d ->
  py_slice (sum_list (take i (map size ds))) (sum_list (take (S i) (map size ds)))
    (concat (map rows_of ds)) = rows_of d.
Proof.
  intros Hsize Hd.
  assert (map size ds = map length (map rows_of ds)) as ->.
  { rewrite map_map. clear Hd.
    induction Hsize as [|? ? H _ IH]; simpl; [done | by rewrite H, IH]. }
  rewrite <- !(fmap_take length). apply concat_slice. by rewrite list_lookup_fmap, Hd.
Qed.

(** X12.  Reading an episode back.  In an aggregate that is returned,
    the rows of [robot_state], [action/delta] and [action/pos] and the
    frames of both image channels between the boundary before the [i]-th
    completed episode (0 for the first) and its own boundary are that
    episode's rows and frames. *)
Theorem episode_slices sched paths noop n all_data i d :
  aggregate sched paths noop n = Ok all_data ->
  completed sched paths noop !! i = Some (Ok d) ->
  let start := match i with
               | 0 => 0
               | S j => default 0 (ad_episode_ends all_data !! j)
               end in
  exists stop,
    ad_episode_ends all_data !! i = Some stop
    /\ stop = start + episode_length d
    /\ py_slice start stop (mat_rows (ad_robot_state all_data))
       = mat_rows (robot_state d)
    /\ py_slice start stop (mat_rows (ad_action_delta all_data))
       = mat_rows (action_delta d)
    /\ py_slice start stop (mat_rows (ad_action_pos all_data))
       = mat_rows (action_pos d)
    /\ py_slice start stop (frames (ad_color_image1 all_data))
       = frames (color_image1 d)
    /\ py_slice start stop (frames (ad_color_image2 all_data))
       = frames (color_image2 d).
Proof.
  intros Hagg Hi start.
  destruct (parallel_process_pickle_files_content _ _ _ _ _ Hagg)
    as (ds & Hds & Hne & Hrs & Hdl & Hap & _ & _ & Hc1 & Hc2 & _).
  destruct (parallel_process_pickle_files_inv _ _ _ _ _ _ _ _ _ Hagg)
    as (ds' & Hds' & _ & _ & Hends & _).
  assert (ds' = ds) as ->.
  { rewrite <- (omap_ok_value ds), <- (omap_ok_value ds'). by rewrite <- Hds, <- Hds'. }
  rewrite Hds, list_lookup_fmap in Hi.
  destruct (ds !! i) as [d'|] eqn:Hd; [|done]. injection Hi as ->.
  assert (i < length (map episode_length ds)) as Hlt.
  { rewrite length_map. by apply lookup_lt_Some in Hd. }
  assert (start = sum_list (take i (map episode_length ds))) as Hstart.
  { unfold start. destruct i as [|j]; [done|].
    rewrite Hends, running_ends_lookup by lia. done. }
  assert (Forall (fun d => exists path, decode path noop = Ok d) ds) as Hdec.
  { apply Forall_forall. intros d0 Hd0.
    destruct (completed_decoded _ _ _ _ _ Hds Hd0) as (p & _ & Hp). eauto. }
  exists (sum_list (take (S i) (map episode_length ds))).
  split; [by rewrite Hends, running_ends_lookup|].
  split.
  { rewrite Hstart. rewrite (take_S_r _ _ (episode_length d)).
    - rewrite sum_list_snoc. lia.
    - by rewrite list_lookup_fmap, Hd. }
  rewrite Hstart, Hrs, Hdl, Hap, Hc1, Hc2. simpl.
  assert (Forall (fun d =>
                    length (mat_rows (robot_state d)) = episode_length d
                    /\ length (mat_rows (action_delta d)) = episode_length d
                    /\ length (mat_rows (action_pos d)) = episode_length d
                    /\ length (frames (color_image1 d)) = episode_length d
                    /\ length (frames (color_image2 d)) = episode_length d) ds)
    as Hsizes.
  { eapply Forall_impl; [exact Hdec|]. simpl. intros d0 [p Hp].
    destruct (process_pickle_file_lengths _ _ _ _ _ _ _ Hp) as (_&L1&L2&L3&L4&L5).
    destruct (process_pickle_file_kinds _ _ _ Hp) as ([r1 E1]&[r2 E2]&[r3 E3]&_).
    rewrite E1, E2, E3 in *. simpl in *. done. }
  split.
  { apply (channel_slice (fun d => mat_rows (robot_state d)) episode_length);
      [|done]. eapply Forall_impl; [exact Hsizes|]. simpl. tauto. }
  split.
  { apply (channel_slice (fun d => mat_rows (action_delta d)) episode_length);
      [|done]. eapply Forall_impl; [exact Hsizes|]. simpl. tauto. }
  split.
  { apply (channel_slice (fun d => mat_rows (action_pos d)) episode_length);
      [|done]. eapply Forall_impl; [exact Hsizes|]. simpl. tauto. }
  split.
  { apply (channel_slice (fun d => frames (color_image1 d)) episode_length);
      [|done]. eapply Forall_impl; [exact Hsizes|]. simpl. tauto. }
  apply (channel_slice (fun d => frames (color_image2 d)) episode_length);
    [|done]. eapply Forall_impl; [exact Hsizes|]. simpl. tauto.
Qed.

(** X13.  The completion order does not change what is aggregated.
    Two runs over the same paths, each in a pool with at least one
    worker, return or fail together, whatever their schedules and
    thread counts; when they return, [pickle_file],
    [furniture] and [success] of one are a permutation of those of the
    other, so are the rows of [robot_state], [action/delta] and
    [action/pos], and the last boundary is the same. *)
Theorem aggregate_up_to_order sched1 sched2 n1 n2 paths noop :
  (1 <= n1 -> 1 <= n2 ->
   is_ok (aggregate sched1 paths noop n1) = is_ok (aggregate sched2 paths noop n2))
  /\ forall ad1 ad2,
       aggregate sched1 paths noop n1 = Ok ad1 ->
       aggregate sched2 paths noop n2 = Ok ad2 ->
       ad_pickle_file ad1 ≡ₚ ad_pickle_file ad2
       /\ ad_furniture ad1 ≡ₚ ad_furniture ad2
       /\ ad_success ad1 ≡ₚ ad_success ad2
       /\ mat_rows (ad_robot_state ad1) ≡ₚ mat_rows (ad_robot_state ad2)
       /\ mat_rows (ad_action_delta ad1) ≡ₚ mat_rows (ad_action_delta ad2)
       /\ mat_rows (ad_action_pos ad1) ≡ₚ mat_rows (ad_action_pos ad2)
       /\ vec_items (ad_reward ad1) ≡ₚ vec_items (ad_reward ad2)
       /\ vec_items (ad_skill ad1) ≡ₚ vec_items (ad_skill ad2)
       /\ last (ad_episode_ends ad1) = last (ad_episode_ends ad2).
Proof.
  split.
  - intros Hn1 Hn2.
    pose proof (aggregate_returns_iff sched1 paths noop n1) as H1.
    pose proof (aggregate_returns_iff sched2 paths noop n2) as H2.
    destruct (is_ok (aggregate sched1 paths noop n1));
      destruct (is_ok (aggregate sched2 paths noop n2)); try done.
    + symmetry. apply H2. destruct (proj1 H1 eq_refl) as (_ & H). by split.
    + apply H1. destruct (proj1 H2 eq_refl) as (_ & H). by split.
  - intros ad1 ad2 Hagg1 Hagg2.
    destruct (parallel_process_pickle_files_content _ _ _ _ _ Hagg1)
      as (ds1 & Hds1 & _ & Hrs1 & Hdl1 & Hap1 & Hrw1 & Hsk1 & _).
    destruct (parallel_process_pickle_files_content _ _ _ _ _ Hagg2)
      as (ds2 & Hds2 & _ & Hrs2 & Hdl2 & Hap2 & Hrw2 & Hsk2 & _).
    destruct (parallel_process_pickle_files_inv _ _ _ _ _ _ _ _ _ Hagg1)
      as (ds1' & Hds1' & Hne1 & _ & Hends1 & _ & _ & _ & _ & _ & _ & _ & Hfu1 & Hsu1 & Hpf1).
    destruct (parallel_process_pickle_files_inv _ _ _ _ _ _ _ _ _ Hagg2)
      as (ds2' & Hds2' & Hne2 & _ & Hends2 & _ & _ & _ & _ & _ & _ & _ & Hfu2 & Hsu2 & Hpf2).
    assert (ds1' = ds1) as ->.
    { rewrite <- (omap_ok_value ds1), <- (omap_ok_value ds1').
      by rewrite <- Hds1, <- Hds1'. }
    assert (ds2' = ds2) as ->.
    { rewrite <- (omap_ok_value ds2), <- (omap_ok_value ds2').
      by rewrite <- Hds2, <- Hds2'. }
    assert (ds1 ≡ₚ ds2) as Hperm.
    { rewrite <- (omap_ok_value ds1), <- (omap_ok_value ds2), <- Hds1, <- Hds2.
      apply omap_Permutation. unfold completed_results.
      by rewrite !as_completed_perm. }
    rewrite Hpf1, Hpf2, Hfu1, Hfu2, Hsu1, Hsu2, Hrs1, Hrs2, Hdl1, Hdl2,
      Hap1, Hap2, Hrw1, Hrw2, Hsk1, Hsk2, Hends1, Hends2. simpl.
    repeat split; try (by rewrite Hperm).
    rewrite !running_ends_last by (by intros ?%map_eq_nil).
    f_equal. f_equal. apply sum_list_Permutation_eq. by rewrite Hperm.
Qed.
End AggregatorExtras.

Lemma parallel_process_pickle_files_no_input_witness :
  Sample.parallel_process_pickle_files [1] [] noop_threshold 4
  = Raise (ValueError "need at least one array to concatenate")
  /\ Sample.main Sample.no_fault {| overwrite := true |} [] Sample.output_path 4 [1]
       Sample.used_world
     = (Sample.used_world,
        Raise (ValueError "need at least one array to concatenate"))
  /\ Sample.parallel_process_pickle_files [1] [Sample.path_a] noop_threshold 0
     = Raise (ValueError "max_workers must be greater than 0")
  /\ Sample.main Sample.no_fault {| overwrite := true |} [Sample.path_a]
       Sample.output_path 0 [1] Sample.used_world
     = (Sample.used_world,
        Raise (ValueError "max_workers must be greater than 0")).
Proof.
  destruct (proj1 (parallel_process_pickle_files_no_input Sample.float32
                     Sample.quat_to_rot_6d Sample.filter_and_concat_robot_state
                     Sample.unpickle_data Sample.no_fault Sample.torn_write
                     Sample.astype_other [1] noop_threshold 4))
    as [Hagg Hrun]; [lia|].
  destruct (proj2 (parallel_process_pickle_files_no_input Sample.float32
                     Sample.quat_to_rot_6d Sample.filter_and_concat_robot_state
                     Sample.unpickle_data Sample.no_fault Sample.torn_write
                     Sample.astype_other [1] noop_threshold 0)
              eq_refl [Sample.path_a])
    as [Hagg0 Hrun0].
  split; [exact Hagg|]. split; [apply Hrun; right; reflexivity|].
  split; [exact Hagg0|]. apply Hrun0. right. reflexivity.
Defined.

Lemma episode_ends_bookkeeping_witness :
  exists all_data ds,
    Sample.parallel_process_pickle_files [1] [Sample.path_a; Sample.path_b]
      noop_threshold 4 = Ok all_data
    /\ completed_results Sample.float32 Sample.quat_to_rot_6d
         Sample.filter_and_concat_robot_state Sample.unpickle_data
         [1] [Sample.path_a; Sample.path_b] noop_threshold = map Ok ds
    /\ ad_episode_ends all_data = [3; 5]
    /\ last (ad_episode_ends all_data) = Some (len (ad_robot_state all_data))
    /\ ad_pickle_file all_data = map pickle_file ds.
Proof.
  eexists.
  destruct (episode_ends_bookkeeping Sample.float32 Sample.quat_to_rot_6d
              Sample.filter_and_concat_robot_state Sample.unpickle_data
              [1] [Sample.path_a; Sample.path_b] noop_threshold 4
              _ eq_refl)
    as (ds & Hds & _ & _ & _ & _ & Hlast & _ & _ & _ & _ & _ & _ & Hpf).
  exists ds. split; [reflexivity|]. split; [exact Hds|].
  split; [vm_compute; reflexivity|]. split; [exact Hlast | exact Hpf].
Defined.

Lemma parallel_process_pickle_files_returns_iff_witness :
  is_ok (Sample.parallel_process_pickle_files [1] [Sample.path_a; Sample.path_b]
           noop_threshold 4) = true
  /\ (1 <= 2 /\ [Sample.path_b; Sample.path_a] ≠ [])
  /\ is_ok (Sample.parallel_process_pickle_files [1] [Sample.path_a; Sample.path_b]
              noop_threshold 0) ≠ true.
Proof.
  split; [|split].
  - apply (proj2 (parallel_process_pickle_files_returns_iff Sample.float32
                    Sample.quat_to_rot_6d Sample.filter_and_concat_robot_state
                    Sample.unpickle_data [1] [Sample.path_a; Sample.path_b]
                    noop_threshold 4)).
    split; [lia|]. split; [discriminate|]. split.
    + intros path Hpath. apply elem_of_cons in Hpath as [->|Hpath]; [reflexivity|].
      apply elem_of_cons in Hpath as [->|Hpath]; [reflexivity|].
      by apply elem_of_nil in Hpath.
    + exists [2; 2; 3], [2; 2; 3]. intros path d Hpath Hd.
      apply elem_of_cons in Hpath as [->|Hpath].
      { vm_compute in Hd. injection Hd as <-. split; reflexivity. }
      apply elem_of_cons in Hpath as [->|Hpath].
      { vm_compute in Hd. injection Hd as <-. split; reflexivity. }
      by apply elem_of_nil in Hpath.
  - destruct (proj1 (parallel_process_pickle_files_returns_iff Sample.float32
                       Sample.quat_to_rot_6d Sample.filter_and_concat_robot_state
                       Sample.unpickle_data [0] [Sample.path_b; Sample.path_a]
                       noop_threshold 2))
      as (Hn & Hne & _); [vm_compute; reflexivity|].
    split; [exact Hn | exact Hne].
  - intros Hok.
    destruct (proj1 (parallel_process_pickle_files_returns_iff Sample.float32
                       Sample.quat_to_rot_6d Sample.filter_and_concat_robot_state
                       Sample.unpickle_data [1] [Sample.path_a; Sample.path_b]
                       noop_threshold 0) Hok)
      as (Hn & _).
    lia.
Defined.

Lemma episode_slices_witness :
  exists all_data d,
    Sample.parallel_process_pickle_files [1] [Sample.path_a; Sample.path_b]
      noop_threshold 4 = Ok all_data
    /\ completed_results Sample.float32 Sample.quat_to_rot_6d
         Sample.filter_and_concat_robot_state Sample.unpickle_data
         [1] [Sample.path_a; Sample.path_b] noop_threshold !! 1 = Some (Ok d)
    /\ let start := default 0 (ad_episode_ends all_data !! 0) in
       exists stop,
         ad_episode_ends all_data !! 1 = Some stop
         /\ stop = start + episode_length d
         /\ py_slice start stop (mat_rows (ad_robot_state all_data))
            = mat_rows (robot_state d)
         /\ py_slice start stop (mat_rows (ad_action_delta all_data))
            = mat_rows (action_delta d)
         /\ py_slice start stop (mat_rows (ad_action_pos all_data))
            = mat_rows (action_pos d)
         /\ py_slice start stop (frames (ad_color_image1 all_data))
            = frames (color_image1 d)
         /\ py_slice start stop (frames (ad_color_image2 all_data))
            = frames (color_image2 d).
Proof.
  eexists _, _. split; [vm_compute; reflexivity|].
  split; [vm_compute; reflexivity|].
  apply (episode_slices Sample.float32 Sample.quat_to_rot_6d
           Sample.filter_and_concat_robot_state Sample.unpickle_data
           [1] [Sample.path_a; Sample.path_b] noop_threshold 4 _ 1).
  - vm_compute. reflexivity.
  - vm_compute. reflexivity.
Defined.

Lemma aggregate_up_to_order_witness :
  exists ad1 ad2,
    Sample.parallel_process_pickle_files [1] [Sample.path_a; Sample.path_b]
      noop_threshold 4 = Ok ad1
    /\ Sample.parallel_process_pickle_files [] [Sample.path_a; Sample.path_b]
         noop_threshold 1 = Ok ad2
    /\ ad_episode_ends ad1 = [3; 5]
    /\ ad_episode_ends ad2 = [2; 5]
    /\ is_ok (Sample.parallel_process_pickle_files [1]
                [Sample.path_a; Sample.path_missing] noop_threshold 4)
       = is_ok (Sample.parallel_process_pickle_files []
                  [Sample.path_a; Sample.path_missing] noop_threshold 1)
    /\ ad_pickle_file ad1 ≡ₚ ad_pickle_file ad2
    /\ ad_furniture ad1 ≡ₚ ad_furniture ad2
    /\ ad_success ad1 ≡ₚ ad_success ad2
    /\ mat_rows (ad_robot_state ad1) ≡ₚ mat_rows (ad_robot_state ad2)
    /\ mat_rows (ad_action_delta ad1) ≡ₚ mat_rows (ad_action_delta ad2)
    /\ mat_rows (ad_action_pos ad1) ≡ₚ mat_rows (ad_action_pos ad2)
    /\ vec_items (ad_reward ad1) ≡ₚ vec_items (ad_reward ad2)
    /\ vec_items (ad_skill ad1) ≡ₚ vec_items (ad_skill ad2)
    /\ last (ad_episode_ends ad1) = last (ad_episode_ends ad2).
Proof.
  eexists _, _. split; [vm_compute; reflexivity|].
  split; [vm_compute; reflexivity|].
  split; [vm_compute; reflexivity|]. split; [vm_compute; reflexivity|].
  split.
  - apply (proj1 (aggregate_up_to_order Sample.float32 Sample.quat_to_rot_6d
                    Sample.filter_and_concat_robot_state Sample.unpickle_data
                    [1] [] 4 1 [Sample.path_a; Sample.path_missing]
                    noop_threshold)); lia.
  - apply (proj2 (aggregate_up_to_order Sample.float32 Sample.quat_to_rot_6d
                    Sample.filter_and_concat_robot_state Sample.unpickle_data
                    [1] [] 4 1 [Sample.path_a; Sample.path_b] noop_threshold)).
    + vm_compute. reflexivity.
    + vm_compute. reflexivity.
Defined.

(** ** The store, once more *)

Lemma python_in_substring needle s :
  needle ≠ "" ->
  python_in needle s = true
  <-> exists k, String.substring k (String.length needle) s = needle.
Proof.
  intros Hne. unfold python_in.
  destruct (String.index 0 needle s) as [m|] eqn:Hidx.
  - split; [intros _|done]. exists m. by apply (index_correct1 0).
  - split; [done|]. intros [k Hk]. exfalso.
    apply (index_correct3 0 k _ _ Hidx); [done | lia | done].
Qed.

Section StoreExtras.
Context {F : Type}.
Variable write_fault : string -> bool.
Variable torn_write : string -> option (value F) -> value F -> option (value F).
Variable astype_other : dtype -> value F -> result (value F).

(** X14.  [initialize_zarr_store] on a list of distinct plain names,
    none of which lies under the path of another, with shapes of at
    least one dimension whose trailing dimensions are positive, and a
    positive chunk size: it returns the handle
    of a store that holds nothing but [time_created] and, for every
    listed channel, an empty dataset of the listed shape and dtype with
    chunks [(chunksize,) + shape[1:]]; a channel gets the zstd level-9
    bit-shuffle compressor exactly when its name has ["color_image"] as
    a substring, and no compressor argument otherwise.  What was at that
    path before is gone. *)
Theorem initialize_zarr_store_any (out : Path)
    (specs : list (string * list nat * dtype)) (cs : nat) (w : world F) :
  1 <= cs ->
  NoDup (map (fun spec => spec.1.1) specs) ->
  Forall (fun spec => plain_name spec.1.1 = true
                      /\ spec.1.2 ≠ []
                      /\ Forall (fun n => 1 <= n) (drop 1 spec.1.2)) specs ->
  Forall (fun a => Forall (fun b => nested a.1.1 b.1.1 = false) specs) specs ->
  exists w' s,
    initialize_zarr_store out specs cs w = (w', Ok out)
    /\ fs w' = <[parts out := s]> (fs w)
    /\ attrs s = {[ "time_created" := AStr (pretty (clock w)) ]}
    /\ (forall name shp dt,
          (name, shp, dt) ∈ specs ->
          exists comp,
            datasets s !! name
            = Some {| ds_shape := shp; ds_dtype := dt;
                      ds_chunks := cs :: drop 1 shp;
                      ds_compressor := comp; ds_data := None |}
            /\ (comp = Some image_compressor \/ comp = None)
            /\ (comp = Some image_compressor
                <-> exists k, String.substring k 11 name = "color_image"))
    /\ (forall name, name ∉ map (fun spec => spec.1.1) specs ->
          datasets s !! name = None).
Proof.
  intros _ Hnd _ _.
  destruct (initialize_zarr_store_spec out specs cs w Hnd)
    as (s & Hrun & Hattrs & Hin & Hout).
  eexists _, s. split; [exact Hrun|]. split; [done|]. split; [done|].
  split; [|done].
  intros name shp dt Hspec. rewrite (Hin _ _ _ Hspec). unfold new_dataset.
  pose proof (python_in_substring "color_image" name) as Hsub. simpl in Hsub.
  destruct (python_in "color_image" name).
  - eexists. split; [reflexivity|]. split; [by left|].
    split; [intros _; by apply Hsub|done].
  - eexists. split; [reflexivity|]. split; [by right|].
    split; [done|]. intros Hk. apply Hsub in Hk; done.
Qed.

(** One write, by its outcome. *)
Lemma write_channel_outcome (z : Path) name v (w : world F) s :
  fs w !! parts z = Some s ->
  exists evs,
    write_channel write_fault torn_write astype_other z name v w
    = ({| fs := <[parts z :=
                   {| attrs := attrs s;
                      datasets :=
                        match data_after write_fault torn_write astype_other s name v with
                        | Some d' => <[name := d']> (datasets s)
                        | None => datasets s
                        end |}]> (fs w);
          clock := clock w;
          log := log w ++ evs |},
       (fun _ => tt) <$> write_outcome write_fault astype_other s name v).
Proof.
  intros Hs. unfold write_channel, write_outcome, data_after. rewrite Hs.
  assert (forall (e : exn),
            (w, @Raise unit e)
            = ({| fs := <[parts z := {| attrs := attrs s; datasets := datasets s |}]> (fs w);
                  clock := clock w; log := log w ++ [] |}, Raise e)) as Hsame.
  { intros e. rewrite app_nil_r.
    replace {| attrs := attrs s; datasets := datasets s |} with s by (by destruct s).
    rewrite (insert_id _ _ _ Hs). by destruct w. }
  destruct (datasets s !! name) as [d|] eqn:Hd; simpl.
  - destruct (negb (shape_eqb (value_shape v) (ds_shape d))); simpl.
    + exists []. rewrite (insert_id _ _ _ Hd). apply Hsame.
    + destruct (bulk_write write_fault astype_other name d v) as [v'|e]; simpl.
      * exists [EvWrite name]. by rewrite (update_store_Some _ _ _ s).
      * exists []. rewrite (update_store_Some _ _ _ s) by done.
        by rewrite app_nil_r.
  - exists []. apply Hsame.
Qed.

Lemma write_outcome_insert (s : store F) name (d : dataset F) name' (v' : value F) :
  name ≠ name' ->
  write_outcome write_fault astype_other
    {| attrs := attrs s; datasets := <[name := d]> (datasets s) |} name' v'
  = write_outcome write_fault astype_other s name' v'
  /\ data_after write_fault torn_write astype_other
       {| attrs := attrs s; datasets := <[name := d]> (datasets s) |} name' v'
     = data_after write_fault torn_write astype_other s name' v'.
Proof.
  intros Hne. unfold write_outcome, data_after. simpl.
  by rewrite lookup_insert_ne.
Qed.

(** All the tasks of the pool, whatever their order. *)
Lemma run_futures_writes (z : Path) (order : list (string * value F))
    (w : world F) s :
  fs w !! parts z = Some s ->
  NoDup (map fst order) ->
  exists s' evs,
    run_futures
      (map (fun '(key, v) =>
              write_to_zarr_store write_fault torn_write astype_other z key v) order) w
    = ({| fs := <[parts z := s']> (fs w); clock := clock w; log := log w ++ evs |},
       map (fun item => (fun _ => tt)
                          <$> write_outcome write_fault astype_other s item.1 item.2)
         order)
    /\ attrs s' = attrs s
    /\ (forall name v,
          (name, v) ∈ order ->
          datasets s' !! name
          = data_after write_fault torn_write astype_other s name v)
    /\ (forall name, name ∉ map fst order -> datasets s' !! name = datasets s !! name).
Proof.
  revert w s. induction order as [|[name v] order IH]; intros w s Hs Hnd.
  - exists s, []. simpl. rewrite app_nil_r, (insert_id _ _ _ Hs).
    split; [by destruct w|]. split; [done|]. split; [|done].
    intros ?? []%elem_of_nil.
  - simpl in Hnd. apply NoDup_cons in Hnd as [Hname Hnd].
    assert (forall name' v', (name', v') ∈ order -> name ≠ name') as Hother.
    { intros name' v' Hitem ->. apply Hname. apply list_elem_of_fmap.
      by exists (name', v'). }
    cbn [map run_futures]. unfold write_to_zarr_store at 1.
    destruct (write_channel_outcome z name v w s Hs) as [evs0 ->].
    set (s1 := {| attrs := attrs s;
                  datasets :=
                    match data_after write_fault torn_write astype_other s name v with
                    | Some d' => <[name := d']> (datasets s)
                    | None => datasets s
                    end |}).
    assert (forall name' v', name ≠ name' ->
              write_outcome write_fault astype_other s1 name' v'
              = write_outcome write_fault astype_other s name' v'
              /\ data_after write_fault torn_write astype_other s1 name' v'
                 = data_after write_fault torn_write astype_other s name' v'
              /\ datasets s1 !! name' = datasets s !! name') as Hs1.
    { intros name' v' Hne. unfold s1.
      destruct (data_after write_fault torn_write astype_other s name v) as [d'|].
      - destruct (write_outcome_insert s name d' name' v' Hne) as [-> ->].
        simpl. by rewrite lookup_insert_ne.
      - by destruct s. }
    assert (datasets s1 !! name
            = data_after write_fault torn_write astype_other s name v) as Hhead.
    { unfold s1. simpl.
      destruct (data_after write_fault torn_write astype_other s name v)
        as [d'|] eqn:Hafter.
      - apply lookup_insert_eq.
      - unfold data_after in Hafter.
        by destruct (datasets s !! name). }
    destruct (IH {| fs := <[parts z := s1]> (fs w); clock := clock w;
                    log := log w ++ evs0 |} s1)
      as (s' & evs & Hrun & Hattrs & Hin & Hout).
    { simpl. apply lookup_insert_eq. }
    { done. }
    exists s', (evs0 ++ evs). rewrite Hrun. cbn [fs clock log].
    rewrite insert_insert_eq, <- app_assoc.
    split.
    { f_equal. simpl. f_equal. apply map_ext_in.
      intros [name' v'] Hin'%list_elem_of_In. simpl.
      by destruct (Hs1 name' v' (Hother _ _ Hin')) as [-> _]. }
    split; [done|]. split.
    + intros name' v' [[= -> ->]|Hitem]%elem_of_cons.
      * by rewrite Hout.
      * rewrite (Hin name' v' Hitem).
        by destruct (Hs1 name' v' (Hother _ _ Hitem)) as (_ & -> & _).
    + intros name' [Hne Hnotin]%not_elem_of_cons.
      rewrite Hout by done.
      by destruct (Hs1 name' v (not_eq_sym Hne)) as (_ & _ & ->).
Qed.

Lemma wait_all_Ok (outcomes : list (result unit)) :
  wait_all outcomes = Ok tt <-> Forall (fun r => r = Ok tt) outcomes.
Proof.
  induction outcomes as [|r rs IH]; simpl.
  - split; [constructor | done].
  - destruct r as [[]|e]; simpl.
    + rewrite IH, Forall_cons. tauto.
    + split; [done|]. by intros [[=] _]%Forall_cons.
Qed.

Lemma wait_all_Raise (outcomes : list (result unit)) e :
  wait_all outcomes = Raise e -> Raise e ∈ outcomes.
Proof.
  induction outcomes as [|r rs IH]; simpl; [done|].
  destruct r as [[]|e']; simpl.
  - intros H. right. by apply IH.
  - intros [= ->]. left.
Qed.

(** X15.  [parallel_write_to_zarr] on a dictionary with plain keys, the
    store being there and none of its datasets lying under a key.  In a
    pool with at least one worker every task runs: a channel whose write
    goes through (the dataset exists, has the shape of the value, the
    value converts and the storage does not fail) holds the converted
    value afterwards; a channel whose write fails on the way holds what
    the torn write left; a write refused at once leaves its dataset as
    it was; all that whatever happens to the other channels, and the
    other datasets and the attributes are left alone.  The call returns
    when every write went through, and raises the error of one of the
    failed writes otherwise.  The resulting file system and the success
    of the call do not depend on the order in which the tasks complete
    nor on the number of workers.  A pool without workers is refused
    before anything is written. *)
Theorem parallel_write_to_zarr_spec (z : Path) (items : list (string * value F))
    (w : world F) s :
  fs w !! parts z = Some s ->
  NoDup (map fst items) ->
  Forall (fun item => plain_name item.1 = true) items ->
  map_Forall (fun name _ => Forall (fun item => nested item.1 name = false) items)
    (datasets s) ->
  (forall sched n,
     1 <= n ->
     exists s',
       fs (parallel_write_to_zarr write_fault torn_write astype_other
             sched z items n w).1
       = <[parts z := s']> (fs w)
       /\ attrs s' = attrs s
       /\ (forall name v,
             (name, v) ∈ items ->
             datasets s' !! name
             = data_after write_fault torn_write astype_other s name v)
       /\ (forall name, name ∉ map fst items ->
             datasets s' !! name = datasets s !! name)
       /\ ((parallel_write_to_zarr write_fault torn_write astype_other
              sched z items n w).2 = Ok tt
           <-> forall name v, (name, v) ∈ items ->
                 is_ok (write_outcome write_fault astype_other s name v) = true)
       /\ (forall e,
             (parallel_write_to_zarr write_fault torn_write astype_other
                sched z items n w).2 = Raise e ->
             exists name v,
               (name, v) ∈ items
               /\ write_outcome write_fault astype_other s name v = Raise e))
  /\ (forall sched1 sched2 n1 n2,
        1 <= n1 -> 1 <= n2 ->
        fs (parallel_write_to_zarr write_fault torn_write astype_other
              sched1 z items n1 w).1
        = fs (parallel_write_to_zarr write_fault torn_write astype_other
                sched2 z items n2 w).1
        /\ is_ok (parallel_write_to_zarr write_fault torn_write astype_other
                    sched1 z items n1 w).2
           = is_ok (parallel_write_to_zarr write_fault torn_write astype_other
                      sched2 z items n2 w).2)
  /\ (forall sched,
        parallel_write_to_zarr write_fault torn_write astype_other sched z items 0 w
        = (w, Raise (ValueError "max_workers must be greater than 0"))).
Proof.
  intros Hs Hnd _ _.
  assert (forall sched n,
     1 <= n ->
     exists s',
       fs (parallel_write_to_zarr write_fault torn_write astype_other
             sched z items n w).1
       = <[parts z := s']> (fs w)
       /\ attrs s' = attrs s
       /\ (forall name v,
             (name, v) ∈ items ->
             datasets s' !! name
             = data_after write_fault torn_write astype_other s name v)
       /\ (forall name, name ∉ map fst items ->
             datasets s' !! name = datasets s !! name)
       /\ ((parallel_write_to_zarr write_fault torn_write astype_other
              sched z items n w).2 = Ok tt
           <-> forall name v, (name, v) ∈ items ->
                 is_ok (write_outcome write_fault astype_other s name v) = true)
       /\ (forall e,
             (parallel_write_to_zarr write_fault torn_write astype_other
                sched z items n w).2 = Raise e ->
             exists name v,
               (name, v) ∈ items
               /\ write_outcome write_fault astype_other s name v = Raise e))
    as Hspec.
  { intros sched n Hn. unfold parallel_write_to_zarr.
    erewrite io_bind_eq; [|unfold io_lift; by rewrite thread_pool_pos].
    pose proof (as_completed_perm sched items) as Hperm.
    destruct (run_futures_writes z (as_completed sched items) w s Hs)
      as (s' & evs & Hrun & Hattrs & Hin & Hout).
    { by rewrite Hperm. }
    rewrite Hrun. cbn [fst snd fs].
    exists s'. split; [done|]. split; [done|].
    split.
    { intros name v Hitem. apply Hin. by rewrite Hperm. }
    split.
    { intros name Hname. apply Hout. by rewrite Hperm. }
    split.
    - rewrite wait_all_Ok, Forall_fmap, Forall_forall. split.
      + intros H name v Hitem. specialize (H (name, v)). simpl in H.
        destruct (write_outcome write_fault astype_other s name v); [done|].
        discriminate H. by rewrite Hperm.
      + intros H [name v] Hitem. simpl. specialize (H name v).
        destruct (write_outcome write_fault astype_other s name v); [done|].
        discriminate H. by rewrite <- Hperm.
    - intros e (item & He & Hitem)%wait_all_Raise%list_elem_of_fmap.
      exists item.1, item.2. split; [rewrite <- Hperm; by destruct item|].
      destruct (write_outcome write_fault astype_other s item.1 item.2);
        [done | by injection He as ->]. }
  split; [exact Hspec|]. split; [|done].
  intros sched1 sched2 n1 n2 Hn1 Hn2.
  destruct (Hspec sched1 n1 Hn1) as (s1 & -> & Ha1 & Hin1 & Hout1 & Hok1 & _).
  destruct (Hspec sched2 n2 Hn2) as (s2 & -> & Ha2 & Hin2 & Hout2 & Hok2 & _).
  split.
  - f_equal. destruct s1 as [a1 d1], s2 as [a2 d2]. simpl in *. f_equal.
    + congruence.
    + apply map_eq. intros name.
      destruct (decide (name ∈ map fst items)) as [Hname|Hname].
      * apply list_elem_of_fmap in Hname as ([name' v] & -> & Hitem). simpl.
        by rewrite (Hin1 _ _ Hitem), (Hin2 _ _ Hitem).
      * by rewrite Hout1, Hout2.
  - destruct (parallel_write_to_zarr write_fault torn_write astype_other
                sched1 z items n1 w).2 as [[]|e1] eqn:E1;
      destruct (parallel_write_to_zarr write_fault torn_write astype_other
                  sched2 z items n2 w).2 as [[]|e2] eqn:E2;
      try done.
    + assert (@Raise unit e2 = Ok tt) as [=]. { apply Hok2, Hok1. done. }
    + assert (@Raise unit e1 = Ok tt) as [=]. { apply Hok1, Hok2. done. }
Qed.
End StoreExtras.

Lemma wrap_small bits n : (Z.of_nat n < 2 ^ bits)%Z -> wrap bits n = n.
Proof.
  intros Hn. unfold wrap. rewrite Z.mod_small by lia. apply Nat2Z.id.
Qed.

Lemma running_ends_bounded start lengths e :
  e ∈ running_ends start lengths -> e <= start + sum_list lengths.
Proof.
  revert start. induction lengths as [|n ns IH]; intros start; simpl.
  - by intros ?%elem_of_nil.
  - intros [->|Hin%IH]%elem_of_cons; lia.
Qed.

Section MainExtras.
Context {R F RobotState : Type}.
Variable float32 : R -> F.
Variable quat_to_rot_6d : F * F * F * F -> F * F * F * F * F * F.
Variable filter_and_concat_robot_state : RobotState -> list R.
Variable unpickle_data : Path -> result (@Trajectory R RobotState).
Variable write_fault : string -> bool.
Variable torn_write : string -> option (value F) -> value F -> option (value F).
Variable astype_other : dtype -> value F -> result (value F).

Abbreviation aggregate :=
  (parallel_process_pickle_files float32 quat_to_rot_6d
     filter_and_concat_robot_state unpickle_data).
Abbreviation script :=
  (main float32 quat_to_rot_6d filter_and_concat_robot_state unpickle_data
     write_fault torn_write astype_other).

(** X16.  What the script leaves in the store.  Past the guard and
    after a successful decode phase, the store at the output path holds
    exactly the eleven channels, each with the shape of its aggregated
    array and chunks [(1000,) + shape[1:]].  The channels before the
    first storage fault, in the order of the keys of [all_data], hold
    their aggregated array as converted to the dtype of the dataset;
    the channel of the fault holds what the torn write left, and the
    channels after it hold nothing: the script returns when there is no
    fault and raises the fault otherwise, without undoing the writes
    already made.  The conversion changes two channels only: the success
    flags are stored as 0 and 1, and the episode boundaries as [uint32],
    that is unchanged as long as the number of steps is below [2^32]. *)
Theorem main_store_contents args paths out n sched (w : world F) all_data :
  fs w !! parts out = None \/ overwrite args = true ->
  aggregate sched paths noop_threshold n = Ok all_data ->
  (exists s,
     fs (script args paths out n sched w).1 = <[parts out := s]> (fs w)
     /\ (script args paths out n sched w).2
        = (if forallb (fun name => negb (write_fault name)) channel_names
           then Ok tt else Raise (OSError "write failed"))
     /\ (forall name, is_Some (datasets s !! name) <-> name ∈ channel_names)
     /\ (forall name v,
           (name, v) ∈ all_data_items all_data ->
           exists d,
             datasets s !! name = Some d
             /\ ds_shape d = value_shape v
             /\ ds_chunks d = 1000 :: drop 1 (value_shape v)
             /\ (name ∈ written write_fault channel_names ->
                 ds_data d = Some (as_stored v))
             /\ (first_fault write_fault channel_names = Some name ->
                 ds_data d = torn_write name None v)
             /\ (name ∉ written write_fault channel_names ->
                 first_fault write_fault channel_names ≠ Some name ->
                 ds_data d = None)))
  /\ (forall name v,
        (name, v) ∈ all_data_items all_data ->
        name ≠ "episode_ends" -> name ≠ "success" -> as_stored v = v)
  /\ @as_stored F (VBools (ad_success all_data))
     = VInts (map Nat.b2n (ad_success all_data))
  /\ @as_stored F (VInts (ad_episode_ends all_data))
     = VInts (map (wrap 32) (ad_episode_ends all_data))
  /\ ((Z.of_nat (len (ad_robot_state all_data)) < 2 ^ 32)%Z ->
      @as_stored F (VInts (ad_episode_ends all_data))
      = VInts (ad_episode_ends all_data)).
Proof.
  intros Hguard Hagg. split; [|split; [|split; [done|split; [done|]]]].
  - destruct (main_store float32 quat_to_rot_6d filter_and_concat_robot_state
                unpickle_data write_fault torn_write astype_other
                args paths out n sched w all_data Hguard Hagg)
      as (s & Hrun & _ & Hdom & Hitems).
    exists s. rewrite Hrun. cbn [fst snd fs].
    split; [done|]. split; [done|]. split; [exact Hdom|].
    intros name v Hitem. destruct (Hitems name v Hitem) as (dt & _ & Hd).
    eexists. split; [exact Hd|]. split; [done|]. split; [done|].
    cbn [with_data ds_data]. split; [|split].
    + intros Hin. by rewrite bool_decide_eq_true_2.
    + intros Hfirst.
      rewrite bool_decide_eq_false_2; [by rewrite bool_decide_eq_true_2|].
      intros [_ Hok]%written_elem_of.
      apply first_fault_Some in Hfirst as [_ Hfault]. congruence.
    + intros Hnot Hnotfirst. by rewrite !bool_decide_eq_false_2.
  - intros name v Hitem Hends Hsucc. unfold all_data_items in Hitem.
    rewrite !elem_of_cons, elem_of_nil in Hitem.
    repeat (destruct Hitem as [[= -> ->]|Hitem]; [done|]). done.
  - intros Hbound. simpl. f_equal.
    apply parallel_process_pickle_files_inv in Hagg
      as (ds & _ & _ & _ & Hends & Hrs & _).
    rewrite Hends. rewrite Hrs in Hbound.
    rewrite <- (map_id (running_ends 0 (map episode_length ds))) at 2.
    apply map_ext_in. intros e He%list_elem_of_In.
    apply running_ends_bounded in He. apply wrap_small. lia.
Qed.
End MainExtras.

Lemma initialize_zarr_store_any_witness :
  exists w' s,
    initialize_zarr_store Sample.output_path Stored.specs 1000 Sample.used_world
    = (w', Ok Sample.output_path)
    /\ fs w' = <[parts Sample.output_path := s]> (fs Sample.used_world)
    /\ attrs s = {[ "time_created" := AStr (pretty (clock Sample.used_world)) ]}
    /\ (forall name shp dt,
          (name, shp, dt) ∈ Stored.specs ->
          exists comp,
            datasets s !! name
            = Some {| ds_shape := shp; ds_dtype := dt;
                      ds_chunks := 1000 :: drop 1 shp;
                      ds_compressor := comp; ds_data := None |}
            /\ (comp = Some image_compressor \/ comp = None)
            /\ (comp = Some image_compressor
                <-> exists k, String.substring k 11 name = "color_image"))
    /\ (forall name, name ∉ map (fun spec => spec.1.1) Stored.specs ->
          datasets s !! name = None).
Proof.
  apply (initialize_zarr_store_any Sample.output_path Stored.specs 1000
           Sample.used_world).
  - lia.
  - apply (bool_decide_unpack _). vm_compute. exact I.
  - repeat (constructor;
            [split; [reflexivity | split; [discriminate | repeat constructor]]|]).
    constructor.
  - apply (bool_decide_unpack _). vm_compute. exact I.
Defined.

Lemma parallel_write_to_zarr_spec_witness :
  (exists s',
     fs (parallel_write_to_zarr Sample.reward_fault Sample.torn_write
           Sample.astype_other [1] Sample.output_path Stored.long_items 2
           Stored.world0).1
     = <[parts Sample.output_path := s']> (fs Stored.world0)
     /\ attrs s' = attrs Stored.store0
     /\ (forall name v,
           (name, v) ∈ Stored.long_items ->
           datasets s' !! name
           = data_after Sample.reward_fault Sample.torn_write Sample.astype_other
               Stored.store0 name v)
     /\ (forall name, name ∉ map fst Stored.long_items ->
           datasets s' !! name = datasets Stored.store0 !! name)
     /\ ((parallel_write_to_zarr Sample.reward_fault Sample.torn_write
            Sample.astype_other [1] Sample.output_path Stored.long_items 2
            Stored.world0).2 = Ok tt
         <-> forall name v, (name, v) ∈ Stored.long_items ->
               is_ok (write_outcome Sample.reward_fault Sample.astype_other
                        Stored.store0 name v) = true)
     /\ (forall e,
           (parallel_write_to_zarr Sample.reward_fault Sample.torn_write
              Sample.astype_other [1] Sample.output_path Stored.long_items 2
              Stored.world0).2 = Raise e ->
           exists name v,
             (name, v) ∈ Stored.long_items
             /\ write_outcome Sample.reward_fault Sample.astype_other
                  Stored.store0 name v = Raise e))
  /\ (parallel_write_to_zarr Sample.reward_fault Sample.torn_write
        Sample.astype_other [1] Sample.output_path Stored.long_items 2
        Stored.world0).2
     = Raise (ValueError "parameter 'value': expected array with shape (2,), got (3,)")
  /\ ds_data <$> data_after Sample.reward_fault Sample.torn_write
                   Sample.astype_other Stored.store0 "reward"
                   (VFloat (Vec [5; 7]%Z))
     = Some (Some (VFloat (Vec [5; 0]%Z)))
  /\ ds_data <$> data_after Sample.no_fault Sample.torn_write
                   Sample.astype_other Stored.store0 "reward"
                   (VFloat (Vec [5; 7]%Z))
     = Some (Some (VFloat (Vec [5; 7]%Z)))
  /\ parallel_write_to_zarr Sample.reward_fault Sample.torn_write
       Sample.astype_other [1] Sample.output_path Stored.long_items 0 Stored.world0
     = (Stored.world0, Raise (ValueError "max_workers must be greater than 0")).
Proof.
  pose proof (parallel_write_to_zarr_spec Sample.reward_fault Sample.torn_write
                Sample.astype_other Sample.output_path Stored.long_items
                Stored.world0 Stored.store0) as Hspec.
  destruct Hspec as (Hrun & _ & Hzero).
  - vm_compute. reflexivity.
  - apply (bool_decide_unpack _). vm_compute. exact I.
  - repeat (constructor; [reflexivity|]). constructor.
  - apply (bool_decide_unpack _). vm_compute. exact I.
  - split; [apply Hrun; lia|].
    split; [vm_compute; reflexivity|].
    split; [vm_compute; reflexivity|].
    split; [vm_compute; reflexivity|].
    apply Hzero.
Defined.

Lemma main_store_contents_witness :
  exists all_data,
    Sample.parallel_process_pickle_files [1] [Sample.path_a; Sample.path_b]
      noop_threshold 4 = Ok all_data
    /\ (exists s,
          fs (Sample.main Sample.skill_fault {| overwrite := false |}
                [Sample.path_a; Sample.path_b] Sample.output_path 4 [1]
                Sample.fresh_world).1
          = <[parts Sample.output_path := s]> (fs Sample.fresh_world)
          /\ (Sample.main Sample.skill_fault {| overwrite := false |}
                [Sample.path_a; Sample.path_b] Sample.output_path 4 [1]
                Sample.fresh_world).2
             = Raise (OSError "write failed")
          /\ (forall name, is_Some (datasets s !! name) <-> name ∈ channel_names)
          /\ (forall name v,
                (name, v) ∈ all_data_items all_data ->
                exists d,
                  datasets s !! name = Some d
                  /\ ds_shape d = value_shape v
                  /\ ds_chunks d = 1000 :: drop 1 (value_shape v)
                  /\ (name ∈ written Sample.skill_fault channel_names ->
                      ds_data d = Some (as_stored v))
                  /\ (first_fault Sample.skill_fault channel_names = Some name ->
                      ds_data d = Sample.torn_write name None v)
                  /\ (name ∉ written Sample.skill_fault channel_names ->
                      first_fault Sample.skill_fault channel_names ≠ Some name ->
                      ds_data d = None)))
    /\ @as_stored Z (VInts (ad_episode_ends all_data)) = VInts [3; 5]
    /\ @as_stored Z (VBools (ad_success all_data)) = VInts [1; 1]
    /\ Sample.torn_write "skill" None (VFloat (ad_skill all_data))
       = Some (VFloat (Vec [1; 0; 0; 0; 0]%Z)).
Proof.
  eexists.
  destruct (main_store_contents Sample.float32 Sample.quat_to_rot_6d
              Sample.filter_and_concat_robot_state Sample.unpickle_data
              Sample.skill_fault Sample.torn_write Sample.astype_other
              {| overwrite := false |}
              [Sample.path_a; Sample.path_b] Sample.output_path 4 [1]
              Sample.fresh_world _ (or_introl eq_refl) eq_refl)
    as (Hstore & _ & _ & _ & Hsmall).
  split; [reflexivity|]. split; [exact Hstore|].
  split; [rewrite Hsmall; [vm_compute; reflexivity | vm_compute; reflexivity]|].
  split; vm_compute; reflexivity.
Defined.

(** ** The channel statistics *)

Lemma stats_of_inv key st :
  stats_of key = Ok st ->
  exists entry, entry ∈ data_stats /\ entry.1 = key /\ entry.2 = st.
Proof.
  unfold stats_of.
  destruct (list_find _ data_stats) as [[i [k st']]|] eqn:Hfind; [|done].
  intros [= <-]. apply list_find_Some in Hfind as (Hi & Hk & _).
  exists (k, st'). split; [by eapply list_elem_of_lookup_2|].
  split; [|done]. simpl in Hk. by apply bool_decide_unpack in Hk.
Qed.

Section StatsExtras.
Context {R F RobotState : Type}.
Variable float32 : R -> F.
Variable quat_to_rot_6d : F * F * F * F -> F * F * F * F * F * F.
Variable filter_and_concat_robot_state : RobotState -> list R.
Variable unpickle_data : Path -> result (@Trajectory R RobotState).

Abbreviation decode :=
  (process_pickle_file float32 quat_to_rot_6d filter_and_concat_robot_state unpickle_data).

(** X17.  The statistics table has entries for [action/delta],
    [action/pos] and [robot_state] and for no other key.  In each entry
    the minima and the maxima are as many as the channel of that name,
    as the decoder produces it, is wide (10, 9 and 16), and every
    minimum is at most the maximum at the same position. *)
Theorem data_stats_fit_the_channels :
  (forall key,
     is_ok (stats_of key) = true
     <-> key ∈ ["action/delta"; "action/pos"; "robot_state"])
  /\ (forall key st,
        stats_of key = Ok st ->
        length (stat_min st) = length (stat_max st)
        /\ Forall2 (fun lo hi => PrimFloat.leb lo hi = true) (stat_min st) (stat_max st))
  /\ (forall path noop d st_delta st_pos st_state,
        decode path noop = Ok d ->
        stats_of "action/delta" = Ok st_delta ->
        stats_of "action/pos" = Ok st_pos ->
        stats_of "robot_state" = Ok st_state ->
        shape (action_delta d) = [episode_length d; length (stat_min st_delta)]
        /\ shape (action_pos d) = [episode_length d; length (stat_min st_pos)]
        /\ shape (robot_state d) = [episode_length d; length (stat_min st_state)]).
Proof.
  split; [|split].
  - intros key. split.
    + destruct (stats_of key) as [st|] eqn:Hst; [intros _|done].
      apply stats_of_inv in Hst as (entry & Hin & <- & _).
      unfold data_stats in Hin. rewrite !elem_of_cons, elem_of_nil in Hin.
      rewrite !elem_of_cons.
      destruct Hin as [->|[->|[->|[]]]]; simpl; auto.
    + rewrite !elem_of_cons, elem_of_nil.
      intros [->|[->|[->|[]]]]; reflexivity.
  - intros key st (entry & Hin & _ & <-)%stats_of_inv.
    unfold data_stats in Hin. rewrite !elem_of_cons, elem_of_nil in Hin.
    destruct Hin as [->|[->|[->|[]]]]; simpl;
      (split; [reflexivity|]); repeat constructor.
  - intros path noop d st_delta st_pos st_state Hd [= <-] [= <-] [= <-].
    destruct (process_pickle_file_lengths _ _ _ _ _ _ _ Hd) as (_&L1&L2&L3&_).
    apply process_pickle_file_inv in Hd
      as (data&im1&im2&i&_&_&_&_&_&_&_&_&_&Hrs&_&_&Hdl&Hap&_).
    rewrite Hrs, Hdl, Hap in *. simpl in *. by rewrite L1, L2, L3.
Qed.
End StatsExtras.

Lemma data_stats_fit_the_channels_witness :
  exists d st_delta st_pos st_state,
    Sample.process_pickle_file Sample.path_b 0%float = Ok d
    /\ stats_of "action/delta" = Ok st_delta
    /\ (length (stat_min st_delta) = length (stat_max st_delta)
        /\ Forall2 (fun lo hi => PrimFloat.leb lo hi = true)
             (stat_min st_delta) (stat_max st_delta))
    /\ shape (action_delta d) = [episode_length d; length (stat_min st_delta)]
    /\ shape (action_pos d) = [episode_length d; length (stat_min st_pos)]
    /\ shape (robot_state d) = [episode_length d; length (stat_min st_state)].
Proof.
  pose proof (data_stats_fit_the_channels Sample.float32 Sample.quat_to_rot_6d
                Sample.filter_and_concat_robot_state Sample.unpickle_data)
    as (_ & Hle & Hwidth).
  eexists _, _, _, _. split; [vm_compute; reflexivity|].
  split; [reflexivity|].
  split; [apply (Hle "action/delta"); reflexivity|].
  apply (Hwidth Sample.path_b 0%float); reflexivity.
Defined.
